(** * Authorization, ownership and derived-field logic of the anthropometry backend

    A shallow embedding of the Express/Mongoose route handlers and model
    hooks, followed by the properties stated about them.

    Layout of the development:
    - documents, JSON values and ObjectIds;
    - the part of the MongoDB query language the handlers use;
    - Mongoose schemas, validation, save hooks;
    - symbolic JSON web tokens;
    - express-validator chains;
    - the route handlers, one definition per route;
    - the theorems. *)

From Stdlib Require Import ZArith NArith Lia Bool List Ascii String Sorted.
From Stdlib Require Import Floats.PrimFloat.
From stdpp Require Import gmap strings list fin_maps.

Local Open Scope string_scope.
Local Open Scope list_scope.
Local Open Scope Z_scope.

(* ===================================================================== *)
(** ** JSON values and documents *)
(* ===================================================================== *)

(** JSON web tokens are kept symbolic. A token carries its claim set and
    the signature computed when it was issued: the key used and the claim
    set that was signed. Editing the claims of a token leaves the signature
    as it was. *)
Record claims : Type := {
  c_userId : N;
  c_role : option string;
  c_iat : Z;
  c_exp : Z
}.

Record token : Type := {
  t_claims : claims;
  t_sig_key : string;
  t_sig_over : claims
}.

(** A JavaScript value as it travels in request bodies and sits in stored
    documents. [VNum] is an IEEE double, [VId] a 12-byte ObjectId read as a
    number, [VDate] a timestamp in milliseconds, [VJwt] the string a token
    is encoded as. An absent property ([undefined]) is a missing key of the
    enclosing map. *)
#[warnings="-register-all"]
Inductive value : Type :=
| VNull
| VBool (b : bool)
| VNum (x : float)
| VStr (s : string)
| VId (o : N)
| VDate (t : Z)
| VJwt (t : token)
| VArr (l : list value)
| VObj (l : list (string * value)).

(** Documents and request bodies are objects keyed by property name. *)
Abbreviation doc := (gmap string value).

Definition option_eqb {A} (f : A -> A -> bool) (a b : option A) : bool :=
  match a, b with
  | Some x, Some y => f x y
  | None, None => true
  | _, _ => false
  end.

Definition claims_eqb (a b : claims) : bool :=
  N.eqb (c_userId a) (c_userId b) && option_eqb String.eqb (c_role a) (c_role b)
  && Z.eqb (c_iat a) (c_iat b) && Z.eqb (c_exp a) (c_exp b).

Definition token_eqb (a b : token) : bool :=
  claims_eqb (t_claims a) (t_claims b) && String.eqb (t_sig_key a) (t_sig_key b)
  && claims_eqb (t_sig_over a) (t_sig_over b).

(** Deep equality of values (numbers are compared as doubles). *)
Fixpoint value_eqb (a b : value) {struct a} : bool :=
  match a, b with
  | VNull, VNull => true
  | VBool x, VBool y => Bool.eqb x y
  | VNum x, VNum y => PrimFloat.eqb x y
  | VStr x, VStr y => String.eqb x y
  | VId x, VId y => N.eqb x y
  | VDate x, VDate y => Z.eqb x y
  | VJwt x, VJwt y => token_eqb x y
  | VArr xs, VArr ys =>
      (fix go (xs ys : list value) {struct xs} : bool :=
         match xs, ys with
         | [], [] => true
         | x :: xs', y :: ys' => value_eqb x y && go xs' ys'
         | _, _ => false
         end) xs ys
  | VObj xs, VObj ys =>
      (fix go (xs ys : list (string * value)) {struct xs} : bool :=
         match xs, ys with
         | [], [] => true
         | (k, x) :: xs', (k', y) :: ys' =>
             String.eqb k k' && value_eqb x y && go xs' ys'
         | _, _ => false
         end) xs ys
  | _, _ => false
  end.

(** JavaScript truthiness of a property read: [undefined], [null], [false],
    [0], [-0], [NaN] and the empty string are falsy. *)
Definition num_falsy (x : float) : bool :=
  PrimFloat.eqb x 0%float || PrimFloat.is_nan x.

Definition truthy (p : option value) : bool :=
  match p with
  | None | Some VNull => false
  | Some (VBool b) => b
  | Some (VNum x) => negb (num_falsy x)
  | Some (VStr s) => negb (String.eqb s "")
  | Some _ => true
  end.

Definition jwt_sign (userId : N) (role : option string) (secret : string)
    (expiresIn : Z) (now_ms : Z) : token :=
  let iat := now_ms / 1000 in
  let c := {| c_userId := userId; c_role := role; c_iat := iat; c_exp := iat + expiresIn |} in
  {| t_claims := c; t_sig_key := secret; t_sig_over := c |}.

Definition one_hour : Z := 3600.
Definition seven_days : Z := 604800.

(** *** ObjectIds *)

Definition hex_digit (c : ascii) : option N :=
  let n := N_of_ascii c in
  if ((48 <=? n) && (n <=? 57))%N then Some (n - 48)%N
  else if ((97 <=? n) && (n <=? 102))%N then Some (n - 87)%N
  else if ((65 <=? n) && (n <=? 70))%N then Some (n - 55)%N
  else None.

Fixpoint hex_value (s : string) (acc : N) : option N :=
  match s with
  | EmptyString => Some acc
  | String c r =>
      match hex_digit c with
      | Some d => hex_value r (16 * acc + d)%N
      | None => None
      end
  end.

(** [/^[0-9a-fA-F]{24}$/]: exactly 24 hexadecimal digits; the result is the
    ObjectId they denote. *)
Definition parseObjectId (s : string) : option N :=
  if Nat.eqb (String.length s) 24 then hex_value s 0%N else None.

(** Mongoose's cast of a filter or path value to an ObjectId. *)
Definition castObjectId (v : value) : option N :=
  match v with
  | VId o => Some o
  | VStr s => parseObjectId s
  | _ => None
  end.

(** *** Library functions taken as an interface

    String predicates and conversions of the JavaScript runtime, of
    validator.js and of bcrypt. The handlers only pass values through them. *)
Class Externals : Type := {
  js_trim : string -> string;
  js_toLowerCase : string -> string;
  js_numToString : float -> string;
  (** [Number(s)]; [None] is [NaN]. *)
  js_toNumber : string -> option float;
  (** [new Date(x)] for a number of milliseconds. *)
  js_dateOfNumber : float -> option Z;
  (** [new Date(s)]; [None] is an invalid date. *)
  js_parseDate : string -> option Z;
  (** [{ $regex: pat, $options: 'i' }] against a string. *)
  js_regexTestI : string -> string -> bool;
  v_isEmail : string -> bool;
  v_normalizeEmail : string -> string;
  v_isISO8601 : string -> bool;
  (** validator.js [isFloat] / [isInt]: the number a string denotes. *)
  v_isFloat : string -> option float;
  v_isInt : string -> option Z;
  bcrypt_hash : string -> string;
  bcrypt_compare : string -> string -> bool
}.

(* ===================================================================== *)
(** ** The database: collections, filters, cursors *)
(* ===================================================================== *)

(** One condition of a filter object: [{ path: v }], a date range
    [{ path: { $gte, $lte } }] or a case-insensitive regular expression.
    A bound of a range is what [new Date(s)] gave: a timestamp, or [None]
    for an invalid date. *)
Inductive cond : Type :=
| CEq (v : value)
| CRange (gte lte : option (option Z))
| CRegexI (pat : string).

(** A filter is an object too: assigning [query.path = c] twice keeps the
    last condition. *)
Abbreviation query := (gmap string cond).

Inductive coll : Type := Users | Anthropometric | Performance | Health | Reports.

(** The five collections, each in insertion order, and the counter new
    ObjectIds are drawn from. *)
Record store : Type := {
  users : list doc;
  anthropometric : list doc;
  performance : list doc;
  health : list doc;
  reports : list doc;
  next_oid : N
}.

Definition get_coll (c : coll) (s : store) : list doc :=
  match c with
  | Users => users s
  | Anthropometric => anthropometric s
  | Performance => performance s
  | Health => health s
  | Reports => reports s
  end.

Definition set_coll (c : coll) (l : list doc) (s : store) : store :=
  match c with
  | Users => {| users := l; anthropometric := anthropometric s; performance := performance s;
                health := health s; reports := reports s; next_oid := next_oid s |}
  | Anthropometric => {| users := users s; anthropometric := l; performance := performance s;
                health := health s; reports := reports s; next_oid := next_oid s |}
  | Performance => {| users := users s; anthropometric := anthropometric s; performance := l;
                health := health s; reports := reports s; next_oid := next_oid s |}
  | Health => {| users := users s; anthropometric := anthropometric s; performance := performance s;
                health := l; reports := reports s; next_oid := next_oid s |}
  | Reports => {| users := users s; anthropometric := anthropometric s; performance := performance s;
                health := health s; reports := l; next_oid := next_oid s |}
  end.

(** Errors a handler's [try] block can see. *)
Inductive exn : Type :=
| CastError (path : string)
| ValidationError (errors : list (string * string))
| DuplicateKeyError (path : string)
| ImmutableFieldError
| SkipRangeError
| TypeError
| JsonWebTokenError
| TokenExpiredError.

Inductive outcome (A : Type) : Type :=
| Ok (a : A)
| Throw (e : exn).
Arguments Ok {A} a.
Arguments Throw {A} e.

(** Handlers run against the store and may throw; what was written before
    a throw stays written. *)
Definition M (A : Type) : Type := store -> outcome A * store.

Definition ret {A} (a : A) : M A := fun s => (Ok a, s).
Definition throw {A} (e : exn) : M A := fun s => (Throw e, s).
Definition bind {A B} (m : M A) (k : A -> M B) : M B :=
  fun s => match m s with
           | (Ok a, s') => k a s'
           | (Throw e, s') => (Throw e, s')
           end.
Definition read_coll (c : coll) : M (list doc) := fun s => (Ok (get_coll c s), s).
Definition write_coll (c : coll) (l : list doc) : M unit := fun s => (Ok tt, set_coll c l s).
Definition fresh_oid : M N :=
  fun s => (Ok (next_oid s),
            {| users := users s; anthropometric := anthropometric s; performance := performance s;
               health := health s; reports := reports s; next_oid := N.succ (next_oid s) |}).
Definition lift_option {A} (e : exn) (o : option A) : M A :=
  match o with Some a => ret a | None => throw e end.

Declare Scope handler_scope.
Delimit Scope handler_scope with handler.
Notation "x <- m ;; k" := (bind m (fun x => k))
  (at level 100, m at next level, right associativity) : handler_scope.
Notation "m ;;; k" := (bind m (fun _ => k))
  (at level 100, right associativity) : handler_scope.
Local Open Scope handler_scope.

Section Database.
Context `{Externals}.

Definition cond_holds (c : cond) (p : option value) : bool :=
  match c with
  | CEq VNull => match p with None | Some VNull => true | Some _ => false end
  | CEq v => match p with Some w => value_eqb v w | None => false end
  | CRange None None =>
      (* [{ path: {} }]: equality with the empty document *)
      false
  | CRange gte lte =>
      match p with
      | Some (VDate t) =>
          match gte with Some (Some a) => a <=? t | Some None => false | None => true end
          && match lte with Some (Some b) => t <=? b | Some None => false | None => true end
      | _ => false
      end
  | CRegexI pat =>
      match p with Some (VStr s) => js_regexTestI pat s | _ => false end
  end.

(** A document matches a filter when every condition holds of the
    property it names. *)
Definition matches (q : query) (d : doc) : bool :=
  forallb (fun kc : string * cond => cond_holds kc.2 (d !! kc.1)) (map_to_list q).

Definition date_of (d : doc) : option Z :=
  match d !! "date" with Some (VDate t) => Some t | _ => None end.

(** [.sort({ date: -1 })]: newest first, a missing date last. *)
Definition date_geb (a b : doc) : bool :=
  match date_of a, date_of b with
  | Some x, Some y => y <=? x
  | Some _, None => true
  | None, Some _ => false
  | None, None => true
  end.

Fixpoint insert_desc (d : doc) (l : list doc) : list doc :=
  match l with
  | [] => [d]
  | e :: l' => if date_geb d e then d :: e :: l' else e :: insert_desc d l'
  end.

Definition sort_date_desc (l : list doc) : list doc := fold_right insert_desc [] l.

(** [.skip(n).limit(k)]: a negative skip is refused by the server, a limit
    of zero means no limit and a negative limit is its absolute value. *)
Definition skip_limit (n k : Z) (l : list doc) : outcome (list doc) :=
  if n <? 0 then Throw SkipRangeError
  else let rest := drop (Z.to_nat n) l in
       Ok (if k =? 0 then rest else take (Z.to_nat (Z.abs k)) rest).

Fixpoint remove_first (f : doc -> bool) (l : list doc) : list doc :=
  match l with
  | [] => []
  | d :: l' => if f d then l' else d :: remove_first f l'
  end.

Fixpoint replace_first (f : doc -> bool) (d' : doc) (l : list doc) : list doc :=
  match l with
  | [] => []
  | d :: l' => if f d then d' :: l' else d :: replace_first f d' l'
  end.
End Database.

(* ===================================================================== *)
(** ** Mongoose: schemas, hydrated documents, validation, save *)
(* ===================================================================== *)

Inductive ptype : Type := TString | TNumber | TBoolean | TDate | TObjectId | TArray | TMixed.

(** The options a schema path is declared with. *)
Inductive popt : Type :=
| Required
| RequiredIf (f : doc -> bool)
| Enum (l : list string)
| Min (x : float)
| Max (x : float)
| MinLength (n : nat)
| Trim
| Lowercase
| Unique
| Default (v : value)
| DefaultNow.

Record pathSpec : Type := { p_name : string; p_type : ptype; p_opts : list popt }.

(** A document as the application holds it: its properties, the paths
    assigned since it was loaded, the paths whose assignment could not be
    cast, and whether it has been inserted yet. *)
Record mdoc : Type := {
  md_fields : doc;
  md_modified : list string;
  md_invalid : list string;
  md_isNew : bool
}.

(** What a request cannot determine: the clock and the string the
    access-code expression [Math.random().toString(36)...] evaluates to. *)
Record env : Type := { now : Z; random_code : string }.

Record model : Type := {
  m_coll : coll;
  m_paths : list pathSpec;
  (** a discriminator model fixes the value of the discriminator key *)
  m_discriminator : option string;
  m_timestamps : bool;
  m_pre_save : list (env -> mdoc -> mdoc)
}.

(** Server configuration: the two signing secrets of the process
    environment and Mongoose's [strictQuery] option, whose default differs
    between major versions. *)
Record config : Type := {
  JWT_SECRET : string;
  REFRESH_TOKEN_SECRET : string;
  strictQuery : bool
}.

Definition mem (k : string) (l : list string) : bool := existsb (String.eqb k) l.

Definition is_prefix (p s : string) : bool := String.prefix p s.

(** All leaf paths of a possibly nested object, dotted. *)
Fixpoint flatten (prefix : string) (v : value) {struct v} : list (string * value) :=
  match v with
  | VObj l =>
      (fix go (l : list (string * value)) : list (string * value) :=
         match l with
         | [] => []
         | (k, x) :: l' => flatten (prefix +:+ "." +:+ k) x ++ go l'
         end) l
  | _ => [(prefix, v)]
  end.

(** Reading a dotted path out of a request body. *)
Fixpoint obj_get (l : list (string * value)) (k : string) : option value :=
  match l with
  | [] => None
  | (k', v) :: l' => if String.eqb k k' then Some v else obj_get l' k
  end.

Fixpoint split_dot (s : string) : list string :=
  match s with
  | EmptyString => [EmptyString]
  | String c r =>
      if Ascii.eqb c "."%char then EmptyString :: split_dot r
      else match split_dot r with
           | [] => [String c EmptyString]
           | h :: t => String c h :: t
           end
  end.

Fixpoint value_get (v : value) (ks : list string) : option value :=
  match ks with
  | [] => Some v
  | k :: ks' =>
      match v with
      | VObj l => match obj_get l k with Some x => value_get x ks' | None => None end
      | _ => None
      end
  end.

Definition body_get (b : doc) (p : string) : option value :=
  match split_dot p with
  | [] => None
  | k :: ks => match b !! k with Some v => value_get v ks | None => None end
  end.

Section Mongoose.
Context `{Externals}.
Variable cfg : config.

Definition id_path : pathSpec := {| p_name := "_id"; p_type := TObjectId; p_opts := [] |}.
Definition timestamp_paths : list pathSpec :=
  [ {| p_name := "createdAt"; p_type := TDate; p_opts := [] |};
    {| p_name := "updatedAt"; p_type := TDate; p_opts := [] |} ].

Definition paths_of (m : model) : list pathSpec :=
  id_path :: m_paths m ++ (if m_timestamps m then timestamp_paths else []).

Definition find_path (m : model) (k : string) : option pathSpec :=
  List.find (fun p => String.eqb (p_name p) k) (paths_of m).

Definition has_opt (f : popt -> bool) (p : pathSpec) : bool := existsb f (p_opts p).

Definition is_required (p : pathSpec) (d : doc) : bool :=
  has_opt (fun o => match o with Required => true | RequiredIf f => f d | _ => false end) p.
Definition is_unique (p : pathSpec) : bool :=
  has_opt (fun o => match o with Unique => true | _ => false end) p.

(** Casting an assigned value to the declared type of its path. *)
Definition cast (t : ptype) (v : value) : option value :=
  match v with
  | VNull => Some VNull
  | _ =>
    match t with
    | TString =>
        match v with
        | VStr _ | VJwt _ => Some v
        | VNum x => Some (VStr (js_numToString x))
        | VBool b => Some (VStr (if b then "true" else "false"))
        | _ => None
        end
    | TNumber =>
        match v with
        | VNum _ => Some v
        | VStr s => VNum <$> js_toNumber s
        | VBool b => Some (VNum (if b then 1%float else 0%float))
        | _ => None
        end
    | TBoolean =>
        match v with
        | VBool _ => Some v
        | VStr s =>
            if mem s ["true"; "1"; "yes"] then Some (VBool true)
            else if mem s ["false"; "0"; "no"] then Some (VBool false)
            else None
        | VNum x =>
            if PrimFloat.eqb x 1%float then Some (VBool true)
            else if PrimFloat.eqb x 0%float then Some (VBool false)
            else None
        | _ => None
        end
    | TDate =>
        match v with
        | VDate _ => Some v
        | VStr s => VDate <$> js_parseDate s
        | VNum x => VDate <$> js_dateOfNumber x
        | _ => None
        end
    | TObjectId => VId <$> castObjectId v
    | TArray => match v with VArr _ => Some v | _ => Some (VArr [v]) end
    | TMixed => Some v
    end
  end.

(** The [trim] and [lowercase] setters of string paths. *)
Definition apply_setters (p : pathSpec) (v : value) : value :=
  match v with
  | VStr s =>
      let s1 := if has_opt (fun o => match o with Trim => true | _ => false end) p
                then js_trim s else s in
      let s2 := if has_opt (fun o => match o with Lowercase => true | _ => false end) p
                then js_toLowerCase s1 else s1 in
      VStr s2
  | _ => v
  end.

Definition same_value (a : option value) (b : value) : bool :=
  match a with Some x => value_eqb x b | None => false end.

(** [doc[k] = v] for a declared leaf path; an undeclared path is dropped
    (strict mode), an assignment of the value already there marks nothing. *)
Definition set_leaf (m : model) (k : string) (v : value) (d : mdoc) : mdoc :=
  match find_path m k with
  | None => d
  | Some p =>
      match cast (p_type p) v with
      | None =>
          {| md_fields := md_fields d; md_modified := md_modified d;
             md_invalid := k :: md_invalid d; md_isNew := md_isNew d |}
      | Some v0 =>
          let v1 := apply_setters p v0 in
          if same_value (md_fields d !! k) v1 then d
          else {| md_fields := <[k := v1]> (md_fields d);
                  md_modified := k :: md_modified d;
                  md_invalid := md_invalid d; md_isNew := md_isNew d |}
      end
  end.

Definition is_nested (m : model) (k : string) : bool :=
  existsb (fun p => is_prefix (k +:+ ".") (p_name p)) (paths_of m).

Definition clear_nested (k : string) (d : mdoc) : mdoc :=
  {| md_fields := filter (fun kv : string * value => is_prefix (k +:+ ".") kv.1 = false) (md_fields d);
     md_modified := k :: md_modified d;
     md_invalid := md_invalid d; md_isNew := md_isNew d |}.

(** [doc[k] = v]: a leaf path is assigned; a nested path given an object
    is overwritten by the object's leaves. *)
Definition set_path (m : model) (k : string) (v : value) (d : mdoc) : mdoc :=
  if is_nested m k then
    match v with
    | VObj _ => fold_left (fun d kv => set_leaf m kv.1 kv.2 d) (flatten k v) (clear_nested k d)
    | _ => d
    end
  else set_leaf m k v d.

Definition assign (m : model) (b : doc) (d : mdoc) : mdoc :=
  fold_left (fun d kv => set_path m kv.1 kv.2 d) (map_to_list b) d.

Definition default_of (e : env) (p : pathSpec) : option value :=
  match p_type p with
  | TArray => Some (VArr [])
  | _ =>
    List.fold_right (fun o acc => match o with
                                  | Default v => Some v
                                  | DefaultNow => Some (VDate (now e))
                                  | _ => acc
                                  end) None (p_opts p)
  end.

Definition apply_defaults (m : model) (e : env) (f : doc) : doc :=
  fold_left (fun f p => match f !! p_name p, default_of e p with
                        | None, Some v => <[p_name p := v]> f
                        | _, _ => f
                        end) (m_paths m) f.

(** [new Model(obj)]: a fresh [_id], the declared paths of [obj], the
    discriminator key and the defaults. *)
Definition new_doc (m : model) (e : env) (oid : N) (b : doc) : mdoc :=
  let b' := match m_discriminator m with
            | Some r => <["role" := VStr r]> b
            | None => b
            end in
  let d0 := {| md_fields := {["_id" := VId oid]}; md_modified := []; md_invalid := [];
               md_isNew := true |} in
  let d1 := assign m (delete "_id" b') d0 in
  {| md_fields := apply_defaults m e (md_fields d1); md_modified := md_modified d1;
     md_invalid := md_invalid d1; md_isNew := true |}.

Definition hydrate (f : doc) : mdoc :=
  {| md_fields := f; md_modified := []; md_invalid := []; md_isNew := false |}.

Definition isModified (d : mdoc) (k : string) : bool :=
  existsb (fun k' => String.eqb k k' || is_prefix (k +:+ ".") k') (md_modified d).

(** *** Validation *)

Definition check_opt (k : string) (v : value) (o : popt) : list (string * string) :=
  match o, v with
  | Enum l, VStr s =>
      if mem s l then []
      else [(k, "`" +:+ s +:+ "` is not a valid enum value for path `" +:+ k +:+ "`.")]
  | Enum l, _ => [(k, "Value is not a valid enum value for path `" +:+ k +:+ "`.")]
  | Min x, VNum y =>
      if PrimFloat.leb x y then []
      else [(k, "Path `" +:+ k +:+ "` is less than minimum allowed value.")]
  | Max x, VNum y =>
      if PrimFloat.leb y x then []
      else [(k, "Path `" +:+ k +:+ "` is more than maximum allowed value.")]
  | MinLength n, VStr s =>
      if (n <=? String.length s)%nat then []
      else [(k, "Path `" +:+ k +:+ "` is shorter than the minimum allowed length.")]
  | _, _ => []
  end.

Definition is_empty_value (p : option value) : bool :=
  match p with
  | None | Some VNull => true
  | Some (VStr s) => String.eqb s ""
  | _ => false
  end.

Definition validate_path (d : mdoc) (p : pathSpec) : list (string * string) :=
  let k := p_name p in
  if mem k (md_invalid d) then [(k, "Cast failed for path `" +:+ k +:+ "`.")]
  else match md_fields d !! k with
       | None | Some VNull =>
           if is_required p (md_fields d) then [(k, "Path `" +:+ k +:+ "` is required.")] else []
       | Some v =>
           if is_required p (md_fields d) && is_empty_value (Some v)
           then [(k, "Path `" +:+ k +:+ "` is required.")]
           else flat_map (check_opt k v) (p_opts p)
       end.

(** [err.errors] of the ValidationError a save would raise. *)
Definition validate (m : model) (d : mdoc) : list (string * string) :=
  flat_map (validate_path d) (m_paths m).

(** *** Queries through a model *)

(** With [strictQuery] on, conditions on undeclared paths are removed from
    the filter; with it off they are sent to the server as they are. *)
Definition strict_filter (m : model) (q : query) : query :=
  if strictQuery cfg
  then filter (fun kc : string * cond => is_Some (find_path m kc.1)) q
  else q.

(** Conditions on declared paths are cast to the path's type before the
    filter is sent; a value that cannot be cast makes the query throw. *)
Definition cast_cond (m : model) (k : string) (c : cond) : option cond :=
  match c with
  | CEq v =>
      match find_path m k with
      | Some p => (fun v' => CEq (apply_setters p v')) <$> cast (p_type p) v
      | None => Some c
      end
  | CRange (Some None) _ | CRange _ (Some None) => None
  | _ => Some c
  end.

Definition cast_query (m : model) (q : query) : outcome query :=
  match List.find (fun kc : string * cond => negb (bool_decide (is_Some (cast_cond m kc.1 kc.2))))
                  (map_to_list q) with
  | Some kc => Throw (CastError kc.1)
  | None => Ok (map_imap (cast_cond m) q)
  end.

(** The filter a model sends for [q]; it does not depend on the store. *)
Definition prepared (m : model) (q : query) : outcome query :=
  cast_query m (strict_filter m q).

Definition prepare (m : model) (q : query) : M query :=
  fun s => (prepared m q, s).

Definition find (m : model) (q : query) : M (list doc) :=
  q' <- prepare m q ;;
  c <- read_coll (m_coll m) ;;
  ret (List.filter (matches q') c).

Definition findOne (m : model) (q : query) : M (option mdoc) :=
  l <- find m q ;;
  ret (hydrate <$> head l).

Definition countDocuments (m : model) (q : query) : M Z :=
  l <- find m q ;;
  ret (Z.of_nat (length l)).

Definition deleteMany (m : model) (q : query) : M unit :=
  q' <- prepare m q ;;
  c <- read_coll (m_coll m) ;;
  write_coll (m_coll m) (List.filter (fun d => negb (matches q' d)) c).

Definition findOneAndDelete (m : model) (q : query) : M (option mdoc) :=
  q' <- prepare m q ;;
  c <- read_coll (m_coll m) ;;
  match head (List.filter (matches q') c) with
  | None => ret None
  | Some d =>
      write_coll (m_coll m) (remove_first (matches q') c) ;;;
      ret (Some (hydrate d))
  end.

Definition same_id (a b : doc) : bool :=
  match a !! "_id", b !! "_id" with
  | Some x, Some y => value_eqb x y
  | _, _ => false
  end.

(** [doc.deleteOne()] *)
Definition deleteOne (m : model) (d : mdoc) : M unit :=
  c <- read_coll (m_coll m) ;;
  write_coll (m_coll m) (remove_first (same_id (md_fields d)) c).

(** *** Save *)

Definition stamp (m : model) (e : env) (d : mdoc) : mdoc :=
  if m_timestamps m then
    let f0 := md_fields d in
    let f1 := if md_isNew d then <["createdAt" := VDate (now e)]> f0 else f0 in
    let f2 := if md_isNew d || negb (Nat.eqb (length (md_modified d)) 0)
              then <["updatedAt" := VDate (now e)]> f1 else f1 in
    {| md_fields := f2; md_modified := md_modified d; md_invalid := md_invalid d;
       md_isNew := md_isNew d |}
  else d.

(** The first unique path on which another document already holds the
    value this one is about to write. *)
Definition unique_conflict (m : model) (d : mdoc) (c : list doc) : option string :=
  p_name <$>
  List.find (fun p =>
          is_unique p
          && (md_isNew d || isModified d (p_name p))
          && match md_fields d !! p_name p with
             | Some v => existsb (fun o => negb (same_id (md_fields d) o)
                                           && same_value (o !! p_name p) v) c
             | None => false
             end) (m_paths m).

(** [doc.save()]: validation first, then the schema's own pre-save hooks,
    then the write (an insert for a new document, a replacement of the
    stored one otherwise). *)
Definition save (m : model) (e : env) (d : mdoc) : M mdoc :=
  match validate m d with
  | (_ :: _) as errs => throw (ValidationError errs)
  | [] =>
      let d1 := stamp m e (fold_left (fun d h => h e d) (m_pre_save m) d) in
      c <- read_coll (m_coll m) ;;
      if negb (md_isNew d1) && isModified d1 "_id" then throw ImmutableFieldError
      else match unique_conflict m d1 c with
           | Some k => throw (DuplicateKeyError k)
           | None =>
               write_coll (m_coll m)
                 (if md_isNew d1 then c ++ [md_fields d1]
                  else replace_first (fun o => same_id o (md_fields d)) (md_fields d1) c) ;;;
               ret (hydrate (md_fields d1))
           end
  end.

End Mongoose.

(* ===================================================================== *)
(** ** The schemas of the five models *)
(* ===================================================================== *)

Definition path (n : string) (t : ptype) (o : list popt) : pathSpec :=
  {| p_name := n; p_type := t; p_opts := o |}.

Definition role_is_athlete (d : doc) : bool :=
  match d !! "role" with
  | Some (VStr r) => String.eqb r "athlete"
  | _ => false
  end.

Definition genders : list string := ["male"; "female"; "other"].
Definition roles : list string := ["athlete"; "professional"].

Definition userSchema : list pathSpec :=
  [ path "name" TString [Required; Trim];
    path "email" TString [Required; Unique; Trim; Lowercase];
    path "password" TString [Required; MinLength 8];
    path "role" TString [Enum roles; Required];
    path "gender" TString [Enum genders; RequiredIf role_is_athlete];
    path "age" TNumber [RequiredIf role_is_athlete; Min 0%float];
    path "country" TString [RequiredIf role_is_athlete];
    path "professionalId" TObjectId [RequiredIf role_is_athlete];
    path "settings.language" TString [Default (VStr "en")];
    path "settings.theme" TString [Enum ["light"; "dark"]; Default (VStr "light")];
    path "settings.notifications.email" TBoolean [Default (VBool true)];
    path "settings.notifications.push" TBoolean [Default (VBool true)];
    path "sport" TString [Trim];
    path "position" TString [Trim];
    path "lastLogin" TDate [];
    path "isActive" TBoolean [Default (VBool true)] ].

Definition athleteSchema : list pathSpec :=
  [ path "gender" TString [Enum genders; Required];
    path "age" TNumber [Required; Min 0%float];
    path "country" TString [Required];
    path "sport" TString [Trim];
    path "position" TString [Trim];
    path "professionalId" TObjectId [Required] ].

Definition professionalSchema : list pathSpec :=
  [ path "specialization" TString [Required; Trim];
    path "licenseNumber" TString [Required; Trim];
    path "yearsOfExperience" TNumber [Required; Min 0%float];
    path "patients" TArray [] ].

Definition skinfold_sites : list string :=
  ["triceps"; "subscapular"; "biceps"; "iliac"; "supraspinal"; "abdominal"; "thigh"; "calf"].
Definition perimeter_sites : list string :=
  ["arm"; "forearm"; "chest"; "waist"; "hip"; "thigh"; "calf"].

Definition anthropometricMeasurementSchema : list pathSpec :=
  [ path "userId" TObjectId [Required];
    path "professionalId" TObjectId [Required];
    path "date" TDate [Required; DefaultNow];
    path "weight" TNumber [Required; Min 0%float];
    path "height" TNumber [Required; Min 0%float] ]
  ++ map (fun k => path ("skinfolds." +:+ k) TNumber [Min 0%float]) skinfold_sites
  ++ map (fun k => path ("perimeters." +:+ k) TNumber [Min 0%float]) perimeter_sites
  ++ [ path "bodyFatPercentage" TNumber [Min 0%float; Max 100%float];
       path "leanMass" TNumber [Min 0%float];
       path "notes" TString [Trim] ].

Definition performanceMetricsSchema : list pathSpec :=
  [ path "userId" TObjectId [Required];
    path "professionalId" TObjectId [Required];
    path "date" TDate [Required; DefaultNow];
    path "vo2max" TNumber [Min 0%float];
    path "power" TNumber [Min 0%float];
    path "speed" TNumber [Min 0%float];
    path "trainingLoad" TNumber [Min 0%float];
    path "sport" TString [Trim];
    path "position" TString [Trim];
    path "notes" TString [Trim] ].

Definition healthMetricsSchema : list pathSpec :=
  [ path "userId" TObjectId [Required];
    path "date" TDate [Required; DefaultNow];
    path "sleep.duration" TNumber [Min 0%float];
    path "sleep.quality" TNumber [Min 0%float; Max 100%float];
    path "sleep.deepSleep" TNumber [Min 0%float];
    path "sleep.lightSleep" TNumber [Min 0%float];
    path "sleep.remSleep" TNumber [Min 0%float];
    path "stress" TNumber [Min 0%float; Max 100%float];
    path "restingHeartRate" TNumber [Min 0%float];
    path "heartRateVariability" TNumber [Min 0%float];
    path "steps" TNumber [Min 0%float];
    path "source" TString [Enum ["garmin"; "google_fit"; "apple_health"]; Required];
    path "notes" TString [Trim] ].

Definition reportSchema : list pathSpec :=
  [ path "userId" TObjectId [Required];
    path "professionalId" TObjectId [Required];
    path "type" TString [Enum ["individual"; "group"]; Required];
    path "date" TDate [Required; DefaultNow];
    path "content" TMixed [Required];
    path "format" TString [Enum ["pdf"; "excel"]; Required];
    path "shared" TBoolean [Default (VBool false)];
    path "accessCode" TString [Unique] ].

(** [Base.discriminator(name, schema)]: the base paths, overridden by the
    discriminator's own declarations. *)
Definition discriminator (base child : list pathSpec) : list pathSpec :=
  map (fun p => match List.find (fun c => String.eqb (p_name c) (p_name p)) child with
                | Some c => c
                | None => p
                end) base
  ++ List.filter (fun c => negb (existsb (fun p => String.eqb (p_name c) (p_name p)) base)) child.

(** [this.k = v] inside a hook. *)
Definition write_field (k : string) (v : value) (d : mdoc) : mdoc :=
  {| md_fields := <[k := v]> (md_fields d); md_modified := k :: md_modified d;
     md_invalid := md_invalid d; md_isNew := md_isNew d |}.

Section Models.
Context `{Externals}.

(** [userSchema.pre('save')]: hash the password when it was assigned. *)
Definition hash_password (e : env) (d : mdoc) : mdoc :=
  if negb (isModified d "password") then d
  else match md_fields d !! "password" with
       | Some (VStr pw) => write_field "password" (VStr (bcrypt_hash pw)) d
       | _ => d
       end.

(** [anthropometricMeasurementSchema.pre('save')]: the lean mass. *)
Definition lean_mass (weight bodyFatPercentage : float) : float :=
  (weight * (1 - bodyFatPercentage / 100))%float.

Definition compute_leanMass (e : env) (d : mdoc) : mdoc :=
  if isModified d "weight" || isModified d "bodyFatPercentage" then
    if truthy (md_fields d !! "bodyFatPercentage") && truthy (md_fields d !! "weight") then
      match md_fields d !! "weight", md_fields d !! "bodyFatPercentage" with
      | Some (VNum w), Some (VNum bf) => write_field "leanMass" (VNum (lean_mass w bf)) d
      | _, _ => d
      end
    else d
  else d.

(** [reportSchema.pre('save')]: an access code for a shared report that
    has none yet. *)
Definition generate_accessCode (e : env) (d : mdoc) : mdoc :=
  if truthy (md_fields d !! "shared") && negb (truthy (md_fields d !! "accessCode"))
  then write_field "accessCode" (VStr (random_code e)) d
  else d.

Definition User : model :=
  {| m_coll := Users; m_paths := userSchema; m_discriminator := None;
     m_timestamps := true; m_pre_save := [hash_password] |}.

Definition Athlete : model :=
  {| m_coll := Users; m_paths := discriminator userSchema athleteSchema;
     m_discriminator := Some "athlete";
     m_timestamps := true; m_pre_save := [hash_password] |}.

Definition Professional : model :=
  {| m_coll := Users; m_paths := discriminator userSchema professionalSchema;
     m_discriminator := Some "professional";
     m_timestamps := true; m_pre_save := [hash_password] |}.

Definition AnthropometricMeasurement : model :=
  {| m_coll := Anthropometric; m_paths := anthropometricMeasurementSchema;
     m_discriminator := None; m_timestamps := true; m_pre_save := [compute_leanMass] |}.

Definition PerformanceMetrics : model :=
  {| m_coll := Performance; m_paths := performanceMetricsSchema;
     m_discriminator := None; m_timestamps := true; m_pre_save := [] |}.

Definition HealthMetrics : model :=
  {| m_coll := Health; m_paths := healthMetricsSchema;
     m_discriminator := None; m_timestamps := true; m_pre_save := [] |}.

Definition Report : model :=
  {| m_coll := Reports; m_paths := reportSchema;
     m_discriminator := None; m_timestamps := true; m_pre_save := [generate_accessCode] |}.

(** A user document is an instance of the discriminator its [role] names. *)
Definition user_model (f : doc) : model :=
  match f !! "role" with
  | Some (VStr r) =>
      if String.eqb r "athlete" then Athlete
      else if String.eqb r "professional" then Professional
      else User
  | _ => User
  end.

End Models.

(* ===================================================================== *)
(** ** Requests, responses, tokens on the wire *)
(* ===================================================================== *)

(** An HTTP request after body and query-string parsing. [page] and
    [limit] are the numbers their query parameters denote. *)
Record request : Type := {
  req_bearer : option value;
  params_id : string;
  params_accessCode : string;
  query_page : option Z;
  query_limit : option Z;
  req_query : gmap string string;
  req_body : doc
}.

Inductive rbody : Type :=
| RDoc (d : doc)
| RPage (key : string) (data : list doc) (total page limit : Z) (pages : option Z)
| RError (code : option string) (message : string) (details : list (option string * string))
| RErrors (errors : list (string * string))
| RMessage (message : string)
| RSession (user : option doc) (tok refreshToken : token).

Record response : Type := { status : Z; res_body : rbody }.

Definition error_response (st : Z) (code message : string) : response :=
  {| status := st; res_body := RError (Some code) message [] |}.

Definition field_details (errs : list (string * string)) : list (option string * string) :=
  map (fun fm : string * string => (Some fm.1, fm.2)) errs.

(** [try { ... } catch (error) { ... }] *)
Definition try_catch {A} (body : M A) (handler : exn -> A) : M A :=
  fun s => match body s with
           | (Ok r, s') => (Ok r, s')
           | (Throw err, s') => (Ok (handler err), s')
           end.

Definition lift_outcome {A} (o : outcome A) : M A := fun s => (o, s).
Definition get_store : M store := fun s => (Ok s, s).

(** [jwt.verify(token, secret)] at time [now_ms]. *)
Definition jwt_verify (v : option value) (secret : string) (now_ms : Z) : outcome claims :=
  match v with
  | Some (VJwt t) =>
      if String.eqb (t_sig_key t) secret && claims_eqb (t_sig_over t) (t_claims t)
      then if c_exp (t_claims t) <=? now_ms / 1000
           then Throw TokenExpiredError
           else Ok (t_claims t)
      else Throw JsonWebTokenError
  | _ => Throw JsonWebTokenError
  end.

(** [doc._id] and [doc.role] as the token payload takes them. Every stored
    document carries an ObjectId. *)
Definition oid_of (f : doc) : N :=
  match f !! "_id" with Some (VId o) => o | _ => 0%N end.
Definition role_of (f : doc) : option string :=
  match f !! "role" with Some (VStr r) => Some r | _ => None end.

(** A property read used as a filter value: [undefined] is sent as null. *)
Definition as_filter (p : option value) : cond := CEq (default VNull p).
Definition uid (user : doc) : cond := as_filter (user !! "_id").

Definition is_professional (user : doc) : bool :=
  match user !! "role" with Some (VStr r) => String.eqb r "professional" | _ => false end.

(** A query-string parameter that is present and non-empty. *)
Definition q_param (r : request) (k : string) : option string :=
  match req_query r !! k with
  | Some s => if String.eqb s "" then None else Some s
  | None => None
  end.

Definition page_of (r : request) : Z := default 1 (query_page r).
Definition limit_of (r : request) : Z := default 10 (query_limit r).

(** [Math.ceil(total / limit)]; division by zero serialises as null. *)
Definition pages_of (total limit : Z) : option Z :=
  if limit =? 0 then None else Some (- ((- total) / limit)).

(** [{ a, b, ... }] built from destructured variables: an undefined one
    leaves its property unset. *)
Definition pick (keys : list string) (b : doc) : doc :=
  filter (fun kv : string * value => mem kv.1 keys = true) b.

(** [toObject()] without the listed properties. *)
Definition without (keys : list string) (f : doc) : doc :=
  filter (fun kv : string * value => mem kv.1 keys = false) f.

Definition getPublicProfile (f : doc) : doc := without ["password"; "__v"] f.

(* ===================================================================== *)
(** ** express-validator chains *)
(* ===================================================================== *)

Inductive step : Type :=
| Sanitize (f : string -> string)
| Validate (f : option value -> bool) (msg : string)
| Custom (f : store -> string -> option string).

Record chain : Type := {
  ch_field : string;
  ch_if : doc -> bool;
  ch_optional : bool;
  ch_steps : list step
}.

Section Validators.
Context `{Externals}.

(** The string a standard validator sees. JSON bodies hold no ObjectIds or
    dates; the encoded form of a token is only known to be non-empty. *)
Definition to_string (p : option value) : string :=
  match p with
  | None | Some VNull => ""
  | Some (VStr s) => s
  | Some (VNum x) => js_numToString x
  | Some (VBool b) => if b then "true" else "false"
  | Some (VJwt _) => "eyJ"
  | Some _ => "[object Object]"
  end.

Definition notEmpty (v : option value) : bool := negb (String.eqb (to_string v) "").
Definition isLength (min : nat) (v : option value) : bool :=
  (min <=? String.length (to_string v))%nat.
Definition isIn (l : list string) (v : option value) : bool := mem (to_string v) l.
Definition equals (s : string) (v : option value) : bool := String.eqb (to_string v) s.
Definition isEmail (v : option value) : bool := v_isEmail (to_string v).
Definition isISO8601 (v : option value) : bool := v_isISO8601 (to_string v).
Definition isInt_min0 (v : option value) : bool :=
  match v_isInt (to_string v) with Some z => 0 <=? z | None => false end.
Definition isFloat (lo hi : option float) (v : option value) : bool :=
  match v_isFloat (to_string v) with
  | Some x =>
      match lo with Some a => PrimFloat.leb a x | None => true end
      && match hi with Some b => PrimFloat.leb x b | None => true end
  | None => false
  end.
Definition isFloat_min0 : option value -> bool := isFloat (Some 0%float) None.
Definition isPercent : option value -> bool := isFloat (Some 0%float) (Some 100%float).
(** 24 hexadecimal digits *)
Definition isMongoId (v : option value) : bool :=
  bool_decide (is_Some (parseObjectId (to_string v))).
Definition isString (v : option value) : bool :=
  match v with Some (VStr _) | Some (VJwt _) => true | _ => false end.
Definition isBoolean (v : option value) : bool := mem (to_string v) ["true"; "false"; "1"; "0"].
Definition isArray (v : option value) : bool :=
  match v with Some (VArr _) => true | _ => false end.

Definition invalid_value : string := "Invalid value".

(** Every validator of a chain runs (there is no [bail]); a sanitizer
    replaces the value the following steps see. *)
Fixpoint run_steps (s : store) (k : string) (steps : list step) (cur : option value)
  : list (string * string) * option value :=
  match steps with
  | [] => ([], cur)
  | Sanitize f :: rest => run_steps s k rest (Some (VStr (f (to_string cur))))
  | Validate f msg :: rest =>
      let '(errs, v) := run_steps s k rest cur in
      ((if f cur then [] else [(k, msg)]) ++ errs, v)
  | Custom f :: rest =>
      let '(errs, v) := run_steps s k rest cur in
      (match f s (to_string cur) with Some msg => [(k, msg)] | None => [] end ++ errs, v)
  end.

Definition sanitizes (c : chain) : bool :=
  existsb (fun st => match st with Sanitize _ => true | _ => false end) (ch_steps c).

(** One chain against the body: its errors and the body with the
    sanitized value written back. *)
Definition run_chain (s : store) (c : chain) (b : doc) : list (string * string) * doc :=
  if negb (ch_if c b) then ([], b)
  else
    let v := body_get b (ch_field c) in
    if ch_optional c && negb (bool_decide (is_Some v)) then ([], b)
    else
      let '(errs, v') := run_steps s (ch_field c) (ch_steps c) v in
      (errs, if sanitizes c
             then match v' with Some x => <[ch_field c := x]> b | None => b end
             else b).

(** [validationResult(req)] after all chains of a route ran in order. *)
Definition validationResult (s : store) (cs : list chain) (b : doc)
  : list (string * string) * doc :=
  fold_left (fun acc c => let '(errs, b') := run_chain s c acc.2 in (acc.1 ++ errs, b'))
            cs ([], b).

Definition check (field : string) (steps : list step) : chain :=
  {| ch_field := field; ch_if := fun _ => true; ch_optional := false; ch_steps := steps |}.
Definition optional (field : string) (steps : list step) : chain :=
  {| ch_field := field; ch_if := fun _ => true; ch_optional := true; ch_steps := steps |}.
(** [check(field).if(check('role').equals(r))] *)
Definition check_if_role (r : string) (field : string) (steps : list step) : chain :=
  {| ch_field := field; ch_if := fun b => equals r (body_get b "role");
     ch_optional := false; ch_steps := steps |}.

End Validators.

(* ===================================================================== *)
(** ** Route handlers *)
(* ===================================================================== *)

Section Routes.
Context `{Externals}.
Variable cfg : config.

Definition unauthorized : response := error_response 401 "UNAUTHORIZED" "Please authenticate".

(** Modelled from the spec: the [auth] middleware (middleware/auth.js is
    not among the sources). It verifies the bearer token against the
    access-token secret and resolves the embedded user id to a stored user;
    a missing, malformed or expired token, or one naming a deleted user,
    is answered 401. *)
Definition auth (r : request) (e : env) : M (response + doc) :=
  try_catch
    (c <- lift_outcome (jwt_verify (req_bearer r) (JWT_SECRET cfg) (now e)) ;;
     u <- findOne cfg User {["_id" := CEq (VId (c_userId c))]} ;;
     match u with
     | Some u => ret (inr (md_fields u))
     | None => ret (inl unauthorized)
     end)
    (fun _ => inl unauthorized).

(** Modelled from the spec: the [requireProfessional] gate (same missing
    file). An authenticated identity whose role is not professional is
    answered 403. *)
Definition requireProfessional (user : doc) : option response :=
  if is_professional user then None
  else Some (error_response 403 "FORBIDDEN" "Professional access required").

(** *** routes/auth.js *)

Definition professional_exists (s : store) (value : string) : option string :=
  if negb (bool_decide (is_Some (parseObjectId value)))
  then Some "Professional ID must be a valid MongoDB ObjectId"
  else match findOne cfg User {["_id" := CEq (VStr value); "role" := CEq (VStr "professional")]} s with
       | (Ok (Some _), _) => None
       | (Ok None, _) => Some "Professional not found"
       | (Throw _, _) => Some "Cast to ObjectId failed"
       end.

Definition register_validators : list chain :=
  [ check "name" [Sanitize js_trim; Validate notEmpty "Name is required"];
    check "email" [Validate isEmail "Please enter a valid email"];
    check "password" [Validate (isLength 8) "Password must be at least 8 characters long"];
    check "role" [Validate (isIn roles) "Role must be either athlete or professional"];
    check_if_role "athlete" "gender" [Validate (isIn genders) "Invalid gender"];
    check_if_role "athlete" "age" [Validate isInt_min0 "Age must be a positive integer"];
    check_if_role "athlete" "country" [Sanitize js_trim; Validate notEmpty "Country is required"];
    check_if_role "athlete" "professionalId"
      [Sanitize js_trim; Validate notEmpty "Professional ID is required";
       Custom professional_exists];
    check_if_role "professional" "specialization"
      [Sanitize js_trim; Validate notEmpty "Specialization is required"];
    check_if_role "professional" "licenseNumber"
      [Sanitize js_trim; Validate notEmpty "License number is required"];
    check_if_role "professional" "yearsOfExperience"
      [Validate isInt_min0 "Years of experience must be a positive integer"] ].

Definition validation_failed (errs : list (string * string)) : response :=
  {| status := 400; res_body := RError None "Validation failed" (field_details errs) |}.

Definition session_user (f : doc) : doc :=
  let get k := match f !! k with Some v => {[k := v]} | None => ∅ end in
  (match f !! "_id" with Some v => {["id" := v]} | None => ∅ end)
  ∪ get "name" ∪ get "email" ∪ get "role".

(** POST /auth/register *)
Definition register (r : request) (e : env) : M response :=
  try_catch
    (s <- get_store ;;
     let '(errors, b) := validationResult s register_validators (req_body r) in
     match errors with
     | _ :: _ => ret (validation_failed errors)
     | [] =>
         existing <- findOne cfg User {["email" := as_filter (b !! "email")]} ;;
         match existing with
         | Some _ =>
             ret {| status := 400;
                    res_body := RError None "User already exists"
                                  [(Some "email", "Email is already registered")] |}
         | None =>
             oid <- fresh_oid ;;
             let m := if value_eqb (VStr "athlete") (default VNull (b !! "role"))
                      then Athlete else Professional in
             let fields :=
               if value_eqb (VStr "athlete") (default VNull (b !! "role"))
               then ["name"; "email"; "password"; "role"; "gender"; "age"; "country";
                     "sport"; "position"; "professionalId"]
               else ["name"; "email"; "password"; "role"; "specialization";
                     "licenseNumber"; "yearsOfExperience"] in
             user <- save m e (new_doc m e oid (pick fields b)) ;;
             let f := md_fields user in
             let token := jwt_sign (oid_of f) (role_of f) (JWT_SECRET cfg) one_hour (now e) in
             let refreshToken :=
               jwt_sign (oid_of f) None (REFRESH_TOKEN_SECRET cfg) seven_days (now e) in
             ret {| status := 201; res_body := RSession (Some (session_user f)) token refreshToken |}
         end
     end)
    (fun err =>
       match err with
       | ValidationError errs => validation_failed errs
       | _ => {| status := 500;
                 res_body := RError None "Server error"
                               [(None, "An unexpected error occurred")] |}
       end).

Definition login_validators : list chain :=
  [ check "email" [Validate isEmail invalid_value; Sanitize v_normalizeEmail];
    check "password" [Validate notEmpty invalid_value] ].

Definition invalid_credentials : response :=
  error_response 401 "INVALID_CREDENTIALS" "Invalid email or password".

(** [user.comparePassword(candidate)] *)
Definition comparePassword (user : doc) (candidate : option value) : bool :=
  bcrypt_compare (to_string candidate) (to_string (user !! "password")).

(** POST /auth/login *)
Definition login (r : request) (e : env) : M response :=
  try_catch
    (s <- get_store ;;
     let '(errors, b) := validationResult s login_validators (req_body r) in
     match errors with
     | _ :: _ => ret {| status := 400; res_body := RErrors errors |}
     | [] =>
         found <- findOne cfg User {["email" := as_filter (b !! "email")]} ;;
         match found with
         | None => ret invalid_credentials
         | Some user =>
             if negb (comparePassword (md_fields user) (b !! "password"))
             then ret invalid_credentials
             else
               let f := md_fields user in
               let token := jwt_sign (oid_of f) None (JWT_SECRET cfg) one_hour (now e) in
               let refreshToken :=
                 jwt_sign (oid_of f) None (REFRESH_TOKEN_SECRET cfg) seven_days (now e) in
               ret {| status := 200;
                      res_body := RSession (Some (getPublicProfile f)) token refreshToken |}
         end
     end)
    (fun _ => error_response 500 "INTERNAL_SERVER_ERROR" "Error logging in").

Definition refresh_validators : list chain :=
  [ check "refreshToken" [Validate notEmpty invalid_value] ].

Definition invalid_token : response :=
  error_response 401 "INVALID_TOKEN" "Invalid refresh token".

(** POST /auth/refresh *)
Definition refresh (r : request) (e : env) : M response :=
  try_catch
    (s <- get_store ;;
     let '(errors, b) := validationResult s refresh_validators (req_body r) in
     match errors with
     | _ :: _ => ret {| status := 400; res_body := RErrors errors |}
     | [] =>
         decoded <- lift_outcome
                      (jwt_verify (b !! "refreshToken") (REFRESH_TOKEN_SECRET cfg) (now e)) ;;
         found <- findOne cfg User {["_id" := CEq (VId (c_userId decoded))]} ;;
         match found with
         | None => ret invalid_token
         | Some user =>
             let f := md_fields user in
             let token := jwt_sign (oid_of f) None (JWT_SECRET cfg) one_hour (now e) in
             let newRefreshToken :=
               jwt_sign (oid_of f) None (REFRESH_TOKEN_SECRET cfg) seven_days (now e) in
             ret {| status := 200; res_body := RSession None token newRefreshToken |}
         end
     end)
    (fun _ => invalid_token).

(** *** Helpers shared by the resource routes *)

Definition user_id (user : doc) : value := default VNull (user !! "_id").

Definition json (st : Z) (d : mdoc) : response :=
  {| status := st; res_body := RDoc (md_fields d) |}.

Definition not_found (message : string) : response :=
  error_response 404 "NOT_FOUND" message.

Definition bad_request (errors : list (string * string)) : response :=
  {| status := 400; res_body := RErrors errors |}.

(** [if (startDate || endDate) { query.date = {}; ... }] *)
Definition with_dates (r : request) (q : query) : query :=
  match q_param r "startDate", q_param r "endDate" with
  | None, None => q
  | sd, ed => <["date" := CRange (js_parseDate <$> sd) (js_parseDate <$> ed)]> q
  end.

(** [Promise.all([Model.find(q).sort({date: -1}).skip(skip).limit(limit),
    Model.countDocuments(q)])] and the paginated answer. *)
Definition paged (m : model) (q : query) (r : request) : M response :=
  l <- find cfg m q ;;
  records <- lift_outcome (skip_limit ((page_of r - 1) * limit_of r) (limit_of r)
                             (sort_date_desc l)) ;;
  total <- countDocuments cfg m q ;;
  ret {| status := 200;
         res_body := RPage "data" records total (page_of r) (limit_of r)
                       (pages_of total (limit_of r)) |}.

(** *** routes/measurements.js *)

Definition skinfold_validators : list chain :=
  map (fun k => optional ("skinfolds." +:+ k) [Validate isFloat_min0 invalid_value]) skinfold_sites.
Definition perimeter_validators : list chain :=
  map (fun k => optional ("perimeters." +:+ k) [Validate isFloat_min0 invalid_value]) perimeter_sites.

Definition anthropometric_create_validators : list chain :=
  [ check "userId" [Validate isMongoId invalid_value];
    optional "date" [Validate isISO8601 invalid_value];
    check "weight" [Validate isFloat_min0 invalid_value];
    check "height" [Validate isFloat_min0 invalid_value] ]
  ++ skinfold_validators ++ perimeter_validators
  ++ [ optional "bodyFatPercentage" [Validate isPercent invalid_value];
       optional "notes" [Validate isString invalid_value] ].

Definition anthropometric_update_validators : list chain :=
  [ optional "date" [Validate isISO8601 invalid_value];
    optional "weight" [Validate isFloat_min0 invalid_value];
    optional "height" [Validate isFloat_min0 invalid_value] ]
  ++ skinfold_validators ++ perimeter_validators
  ++ [ optional "bodyFatPercentage" [Validate isPercent invalid_value];
       optional "notes" [Validate isString invalid_value] ].

(** POST /measurements/anthropometric *)
Definition anthropometric_create (user : doc) (r : request) (e : env) : M response :=
  try_catch
    (s <- get_store ;;
     let '(errors, b) := validationResult s anthropometric_create_validators (req_body r) in
     match errors with
     | _ :: _ => ret (bad_request errors)
     | [] =>
         athlete <- findOne cfg User {["_id" := as_filter (b !! "userId");
                                       "role" := CEq (VStr "athlete");
                                       "professionalId" := uid user]} ;;
         match athlete with
         | None => ret (not_found "User not found or not assigned to you")
         | Some _ =>
             oid <- fresh_oid ;;
             measurement <- save AnthropometricMeasurement e
                              (new_doc AnthropometricMeasurement e oid
                                 (<["professionalId" := user_id user]> b)) ;;
             ret (json 201 measurement)
         end
     end)
    (fun _ => error_response 500 "INTERNAL_SERVER_ERROR" "Error creating measurement").

(** GET /measurements/anthropometric *)
Definition anthropometric_list (user : doc) (r : request) (e : env) : M response :=
  try_catch
    (let q0 : query :=
       if is_professional user then
         let q : query := {["professionalId" := uid user]} in
         match q_param r "athleteId" with
         | Some a => <["athleteId" := CEq (VStr a)]> q
         | None => q
         end
       else {["athleteId" := uid user]} in
     paged AnthropometricMeasurement (with_dates r q0) r)
    (fun _ => error_response 500 "INTERNAL_SERVER_ERROR" "Error fetching measurements").

(** GET /measurements/anthropometric/:id *)
Definition anthropometric_get (user : doc) (r : request) (e : env) : M response :=
  try_catch
    (let q0 : query := {["_id" := CEq (VStr (params_id r))]} in
     let q : query :=
       if is_professional user then <["professionalId" := uid user]> q0
       else <["athleteId" := uid user]> q0 in
     measurement <- findOne cfg AnthropometricMeasurement q ;;
     match measurement with
     | None => ret (not_found "Measurement not found")
     | Some d => ret (json 200 d)
     end)
    (fun _ => error_response 500 "INTERNAL_SERVER_ERROR" "Error fetching measurement").

(** PUT /measurements/anthropometric/:id *)
Definition anthropometric_update (user : doc) (r : request) (e : env) : M response :=
  try_catch
    (s <- get_store ;;
     let '(errors, b) := validationResult s anthropometric_update_validators (req_body r) in
     match errors with
     | _ :: _ => ret (bad_request errors)
     | [] =>
         measurement <- findOne cfg AnthropometricMeasurement
                          {["_id" := CEq (VStr (params_id r)); "professionalId" := uid user]} ;;
         match measurement with
         | None => ret (not_found "Measurement not found")
         | Some d =>
             saved <- save AnthropometricMeasurement e (assign AnthropometricMeasurement b d) ;;
             ret (json 200 saved)
         end
     end)
    (fun _ => error_response 500 "INTERNAL_SERVER_ERROR" "Error updating measurement").

(** DELETE /measurements/anthropometric/:id *)
Definition anthropometric_delete (user : doc) (r : request) (e : env) : M response :=
  try_catch
    (measurement <- findOneAndDelete cfg AnthropometricMeasurement
                      {["_id" := CEq (VStr (params_id r)); "professionalId" := uid user]} ;;
     match measurement with
     | None => ret (not_found "Measurement not found")
     | Some d => ret (json 200 d)
     end)
    (fun _ => error_response 500 "INTERNAL_SERVER_ERROR" "Error deleting measurement").

(** *** routes/performance.js *)

Definition performance_fields_validators : list chain :=
  [ optional "date" [Validate isISO8601 "Valid date is required"];
    optional "vo2max" [Validate isFloat_min0 "VO2 max must be a positive number"];
    optional "power" [Validate isFloat_min0 "Power must be a positive number"];
    optional "speed" [Validate isFloat_min0 "Speed must be a positive number"];
    optional "trainingLoad" [Validate isFloat_min0 "Training load must be a positive number"];
    optional "sport" [Validate isString "Sport must be a string"];
    optional "position" [Validate isString "Position must be a string"];
    optional "notes" [Validate isString "Notes must be a string"] ].

Definition performance_create_validators : list chain :=
  check "userId" [Validate isMongoId "Valid user ID is required"]
  :: performance_fields_validators.

Definition performance_update_validators : list chain :=
  [ optional "date" [Validate isISO8601 invalid_value];
    optional "vo2max" [Validate isFloat_min0 invalid_value];
    optional "power" [Validate isFloat_min0 invalid_value];
    optional "speed" [Validate isFloat_min0 invalid_value];
    optional "trainingLoad" [Validate isFloat_min0 invalid_value];
    optional "sport" [Validate isString invalid_value];
    optional "position" [Validate isString invalid_value];
    optional "notes" [Validate isString invalid_value] ].

(** POST /performance *)
Definition performance_create (user : doc) (r : request) (e : env) : M response :=
  try_catch
    (s <- get_store ;;
     let '(errors, b) := validationResult s performance_create_validators (req_body r) in
     match errors with
     | _ :: _ =>
         ret {| status := 400;
                res_body := RError (Some "VALIDATION_ERROR") "Validation failed"
                              (field_details errors) |}
     | [] =>
         athlete <- findOne cfg User {["_id" := as_filter (b !! "userId");
                                       "role" := CEq (VStr "athlete");
                                       "professionalId" := uid user]} ;;
         match athlete with
         | None => ret (not_found "User not found or not assigned to you")
         | Some _ =>
             oid <- fresh_oid ;;
             performance <- save PerformanceMetrics e
                              (new_doc PerformanceMetrics e oid
                                 (<["professionalId" := user_id user]> b)) ;;
             ret (json 201 performance)
         end
     end)
    (fun _ => error_response 500 "INTERNAL_SERVER_ERROR" "Error creating performance record").

(** GET /performance *)
Definition performance_list (user : doc) (r : request) (e : env) : M response :=
  try_catch
    (let q0 : query :=
       if is_professional user then
         let q : query := {["professionalId" := uid user]} in
         match q_param r "userId" with
         | Some u => <["userId" := CEq (VStr u)]> q
         | None => q
         end
       else {["userId" := uid user]} in
     let q1 := with_dates r q0 in
     let q2 := match q_param r "sport" with
               | Some sp => <["sport" := CRegexI sp]> q1
               | None => q1
               end in
     paged PerformanceMetrics q2 r)
    (fun _ => error_response 500 "INTERNAL_SERVER_ERROR" "Error fetching performance records").

(** GET /performance/:id *)
Definition performance_get (user : doc) (r : request) (e : env) : M response :=
  try_catch
    (let q0 : query := {["_id" := CEq (VStr (params_id r))]} in
     let q : query :=
       if is_professional user then <["professionalId" := uid user]> q0
       else <["userId" := uid user]> q0 in
     record <- findOne cfg PerformanceMetrics q ;;
     match record with
     | None => ret (not_found "Performance record not found")
     | Some d => ret (json 200 d)
     end)
    (fun _ => error_response 500 "INTERNAL_SERVER_ERROR" "Error fetching performance record").

(** PUT /performance/:id *)
Definition performance_update (user : doc) (r : request) (e : env) : M response :=
  try_catch
    (s <- get_store ;;
     let '(errors, b) := validationResult s performance_update_validators (req_body r) in
     match errors with
     | _ :: _ => ret (bad_request errors)
     | [] =>
         record <- findOne cfg PerformanceMetrics
                     {["_id" := CEq (VStr (params_id r)); "professionalId" := uid user]} ;;
         match record with
         | None => ret (not_found "Performance record not found")
         | Some d =>
             saved <- save PerformanceMetrics e (assign PerformanceMetrics b d) ;;
             ret (json 200 saved)
         end
     end)
    (fun _ => error_response 500 "INTERNAL_SERVER_ERROR" "Error updating performance record").

(** DELETE /performance/:id *)
Definition performance_delete (user : doc) (r : request) (e : env) : M response :=
  try_catch
    (record <- findOneAndDelete cfg PerformanceMetrics
                 {["_id" := CEq (VStr (params_id r)); "professionalId" := uid user]} ;;
     match record with
     | None => ret (not_found "Performance record not found")
     | Some d => ret (json 200 d)
     end)
    (fun _ => error_response 500 "INTERNAL_SERVER_ERROR" "Error deleting performance record").

(** *** routes/reports.js *)

Definition report_create_validators : list chain :=
  [ check "userId" [Validate isMongoId invalid_value];
    check "type" [Validate (isIn ["individual"; "group"]) invalid_value];
    check "format" [Validate (isIn ["pdf"; "excel"]) invalid_value];
    optional "startDate" [Validate isISO8601 invalid_value];
    optional "endDate" [Validate isISO8601 invalid_value];
    optional "metrics" [Validate isArray invalid_value];
    optional "shared" [Validate isBoolean invalid_value] ].

Definition truthy_string (p : option value) : option string :=
  if truthy p then Some (to_string p) else None.

Definition obj_of (keys : list string) (f : doc) : value :=
  VObj (omap (fun k => (fun v => (k, v)) <$> f !! k) keys).

Definition snapshot (l : list doc) : value :=
  VArr (map (fun d : doc => VObj (map_to_list d)) l).

(** POST /reports *)
Definition report_create (user : doc) (r : request) (e : env) : M response :=
  try_catch
    (s <- get_store ;;
     let '(errors, b) := validationResult s report_create_validators (req_body r) in
     match errors with
     | _ :: _ => ret (bad_request errors)
     | [] =>
         (* Verify user exists and is assigned to the professional *)
         athlete <- findOne cfg User {["_id" := as_filter (b !! "userId");
                                       "role" := CEq (VStr "user");
                                       "professionalId" := uid user]} ;;
         match athlete with
         | None => ret (not_found "User not found or not assigned to you")
         | Some a =>
             let q : query :=
               {["userId" := as_filter (b !! "userId");
                 "date" := CRange (js_parseDate <$> truthy_string (b !! "startDate"))
                                  (js_parseDate <$> truthy_string (b !! "endDate"))]} in
             measurements <- find cfg AnthropometricMeasurement q ;;
             performance <- find cfg PerformanceMetrics q ;;
             health <- find cfg HealthMetrics q ;;
             let content :=
               VObj [("user", obj_of ["name"; "age"; "gender"; "sport"; "position"] (md_fields a));
                     ("measurements", snapshot measurements);
                     ("performance", snapshot performance);
                     ("health", snapshot health);
                     ("period", VObj (omap (fun kk : string * string =>
                                              (fun v => (kk.1, v)) <$> b !! kk.2)
                                           [("start", "startDate"); ("end", "endDate")]))] in
             oid <- fresh_oid ;;
             let fields : doc :=
               pick ["userId"; "type"; "format"] b
               ∪ {["professionalId" := user_id user;
                   "content" := content;
                   "shared" := if truthy (b !! "shared")
                               then default VNull (b !! "shared") else VBool false]} in
             report <- save Report e (new_doc Report e oid fields) ;;
             ret (json 201 report)
         end
     end)
    (fun _ => error_response 500 "INTERNAL_SERVER_ERROR" "Error generating report").

(** GET /reports *)
Definition report_list (user : doc) (r : request) (e : env) : M response :=
  try_catch
    (let q0 : query :=
       if is_professional user then {["professionalId" := uid user]}
       else {["userId" := uid user]} in
     let q1 := match q_param r "type" with
               | Some t => <["type" := CEq (VStr t)]> q0
               | None => q0
               end in
     let q2 := match q_param r "format" with
               | Some f => <["format" := CEq (VStr f)]> q1
               | None => q1
               end in
     paged Report (with_dates r q2) r)
    (fun _ => error_response 500 "INTERNAL_SERVER_ERROR" "Error fetching reports").

(** GET /reports/:id *)
Definition report_get (user : doc) (r : request) (e : env) : M response :=
  try_catch
    (let q0 : query := {["_id" := CEq (VStr (params_id r))]} in
     let q : query :=
       if is_professional user then <["professionalId" := uid user]> q0
       else <["userId" := uid user]> q0 in
     report <- findOne cfg Report q ;;
     match report with
     | None => ret (not_found "Report not found")
     | Some d => ret (json 200 d)
     end)
    (fun _ => error_response 500 "INTERNAL_SERVER_ERROR" "Error fetching report").

(** POST /reports/:id/share *)
Definition report_share (user : doc) (r : request) (e : env) : M response :=
  try_catch
    (report <- findOne cfg Report
                 {["_id" := CEq (VStr (params_id r)); "professionalId" := uid user]} ;;
     match report with
     | None => ret (not_found "Report not found")
     | Some d =>
         saved <- save Report e (set_path Report "shared" (VBool true) d) ;;
         ret (json 200 saved)
     end)
    (fun _ => error_response 500 "INTERNAL_SERVER_ERROR" "Error sharing report").

(** GET /reports/shared/:accessCode *)
Definition report_shared (r : request) (e : env) : M response :=
  try_catch
    (report <- findOne cfg Report
                 {["accessCode" := CEq (VStr (params_accessCode r));
                   "shared" := CEq (VBool true)]} ;;
     match report with
     | None => ret (not_found "Report not found or not shared")
     | Some d => ret (json 200 d)
     end)
    (fun _ => error_response 500 "INTERNAL_SERVER_ERROR" "Error accessing shared report").

(** DELETE /reports/:id *)
Definition report_delete (user : doc) (r : request) (e : env) : M response :=
  try_catch
    (report <- findOneAndDelete cfg Report
                 {["_id" := CEq (VStr (params_id r)); "professionalId" := uid user]} ;;
     match report with
     | None => ret (not_found "Report not found")
     | Some d => ret (json 200 d)
     end)
    (fun _ => error_response 500 "INTERNAL_SERVER_ERROR" "Error deleting report").

(** *** routes/users.js *)

Definition internal_error (message : string) : response :=
  error_response 500 "INTERNAL_SERVER_ERROR" message.

Definition invalid_update : response := error_response 400 "INVALID_UPDATE" "Invalid updates".

(** [Object.keys(req.body).every(k => allowed.includes(k))] *)
Definition isValidOperation (allowed : list string) (b : doc) : bool :=
  forallb (fun kv : string * value => mem kv.1 allowed) (map_to_list b).

(** GET /users/profile *)
Definition profile_get (user : doc) (r : request) (e : env) : M response :=
  try_catch
    (ret {| status := 200; res_body := RDoc (getPublicProfile user) |})
    (fun _ => internal_error "Error fetching profile").

Definition profile_update_validators : list chain :=
  [ optional "name" [Sanitize js_trim; Validate notEmpty invalid_value];
    optional "gender" [Validate (isIn genders) invalid_value];
    optional "age" [Validate isInt_min0 invalid_value];
    optional "country" [Sanitize js_trim; Validate notEmpty invalid_value];
    optional "settings.language" [Validate isString invalid_value];
    optional "settings.theme" [Validate isString invalid_value];
    optional "settings.notifications" [Validate isBoolean invalid_value] ].

(** [Object.keys(req.body.settings).forEach(k => req.user.settings[k] = ...)] *)
Definition assign_settings (m : model) (v : value) (d : mdoc) : outcome mdoc :=
  match v with
  | VNull => Throw TypeError
  | VObj l => Ok (fold_left (fun d kv => set_path m ("settings." +:+ kv.1) kv.2 d) l d)
  | _ => Ok d
  end.

(** PUT /users/profile *)
Definition profile_update (user : doc) (r : request) (e : env) : M response :=
  try_catch
    (s <- get_store ;;
     let '(errors, b) := validationResult s profile_update_validators (req_body r) in
     match errors with
     | _ :: _ => ret (bad_request errors)
     | [] =>
         if negb (isValidOperation ["name"; "gender"; "age"; "country"; "settings"] b)
         then ret invalid_update
         else
           let m := user_model user in
           d0 <- match b !! "settings" with
                 | Some v => lift_outcome (assign_settings m v (hydrate user))
                 | None => ret (hydrate user)
                 end ;;
           saved <- save m e (assign m (delete "settings" b) d0) ;;
           ret {| status := 200; res_body := RDoc (getPublicProfile (md_fields saved)) |}
     end)
    (fun _ => internal_error "Error updating profile").

(** GET /users/patients *)
Definition patient_list (user : doc) (r : request) (e : env) : M response :=
  try_catch
    (let q0 : query := {["professionalId" := uid user; "role" := CEq (VStr "athlete")]} in
     let q1 := match q_param r "name" with
               | Some n => <["name" := CRegexI n]> q0
               | None => q0
               end in
     let eq_param k (q : query) : query :=
       match q_param r k with Some v => <[k := CEq (VStr v)]> q | None => q end in
     let q := eq_param "position" (eq_param "sport" (eq_param "age" (eq_param "gender" q1))) in
     l <- find cfg User q ;;
     patients <- lift_outcome (skip_limit ((page_of r - 1) * limit_of r) (limit_of r) l) ;;
     total <- countDocuments cfg User q ;;
     ret {| status := 200;
            res_body := RPage "patients" (map (without ["password"; "refreshToken"]) patients)
                          total (page_of r) (limit_of r) (pages_of total (limit_of r)) |})
    (fun _ => {| status := 500; res_body := RMessage "Error fetching patients" |}).

(** GET /users/patients/:id *)
Definition patient_get (user : doc) (r : request) (e : env) : M response :=
  try_catch
    (patient <- findOne cfg User {["_id" := CEq (VStr (params_id r));
                                   "role" := CEq (VStr "athlete");
                                   "professionalId" := uid user]} ;;
     match patient with
     | None => ret (not_found "Patient not found")
     | Some d => ret {| status := 200; res_body := RDoc (without ["password"; "__v"] (md_fields d)) |}
     end)
    (fun _ => internal_error "Error fetching patient details").

Definition patient_create_validators : list chain :=
  [ check "name" [Sanitize js_trim; Validate notEmpty "Name is required"];
    check "email" [Validate isEmail "Valid email is required"];
    check "password" [Validate (isLength 6) "Password must be at least 6 characters"];
    check "gender" [Validate (isIn genders) "Valid gender is required"];
    check "age" [Validate isInt_min0 "Age must be a positive number"];
    check "country" [Sanitize js_trim; Validate notEmpty "Country is required"];
    optional "sport" [Sanitize js_trim];
    optional "position" [Sanitize js_trim] ].

(** POST /users/patients *)
Definition patient_create (user : doc) (r : request) (e : env) : M response :=
  try_catch
    (s <- get_store ;;
     let '(errors, b) := validationResult s patient_create_validators (req_body r) in
     match errors with
     | _ :: _ =>
         ret {| status := 400;
                res_body := RError (Some "VALIDATION_ERROR") "Validation failed"
                              (field_details errors) |}
     | [] =>
         existingUser <- findOne cfg User {["email" := as_filter (b !! "email")]} ;;
         match existingUser with
         | Some _ => ret (error_response 400 "EMAIL_IN_USE" "Email already in use")
         | None =>
             oid <- fresh_oid ;;
             let fields : doc :=
               pick ["name"; "email"; "password"; "gender"; "age"; "country"; "sport"; "position"] b
               ∪ {["role" := VStr "athlete";
                   "professionalId" := user_id user;
                   "isActive" := VBool true]} in
             patient <- save (user_model fields) e (new_doc (user_model fields) e oid fields) ;;
             ret {| status := 201; res_body := RDoc (getPublicProfile (md_fields patient)) |}
         end
     end)
    (fun _ => internal_error "Error creating patient").

Definition patient_update_validators : list chain :=
  [ optional "name" [Sanitize js_trim; Validate notEmpty invalid_value];
    optional "email" [Validate isEmail invalid_value];
    optional "gender" [Validate (isIn genders) invalid_value];
    optional "age" [Validate isInt_min0 invalid_value];
    optional "country" [Sanitize js_trim; Validate notEmpty invalid_value];
    optional "sport" [Sanitize js_trim];
    optional "position" [Sanitize js_trim] ].

(** PUT /users/patients/:id *)
Definition patient_update (user : doc) (r : request) (e : env) : M response :=
  try_catch
    (s <- get_store ;;
     let '(errors, b) := validationResult s patient_update_validators (req_body r) in
     match errors with
     | _ :: _ => ret (bad_request errors)
     | [] =>
         patient <- findOne cfg User {["_id" := CEq (VStr (params_id r));
                                       "role" := CEq (VStr "athlete");
                                       "professionalId" := uid user]} ;;
         match patient with
         | None => ret (not_found "Patient not found or not assigned to you")
         | Some d =>
             if negb (isValidOperation
                        ["name"; "email"; "gender"; "age"; "country"; "sport"; "position"] b)
             then ret invalid_update
             else
               let m := user_model (md_fields d) in
               saved <- save m e (assign m b d) ;;
               ret {| status := 200; res_body := RDoc (getPublicProfile (md_fields saved)) |}
         end
     end)
    (fun _ => internal_error "Error updating patient").

(** The four operations [Promise.all] issues when a patient is deleted. *)
Definition delete_measurements (pid : value) : M unit :=
  deleteMany cfg AnthropometricMeasurement {["userId" := CEq pid]}.
Definition delete_health (pid : value) : M unit :=
  deleteMany cfg HealthMetrics {["userId" := CEq pid]}.
Definition delete_performance (pid : value) : M unit :=
  deleteMany cfg PerformanceMetrics {["userId" := CEq pid]}.
Definition delete_patient (patient : mdoc) : M unit :=
  deleteOne User patient.

(** DELETE /users/patients/:id *)
Definition patient_delete (user : doc) (r : request) (e : env) : M response :=
  try_catch
    (patient <- findOne cfg User {["_id" := CEq (VStr (params_id r));
                                   "role" := CEq (VStr "athlete");
                                   "professionalId" := uid user]} ;;
     match patient with
     | None => ret (not_found "Patient not found or not assigned to you")
     | Some d =>
         (* Delete all related data *)
         delete_measurements (user_id (md_fields d)) ;;;
         delete_health (user_id (md_fields d)) ;;;
         delete_performance (user_id (md_fields d)) ;;;
         delete_patient d ;;;
         ret {| status := 200; res_body := RMessage "Patient deleted successfully" |}
     end)
    (fun _ => internal_error "Error deleting patient").

(** *** routes/health.js *)

Definition health_fields_validators : list chain :=
  [ optional "date" [Validate isISO8601 invalid_value];
    optional "sleep.duration" [Validate isFloat_min0 invalid_value];
    optional "sleep.quality" [Validate isPercent invalid_value];
    optional "sleep.deepSleep" [Validate isFloat_min0 invalid_value];
    optional "sleep.lightSleep" [Validate isFloat_min0 invalid_value];
    optional "sleep.remSleep" [Validate isFloat_min0 invalid_value];
    optional "stress" [Validate isPercent invalid_value];
    optional "restingHeartRate" [Validate isFloat_min0 invalid_value];
    optional "heartRateVariability" [Validate isFloat_min0 invalid_value];
    optional "steps" [Validate isFloat_min0 invalid_value] ].

Definition health_sources : list string := ["garmin"; "google_fit"; "apple_health"].

Definition health_create_validators : list chain :=
  health_fields_validators
  ++ [ check "source" [Validate (isIn health_sources) invalid_value];
       optional "notes" [Validate isString invalid_value] ].

Definition health_update_validators : list chain :=
  health_fields_validators
  ++ [ optional "source" [Validate (isIn health_sources) invalid_value];
       optional "notes" [Validate isString invalid_value] ].

(** POST /health *)
Definition health_create (user : doc) (r : request) (e : env) : M response :=
  try_catch
    (s <- get_store ;;
     let '(errors, b) := validationResult s health_create_validators (req_body r) in
     match errors with
     | _ :: _ => ret (bad_request errors)
     | [] =>
         oid <- fresh_oid ;;
         record <- save HealthMetrics e
                     (new_doc HealthMetrics e oid (<["userId" := user_id user]> b)) ;;
         ret (json 201 record)
     end)
    (fun _ => internal_error "Error creating health record").

(** GET /health *)
Definition health_list (user : doc) (r : request) (e : env) : M response :=
  try_catch
    (let q0 : query := {["userId" := uid user]} in
     let q1 := with_dates r q0 in
     let q2 := match q_param r "source" with
               | Some src => <["source" := CEq (VStr src)]> q1
               | None => q1
               end in
     paged HealthMetrics q2 r)
    (fun _ => internal_error "Error fetching health records").

(** GET /health/:id *)
Definition health_get (user : doc) (r : request) (e : env) : M response :=
  try_catch
    (record <- findOne cfg HealthMetrics
                 {["_id" := CEq (VStr (params_id r)); "userId" := uid user]} ;;
     match record with
     | None => ret (not_found "Health record not found")
     | Some d => ret (json 200 d)
     end)
    (fun _ => internal_error "Error fetching health record").

(** PUT /health/:id *)
Definition health_update (user : doc) (r : request) (e : env) : M response :=
  try_catch
    (s <- get_store ;;
     let '(errors, b) := validationResult s health_update_validators (req_body r) in
     match errors with
     | _ :: _ => ret (bad_request errors)
     | [] =>
         record <- findOne cfg HealthMetrics
                     {["_id" := CEq (VStr (params_id r)); "userId" := uid user]} ;;
         match record with
         | None => ret (not_found "Health record not found")
         | Some d =>
             saved <- save HealthMetrics e (assign HealthMetrics b d) ;;
             ret (json 200 saved)
         end
     end)
    (fun _ => internal_error "Error updating health record").

(** DELETE /health/:id *)
Definition health_delete (user : doc) (r : request) (e : env) : M response :=
  try_catch
    (record <- findOneAndDelete cfg HealthMetrics
                 {["_id" := CEq (VStr (params_id r)); "userId" := uid user]} ;;
     match record with
     | None => ret (not_found "Health record not found")
     | Some d => ret (json 200 d)
     end)
    (fun _ => internal_error "Error deleting health record").

(** *** routes/integration.js *)

(** POST /integrations/garmin, /google-fit, /apple-health: [integrations]
    is not a declared path of the user schema, so the assignment does not
    reach the stored document. *)
Definition integration_connect (name : string) (user : doc) (r : request) (e : env)
  : M response :=
  try_catch
    (found <- findOne cfg User {["_id" := uid user]} ;;
     match found with
     | None => ret (not_found "User not found")
     | Some d =>
         save (user_model (md_fields d)) e d ;;;
         ret {| status := 200;
                res_body := RMessage (name +:+ " account connected successfully") |}
     end)
    (fun _ => internal_error ("Error connecting " +:+ name +:+ " account")).

(** GET /integrations/status *)
Definition integration_status (user : doc) (r : request) (e : env) : M response :=
  try_catch
    (found <- findOne cfg User {["_id" := uid user]} ;;
     match found with
     | None => ret (not_found "User not found")
     | Some d => ret {| status := 200; res_body := RDoc ∅ |}
     end)
    (fun _ => internal_error "Error fetching integration status").

(** *** The router *)

Inductive endpoint : Type :=
| AuthRegister | AuthLogin | AuthRefresh
| ProfileGet | ProfileUpdate
| PatientList | PatientGet | PatientCreate | PatientUpdate | PatientDelete
| HealthCreate | HealthList | HealthGet | HealthUpdate | HealthDelete
| PerformanceCreate | PerformanceList | PerformanceGet | PerformanceUpdate | PerformanceDelete
| AnthropometricCreate | AnthropometricList | AnthropometricGet
| AnthropometricUpdate | AnthropometricDelete
| ReportCreate | ReportList | ReportGet | ReportShare | ReportShared | ReportDelete
| IntegrationGarmin | IntegrationGoogleFit | IntegrationAppleHealth | IntegrationStatus.

(** The gates a route declares: none, [auth], or [auth] and
    [requireProfessional]. *)
Inductive guard : Type := Public | Authenticated | ProfessionalOnly.

Definition guard_of (ep : endpoint) : guard :=
  match ep with
  | AuthRegister | AuthLogin | AuthRefresh | ReportShared => Public
  | PatientList | PatientGet | PatientCreate | PatientUpdate | PatientDelete
  | PerformanceCreate | PerformanceUpdate | PerformanceDelete
  | AnthropometricCreate | AnthropometricUpdate | AnthropometricDelete
  | ReportCreate | ReportShare | ReportDelete => ProfessionalOnly
  | _ => Authenticated
  end.

Definition handler (ep : endpoint) (user : doc) (r : request) (e : env) : M response :=
  match ep with
  | AuthRegister => register r e
  | AuthLogin => login r e
  | AuthRefresh => refresh r e
  | ProfileGet => profile_get user r e
  | ProfileUpdate => profile_update user r e
  | PatientList => patient_list user r e
  | PatientGet => patient_get user r e
  | PatientCreate => patient_create user r e
  | PatientUpdate => patient_update user r e
  | PatientDelete => patient_delete user r e
  | HealthCreate => health_create user r e
  | HealthList => health_list user r e
  | HealthGet => health_get user r e
  | HealthUpdate => health_update user r e
  | HealthDelete => health_delete user r e
  | PerformanceCreate => performance_create user r e
  | PerformanceList => performance_list user r e
  | PerformanceGet => performance_get user r e
  | PerformanceUpdate => performance_update user r e
  | PerformanceDelete => performance_delete user r e
  | AnthropometricCreate => anthropometric_create user r e
  | AnthropometricList => anthropometric_list user r e
  | AnthropometricGet => anthropometric_get user r e
  | AnthropometricUpdate => anthropometric_update user r e
  | AnthropometricDelete => anthropometric_delete user r e
  | ReportCreate => report_create user r e
  | ReportList => report_list user r e
  | ReportGet => report_get user r e
  | ReportShare => report_share user r e
  | ReportShared => report_shared r e
  | ReportDelete => report_delete user r e
  | IntegrationGarmin => integration_connect "Garmin" user r e
  | IntegrationGoogleFit => integration_connect "Google Fit" user r e
  | IntegrationAppleHealth => integration_connect "Apple Health" user r e
  | IntegrationStatus => integration_status user r e
  end.

(** A request through the gates of its route and then its handler. *)
Definition serve (ep : endpoint) (r : request) (e : env) : M response :=
  match guard_of ep with
  | Public => handler ep ∅ r e
  | Authenticated =>
      a <- auth r e ;;
      match a with
      | inl refused => ret refused
      | inr user => handler ep user r e
      end
  | ProfessionalOnly =>
      a <- auth r e ;;
      match a with
      | inl refused => ret refused
      | inr user =>
          match requireProfessional user with
          | Some refused => ret refused
          | None => handler ep user r e
          end
      end
  end.

End Routes.

(** The store of a freshly deployed server. *)
Definition empty_store : store :=
  {| users := []; anthropometric := []; performance := []; health := []; reports := [];
     next_oid := 1%N |}.

(** The stores the server can be in: those reached from the empty one by
    serving requests. *)
Inductive reachable `{Externals} (cfg : config) : store -> Prop :=
| reach_empty : reachable cfg empty_store
| reach_serve (s : store) (ep : endpoint) (r : request) (e : env) :
    reachable cfg s -> reachable cfg (serve cfg ep r e s).2.

(** *** A concrete runtime for examples *)

Fixpoint decimal (s : string) (acc : Z) : option Z :=
  match s with
  | EmptyString => Some acc
  | String c r =>
      let n := Z.of_N (N_of_ascii c) in
      if (48 <=? n) && (n <=? 57) then decimal r (10 * acc + (n - 48)) else None
  end.

Definition decimal_number (s : string) : option Z :=
  match s with EmptyString => None | _ => decimal s 0 end.

Fixpoint float_of_pos (p : positive) : float :=
  match p with
  | xH => 1%float
  | xO q => (2 * float_of_pos q)%float
  | xI q => (2 * float_of_pos q + 1)%float
  end.

Definition float_of_Z (z : Z) : float :=
  match z with
  | Z0 => 0%float
  | Zpos p => float_of_pos p
  | Zneg p => (- float_of_pos p)%float
  end.

Fixpoint contains_char (c : ascii) (s : string) : bool :=
  match s with
  | EmptyString => false
  | String c' r => Ascii.eqb c c' || contains_char c r
  end.

Definition sample_externals : Externals :=
  {| js_trim := fun s => s;
     js_toLowerCase := fun s => s;
     js_numToString := fun _ => "NaN";
     js_toNumber := fun s => float_of_Z <$> decimal_number s;
     js_dateOfNumber := fun _ => None;
     js_parseDate := decimal_number;
     js_regexTestI := String.eqb;
     v_isEmail := contains_char "@"%char;
     v_normalizeEmail := fun s => s;
     v_isISO8601 := fun s => bool_decide (is_Some (decimal_number s));
     v_isFloat := fun s => float_of_Z <$> decimal_number s;
     v_isInt := decimal_number;
     bcrypt_hash := fun s => "$2a$10$" +:+ s;
     bcrypt_compare := fun candidate hash => String.eqb ("$2a$10$" +:+ candidate) hash |}.

Definition sample_config : config :=
  {| JWT_SECRET := "access-secret"; REFRESH_TOKEN_SECRET := "refresh-secret";
     strictQuery := false |}.

(** *** Vocabulary of the properties *)

(** The signature of a token is the one [secret] produces over the claims
    the token now carries. *)
Definition signature_valid (secret : string) (t : token) : Prop :=
  t_sig_key t = secret /\ t_sig_over t = t_claims t.

Definition expired (e : env) (t : token) : Prop := c_exp (t_claims t) <= now e / 1000.

Definition user_exists (s : store) (id : N) : Prop :=
  exists u, In u (users s) /\ u !! "_id" = Some (VId id).

Definition has_id (id : N) (d : doc) : bool :=
  match d !! "_id" with Some (VId o) => N.eqb o id | _ => false end.

(** The record belongs to athlete [id]. *)
Definition of_user (id : N) (d : doc) : bool :=
  match d !! "userId" with Some (VId o) => N.eqb o id | _ => false end.

(** The record is owned by professional [a]. *)
Definition owned_by (a : N) (d : doc) : bool :=
  match d !! "professionalId" with Some (VId o) => N.eqb o a | _ => false end.

(** The [professionalId] of a registration payload, trimmed, is the id of
    a stored user whose role is professional. *)
Definition references_professional `{Externals} (s : store) (b : doc) : Prop :=
  exists o u, parseObjectId (js_trim (to_string (b !! "professionalId"))) = Some o
              /\ In u (users s) /\ u !! "_id" = Some (VId o)
              /\ u !! "role" = Some (VStr "professional").

(** The role of a stored user is one of the two the schema lists. *)
Definition valid_role (u : doc) : Prop :=
  u !! "role" = Some (VStr "athlete") \/ u !! "role" = Some (VStr "professional").

(** What holds of every store the server can be in: every user has a
    listed role and there is no report. *)
Definition no_user_role (s : store) : Prop :=
  Forall valid_role (users s) /\ reports s = [].

(** A computation keeps a property of the store. *)
Definition preserves {A} (P : store -> Prop) (m : M A) : Prop :=
  forall s, P s -> P (m s).2.

Definition role_path : pathSpec := path "role" TString [Enum roles; Required].

(** A model whose documents are users validates the role and has no hook
    that rewrites it. *)
Definition role_checked (m : model) : Prop :=
  m_coll m <> Reports
  /\ (m_coll m = Users ->
      In role_path (m_paths m)
      /\ Forall (fun h : env -> mdoc -> mdoc =>
                   forall e d, md_fields (h e d) !! "role" = md_fields d !! "role")
                (m_pre_save m)).

(** The routes through which a professional lists, reads, updates or
    deletes documents that carry a [professionalId], and the collection
    each works on. *)
Definition scoped_collection (ep : endpoint) : option coll :=
  match ep with
  | PerformanceList | PerformanceGet | PerformanceUpdate | PerformanceDelete => Some Performance
  | AnthropometricList | AnthropometricGet | AnthropometricUpdate | AnthropometricDelete =>
      Some Anthropometric
  | ReportList | ReportGet | ReportShare | ReportDelete => Some Reports
  | PatientList | PatientGet | PatientUpdate | PatientDelete => Some Users
  | _ => None
  end.

(** Those of them that address one document by the id in the path. *)
Definition by_id (ep : endpoint) : bool :=
  match ep with
  | PerformanceGet | PerformanceUpdate | PerformanceDelete
  | AnthropometricGet | AnthropometricUpdate | AnthropometricDelete
  | ReportGet | ReportShare | ReportDelete
  | PatientGet | PatientUpdate | PatientDelete => true
  | _ => false
  end.

(** Those whose save is not subject to a unique index. *)
Definition index_free (ep : endpoint) : bool :=
  match ep with
  | ReportShare | PatientUpdate => false
  | _ => true
  end.

Definition not_found_message (ep : endpoint) : string :=
  match ep with
  | PerformanceGet | PerformanceUpdate | PerformanceDelete => "Performance record not found"
  | AnthropometricGet | AnthropometricUpdate | AnthropometricDelete => "Measurement not found"
  | ReportGet | ReportShare | ReportDelete => "Report not found"
  | PatientGet => "Patient not found"
  | HealthGet | HealthUpdate | HealthDelete => "Health record not found"
  | _ => "Patient not found or not assigned to you"
  end.

(** The body validators that run before the lookup of an update route. *)
Definition update_validators `{Externals} (ep : endpoint) : list chain :=
  match ep with
  | PerformanceUpdate => performance_update_validators
  | AnthropometricUpdate => anthropometric_update_validators
  | PatientUpdate => patient_update_validators
  | HealthUpdate => health_update_validators
  | _ => []
  end.

(** The documents a response carries. *)
Definition response_docs (res : response) : list doc :=
  match res_body res with
  | RDoc d => [d]
  | RPage _ l _ _ _ _ => l
  | RSession (Some d) _ _ => [d]
  | _ => []
  end.


Definition is_athlete_doc (d : doc) : bool :=
  match d !! "role" with Some (VStr r) => String.eqb r "athlete" | _ => false end.

(** What a route that addresses one document by id answers: [failed] when
    the id in the path is not an ObjectId, [missing] when the selection is
    empty, and otherwise what [found] makes of the first selected
    document. *)
Definition answer_by_id (docs : list doc) (sel : N -> doc -> bool) (found : doc -> response)
    (missing failed : response) (raw : string) : response :=
  match parseObjectId raw with
  | Some rid =>
      match head (List.filter (sel rid) docs) with
      | Some d => found d
      | None => missing
      end
  | None => failed
  end.

Definition select_owned (a rid : N) (d : doc) : bool := has_id rid d && owned_by a d.
Definition select_patient (a rid : N) (d : doc) : bool :=
  has_id rid d && is_athlete_doc d && owned_by a d.

(** The answer of a route whose body validators ran first. *)
Definition after_validation (errors : list (string * string)) (res : response) : response :=
  match errors with
  | [] => res
  | _ :: _ => bad_request errors
  end.

(** A chain none of whose steps consults the store. *)
Definition store_free (c : chain) : bool :=
  forallb (fun st => match st with Custom _ => false | _ => true end) (ch_steps c).


(** When no document with the id in the path is owned by [a], the answer
    of [m] is that of a lookup that found nothing, and the store is as it
    was. *)
Definition hides `{Externals} (a : N) (c : coll) (vals : list chain) (message : string)
    (r : request) (m : M response) : Prop :=
  forall s rid, parseObjectId (params_id r) = Some rid ->
    (forall d, In d (get_coll c s) -> has_id rid d = true -> owned_by a d = false) ->
    m s = (Ok (after_validation (validationResult s vals (req_body r)).1 (not_found message)), s).


(** [m] answers as a lookup by the id in the path among the documents of
    [c] selected by [sel a], after the validators [vals]. *)
Definition answers_by_id `{Externals} (a : N) (c : coll) (sel : N -> N -> doc -> bool)
    (vals : list chain) (message : string) (r : request)
    (found : store -> doc -> response) (failed : response) (m : M response) : Prop :=
  (forall s d y, In y (response_docs (found s d)) -> y !! "_id" = d !! "_id")
  /\ response_docs failed = []
  /\ forall s,
       (m s).1 = Ok (after_validation (validationResult s vals (req_body r)).1
                       (answer_by_id (get_coll c s) (sel a) (found s) (not_found message)
                          failed (params_id r)))
       /\ forall rid, parseObjectId (params_id r) = Some rid ->
            head (List.filter (sel a rid) (get_coll c s)) = None -> (m s).2 = s.

(** A document either has its [_id] marked as modified or holds [o] there. *)
Definition keeps_id (o : option value) (d : mdoc) : Prop :=
  isModified d "_id" = true \/ md_fields d !! "_id" = o.

(** A hook that leaves the [_id] and the [isNew] flag alone. *)
Definition id_safe (h : env -> mdoc -> mdoc) : Prop :=
  forall e o d, (keeps_id o d -> keeps_id o (h e d)) /\ md_isNew (h e d) = md_isNew d.

(** The routes that only read: every GET, and the two session routes. *)
Definition reads_only (ep : endpoint) : bool :=
  match ep with
  | AuthLogin | AuthRefresh | ProfileGet | PatientList | PatientGet
  | HealthList | HealthGet | PerformanceList | PerformanceGet
  | AnthropometricList | AnthropometricGet | ReportList | ReportGet | ReportShared
  | IntegrationStatus => true
  | _ => false
  end.

(** The routes that answer with user documents or none at all. *)
Definition user_route (ep : endpoint) : bool :=
  match ep with
  | AuthRegister | AuthLogin | AuthRefresh | ProfileGet | ProfileUpdate
  | PatientList | PatientGet | PatientCreate | PatientUpdate | PatientDelete
  | IntegrationGarmin | IntegrationGoogleFit | IntegrationAppleHealth | IntegrationStatus => true
  | _ => false
  end.

(** Every answer of [m] satisfies [P]. *)
Definition answers (P : response -> Prop) (m : M response) : Prop :=
  forall s res, (m s).1 = Ok res -> P res.

(** No document of the response has a [password]. *)
Definition no_password (res : response) : Prop :=
  forall x, In x (response_docs res) -> x !! "password" = None.

(** The property [k] of the document is the ObjectId [a]. *)
Definition ref_is (k : string) (a : N) (d : doc) : bool :=
  match d !! k with Some (VId o) => N.eqb o a | _ => false end.

(** The document has id [rid] and names [a] under [k]. *)
Definition select_ref (k : string) (a rid : N) (d : doc) : bool := has_id rid d && ref_is k a d.

(** The routes that delete one document by id, each with the GET route of
    the same resource, its collection and the property that names the
    owner. *)
Definition delete_routes : list (endpoint * endpoint * coll * string) :=
  [ (PerformanceDelete, PerformanceGet, Performance, "professionalId");
    (AnthropometricDelete, AnthropometricGet, Anthropometric, "professionalId");
    (ReportDelete, ReportGet, Reports, "professionalId");
    (HealthDelete, HealthGet, Health, "userId") ].

(** The body validators of the two routes that create a record about a
    patient. *)
Definition create_validators `{Externals} (ep : endpoint) : list chain :=
  match ep with
  | PerformanceCreate => performance_create_validators
  | AnthropometricCreate => anthropometric_create_validators
  | _ => []
  end.



(** The list routes that take a date range. *)
Definition dated_lists : list endpoint :=
  [PerformanceList; AnthropometricList; ReportList; HealthList].




(** No two documents of a collection share an [_id]. *)
Definition unique_ids (l : list doc) : Prop := NoDup (map (fun d : doc => d !! "_id") l).

(** *** Sample data *)

Definition sample_env : env := {| now := 1700000000000; random_code := "k3x9q2m7c1" |}.

Definition blank_request : request :=
  {| req_bearer := None; params_id := ""; params_accessCode := "";
     query_page := None; query_limit := None; req_query := ∅; req_body := ∅ |}.

Definition post (b : doc) : request :=
  {| req_bearer := None; params_id := ""; params_accessCode := "";
     query_page := None; query_limit := None; req_query := ∅; req_body := b |}.

Definition put (id : string) (b : doc) : request :=
  {| req_bearer := None; params_id := id; params_accessCode := "";
     query_page := None; query_limit := None; req_query := ∅; req_body := b |}.

(** A measurement taken at 20% body fat whose body-fat percentage has just
    been set to 0. *)
Definition zero_fat_measurement : mdoc :=
  {| md_fields := {[ "_id" := VId 7; "userId" := VId 2; "professionalId" := VId 1;
                     "date" := VDate 0; "weight" := VNum 70; "height" := VNum 175;
                     "bodyFatPercentage" := VNum 0; "leanMass" := VNum 56 ]};
     md_modified := ["bodyFatPercentage"]; md_invalid := []; md_isNew := false |}.

(** A professional (id 1, password [secret-pw]) and one athlete (id 2). *)
Definition dr_perez : doc :=
  {[ "_id" := VId 1; "name" := VStr "Perez"; "email" := VStr "perez@clinic";
     "password" := VStr "$2a$10$secret-pw"; "role" := VStr "professional";
     "specialization" := VStr "nutrition"; "licenseNumber" := VStr "L1";
     "yearsOfExperience" := VNum 3 ]}.

Definition ana : doc :=
  {[ "_id" := VId 2; "name" := VStr "Ana"; "email" := VStr "ana@club";
     "password" := VStr "$2a$10$ana-secret"; "role" := VStr "athlete";
     "gender" := VStr "female"; "age" := VNum 20; "country" := VStr "AR";
     "professionalId" := VId 1 ]}.

Definition clinic : store :=
  {| users := [dr_perez; ana]; anthropometric := []; performance := []; health := [];
     reports := []; next_oid := 3%N |}.




Definition later_env : env := {| now := 1700000500000; random_code := "another-code" |}.

Definition strict_config : config :=
  {| JWT_SECRET := "access-secret"; REFRESH_TOKEN_SECRET := "refresh-secret";
     strictQuery := true |}.

(** Two measurements authored by professional 1: one of athlete 2 (Ana),
    one of another athlete, 5. *)
Definition ana_measurement : doc :=
  {[ "_id" := VId 20; "userId" := VId 2; "professionalId" := VId 1;
     "date" := VDate 1690000000000; "weight" := VNum 60; "height" := VNum 165 ]}.

Definition other_measurement : doc :=
  {[ "_id" := VId 21; "userId" := VId 5; "professionalId" := VId 1;
     "date" := VDate 1680000000000; "weight" := VNum 82; "height" := VNum 180 ]}.

Definition clinic_with_measurements : store :=
  {| users := [dr_perez; ana]; anthropometric := [ana_measurement; other_measurement];
     performance := []; health := []; reports := []; next_oid := 22%N |}.

(** A measurement authored by another professional, 9, and a store that
    holds it beside one of professional 1. *)
Definition foreign_measurement : doc :=
  {[ "_id" := VId 30; "userId" := VId 8; "professionalId" := VId 9;
     "date" := VDate 1695000000000; "weight" := VNum 71; "height" := VNum 170 ]}.

Definition two_clinics : store :=
  {| users := [dr_perez; ana]; anthropometric := [ana_measurement; foreign_measurement];
     performance := []; health := []; reports := []; next_oid := 31%N |}.

(** Two health records, of athlete 2 (Ana) and of user 8. *)
Definition ana_sleep : doc :=
  {[ "_id" := VId 40; "userId" := VId 2; "date" := VDate 1690000000000;
     "steps" := VNum 9000; "source" := VStr "garmin" ]}.

Definition other_sleep : doc :=
  {[ "_id" := VId 41; "userId" := VId 8; "date" := VDate 1691000000000;
     "steps" := VNum 4000; "source" := VStr "google_fit" ]}.

Definition clinic_with_health : store :=
  {| users := [dr_perez; ana]; anthropometric := []; performance := [];
     health := [ana_sleep; other_sleep]; reports := []; next_oid := 42%N |}.

(** An athlete of another professional, 9, and a server that holds the
    patients of both. *)
Definition bruno : doc :=
  {[ "_id" := VId 8; "name" := VStr "Bruno"; "email" := VStr "bruno@club";
     "password" := VStr "$2a$10$bruno-secret"; "role" := VStr "athlete";
     "gender" := VStr "male"; "age" := VNum 31; "country" := VStr "UY";
     "professionalId" := VId 9 ]}.

Definition shared_server : store :=
  {| users := [dr_perez; ana; bruno]; anthropometric := [ana_measurement; foreign_measurement];
     performance := []; health := []; reports := []; next_oid := 50%N |}.

(** A performance record for Bruno. *)
Definition bruno_performance_request : doc :=
  {[ "userId" := VStr "000000000000000000000008"; "vo2max" := VStr "52" ]}.


Definition new_patient_request : doc :=
  {[ "name" := VStr "Leo"; "email" := VStr "leo@club"; "password" := VStr "12345678";
     "gender" := VStr "male"; "age" := VStr "30"; "country" := VStr "AR";
     "role" := VStr "professional"; "professionalId" := VStr "000000000000000000000009" ]}.

(** A professional who registers. *)
Definition quiroga_registration : doc :=
  {[ "name" := VStr "Quiroga"; "email" := VStr "quiroga@clinic";
     "password" := VStr "longpassword"; "role" := VStr "professional";
     "specialization" := VStr "kinesiology"; "licenseNumber" := VStr "L2";
     "yearsOfExperience" := VStr "5" ]}.

(** A list request with a date range in its query string. *)
Definition since (startDate : string) : request :=
  {| req_bearer := None; params_id := ""; params_accessCode := "";
     query_page := None; query_limit := None;
     req_query := {["startDate" := startDate]}; req_body := ∅ |}.



(** A report request whose [type] is not one of the two the route accepts. *)
Definition weekly_report_request : doc :=
  {[ "userId" := VStr "000000000000000000000002"; "type" := VStr "weekly";
     "format" := VStr "pdf" ]}.

Definition individual_report_request : doc :=
  {[ "userId" := VStr "000000000000000000000002"; "type" := VStr "individual";
     "format" := VStr "pdf" ]}.

(* ===================================================================== *)
(** * Properties *)
(* ===================================================================== *)

(** ** Filters and queries *)

Section QueryFacts.
Context `{Externals}.
Variable cfg : config.

Lemma matches_lookup (q : query) (d : doc) (k : string) (c : cond) :
  matches q d = true -> q !! k = Some c -> cond_holds c (d !! k) = true.
Proof.
  unfold matches. rewrite forallb_forall. intros Hall Hk.
  apply (Hall (k, c)). apply list_elem_of_In. by apply elem_of_map_to_list.
Qed.

Lemma matches_intro (q : query) (d : doc) :
  (forall k c, q !! k = Some c -> cond_holds c (d !! k) = true) -> matches q d = true.
Proof.
  intros Hall. unfold matches. rewrite forallb_forall. intros [k c] Hin.
  apply Hall. apply elem_of_map_to_list. by apply list_elem_of_In.
Qed.

Lemma cond_holds_id (a : N) (p : option value) :
  cond_holds (CEq (VId a)) p = true <-> p = Some (VId a).
Proof.
  simpl. split.
  - destruct p as [[]|]; simpl; try discriminate. intros E. apply N.eqb_eq in E. by subst.
  - intros ->. simpl. apply N.eqb_refl.
Qed.

Lemma cond_holds_str (x : string) (p : option value) :
  cond_holds (CEq (VStr x)) p = true <-> p = Some (VStr x).
Proof.
  simpl. split.
  - destruct p as [[]|]; simpl; try discriminate. intros E. apply String.eqb_eq in E. by subst.
  - intros ->. simpl. apply String.eqb_refl.
Qed.


Lemma cast_query_ok (m : model) (q : query) :
  (forall k c, q !! k = Some c -> is_Some (cast_cond m k c)) ->
  cast_query m q = Ok (map_imap (cast_cond m) q).
Proof.
  intros Hall. unfold cast_query.
  destruct (List.find _ _) as [[k c]|] eqn:E; [|done].
  apply find_some in E as [Hin Hbad]. simpl in Hbad.
  apply list_elem_of_In, elem_of_map_to_list in Hin.
  apply Hall in Hin. rewrite bool_decide_eq_true_2 in Hbad; done.
Qed.

Lemma cast_query_inv (m : model) (q q' : query) :
  cast_query m q = Ok q' -> q' = map_imap (cast_cond m) q.
Proof. unfold cast_query. destruct (List.find _ _); congruence. Qed.

Lemma cast_query_throw (m : model) (q : query) (k : string) (c : cond) :
  q !! k = Some c -> cast_cond m k c = None -> exists e, cast_query m q = Throw e.
Proof.
  intros Hk Hc. unfold cast_query.
  destruct (List.find _ _) as [kc|] eqn:E; [eauto|].
  exfalso. assert (In (k, c) (map_to_list q)) as Hin.
  { apply list_elem_of_In. by apply elem_of_map_to_list. }
  apply (find_none _ _ E) in Hin. simpl in Hin. rewrite Hc in Hin.
  rewrite bool_decide_eq_false_2 in Hin; [done|]. by intros [? ?].
Qed.

(** A condition on a declared path survives strict filtering and reaches
    the server in its cast form. *)
Lemma prepared_lookup (m : model) (q q' : query) (k : string) (c : cond) (p : pathSpec) :
  prepared cfg m q = Ok q' -> q !! k = Some c -> find_path m k = Some p ->
  q' !! k = cast_cond m k c.
Proof.
  unfold prepared. intros Hq Hk Hp. apply cast_query_inv in Hq. subst q'.
  rewrite map_lookup_imap.
  assert (strict_filter cfg m q !! k = Some c) as ->; [|done].
  unfold strict_filter. destruct (strictQuery cfg); [|done].
  apply map_lookup_filter_Some. split; [done|]. simpl. rewrite Hp. eauto.
Qed.

Lemma prepared_inv (m : model) (q q' : query) (k : string) (c' : cond) :
  prepared cfg m q = Ok q' -> q' !! k = Some c' ->
  exists c, q !! k = Some c /\ cast_cond m k c = Some c'.
Proof.
  unfold prepared. intros Hq Hk. apply cast_query_inv in Hq. subst q'.
  rewrite map_lookup_imap in Hk.
  destruct (strict_filter cfg m q !! k) as [c|] eqn:E; [|done]. simpl in Hk.
  exists c. split; [|done].
  unfold strict_filter in E. destruct (strictQuery cfg); [|done].
  by apply map_lookup_filter_Some in E as [? _].
Qed.

(** What the query operations compute, in terms of the prepared filter. *)
Lemma find_eq (m : model) (q : query) (s : store) :
  find cfg m q s =
  (match prepared cfg m q with
   | Ok q' => Ok (List.filter (matches q') (get_coll (m_coll m) s))
   | Throw e => Throw e
   end, s).
Proof. unfold find, prepare, bind, read_coll, ret. by destruct (prepared _ _ _). Qed.

Lemma findOne_eq (m : model) (q : query) (s : store) :
  findOne cfg m q s =
  (match prepared cfg m q with
   | Ok q' => Ok (hydrate <$> head (List.filter (matches q') (get_coll (m_coll m) s)))
   | Throw e => Throw e
   end, s).
Proof. unfold findOne, bind. rewrite find_eq. by destruct (prepared _ _ _). Qed.

Lemma countDocuments_eq (m : model) (q : query) (s : store) :
  countDocuments cfg m q s =
  (match prepared cfg m q with
   | Ok q' => Ok (Z.of_nat (length (List.filter (matches q') (get_coll (m_coll m) s))))
   | Throw e => Throw e
   end, s).
Proof. unfold countDocuments, bind. rewrite find_eq. by destruct (prepared _ _ _). Qed.

Lemma deleteMany_eq (m : model) (q : query) (s : store) :
  deleteMany cfg m q s =
  match prepared cfg m q with
  | Ok q' => (Ok tt, set_coll (m_coll m)
                       (List.filter (fun d => negb (matches q' d)) (get_coll (m_coll m) s)) s)
  | Throw e => (Throw e, s)
  end.
Proof.
  unfold deleteMany, prepare, bind, read_coll, write_coll.
  by destruct (prepared _ _ _).
Qed.

Lemma findOneAndDelete_eq (m : model) (q : query) (s : store) :
  findOneAndDelete cfg m q s =
  match prepared cfg m q with
  | Ok q' =>
      match head (List.filter (matches q') (get_coll (m_coll m) s)) with
      | Some d => (Ok (Some (hydrate d)),
                   set_coll (m_coll m) (remove_first (matches q') (get_coll (m_coll m) s)) s)
      | None => (Ok None, s)
      end
  | Throw e => (Throw e, s)
  end.
Proof.
  unfold findOneAndDelete, prepare, bind, read_coll, write_coll, ret.
  destruct (prepared _ _ _); [|done]. by destruct (head _).
Qed.

Lemma head_filter_In {A} (f : A -> bool) (l : list A) (x : A) :
  head (List.filter f l) = Some x -> In x l /\ f x = true.
Proof.
  intros Hh. apply filter_In. destruct (List.filter f l) eqn:E; [done|].
  simpl in Hh. injection Hh as ->. by left.
Qed.

Lemma head_filter_None {A} (f : A -> bool) (l : list A) :
  head (List.filter f l) = None <-> (forall x, In x l -> f x = false).
Proof.
  split.
  - intros Hh x Hin. destruct (f x) eqn:E; [|done].
    assert (In x (List.filter f l)) as Hx by (apply filter_In; done).
    destruct (List.filter f l); [done | discriminate].
  - intros Hall. destruct (List.filter f l) as [|x l'] eqn:E; [done|].
    assert (In x (List.filter f l)) as Hx by (rewrite E; by left).
    apply filter_In in Hx as [Hin Hf]. rewrite Hall in Hf; done.
Qed.

Lemma prepared_ok (m : model) (q : query) :
  map_Forall (fun k c => is_Some (cast_cond m k c)) (strict_filter cfg m q) ->
  exists q', prepared cfg m q = Ok q'.
Proof. intros Hall. eexists. apply cast_query_ok. exact Hall. Qed.

Lemma strict_filter_declared (m : model) (q : query) :
  map_Forall (fun k _ => is_Some (find_path m k)) q -> strict_filter cfg m q = q.
Proof.
  intros Hall. unfold strict_filter. destruct (strictQuery cfg); [|done].
  apply map_filter_id. intros k c Hk. exact (Hall k c Hk).
Qed.

(** A document is selected exactly when it satisfies the cast form of
    every condition that is sent. *)
Lemma matches_prepared (m : model) (q q' : query) (d : doc) :
  prepared cfg m q = Ok q' ->
  matches q' d = true <->
  map_Forall (fun k c => exists c', cast_cond m k c = Some c' /\ cond_holds c' (d !! k) = true)
             (strict_filter cfg m q).
Proof.
  intros Hq. unfold prepared in Hq.
  pose proof (cast_query_inv _ _ _ Hq) as ->. split.
  - intros Hm k c Hk. destruct (cast_cond m k c) as [c'|] eqn:Hc.
    + exists c'. split; [done|]. apply (matches_lookup _ _ _ _ Hm).
      by rewrite map_lookup_imap, Hk.
    + destruct (cast_query_throw _ _ _ _ Hk Hc) as [e He]. congruence.
  - intros Hall. apply matches_intro. intros k c' Hk.
    rewrite map_lookup_imap in Hk.
    destruct (strict_filter cfg m q !! k) as [c|] eqn:E; [|done]. simpl in Hk.
    destruct (Hall k c E) as (c'' & Hc & Hh). congruence.
Qed.

End QueryFacts.

(** ** The lean-mass hook *)

Section LeanMass.
Context `{Externals}.

(** When weight or body-fat percentage was assigned and both are non-zero
    numbers, the hook stores the lean mass. *)
Lemma compute_leanMass_sets (e : env) (d : mdoc) (w bf : float) :
  isModified d "weight" || isModified d "bodyFatPercentage" = true ->
  md_fields d !! "weight" = Some (VNum w) ->
  md_fields d !! "bodyFatPercentage" = Some (VNum bf) ->
  num_falsy w = false -> num_falsy bf = false ->
  md_fields (compute_leanMass e d) !! "leanMass" = Some (VNum (lean_mass w bf)).
Proof.
  intros Hmod Hw Hbf Hw0 Hbf0. unfold compute_leanMass.
  rewrite Hmod, Hw, Hbf. simpl. rewrite Hw0, Hbf0. simpl.
  apply lookup_insert_eq.
Qed.

(** When either field is absent the hook changes nothing. *)
Lemma compute_leanMass_absent (e : env) (d : mdoc) :
  md_fields d !! "weight" = None \/ md_fields d !! "bodyFatPercentage" = None ->
  compute_leanMass e d = d.
Proof.
  intros Habs. unfold compute_leanMass.
  destruct (isModified d "weight" || isModified d "bodyFatPercentage"); [|done].
  destruct Habs as [-> | ->]; simpl; [by rewrite andb_false_r | done].
Qed.

(** Neither field assigned: nothing changes either. *)
Lemma compute_leanMass_unmodified (e : env) (d : mdoc) :
  isModified d "weight" || isModified d "bodyFatPercentage" = false ->
  compute_leanMass e d = d.
Proof. intros Hmod. unfold compute_leanMass. by rewrite Hmod. Qed.

End LeanMass.

(** C10 (fails on the code): a measurement with weight 70 and body-fat
    percentage 0, the latter just assigned, has both fields present; the
    formula gives a lean mass of 70, yet the hook leaves the stored lean
    mass (56, from the earlier 20%) as it was, because it tests the two
    fields for truthiness and 0 is falsy. *)
Theorem C10_zero_body_fat_keeps_stale_leanMass :
  let d := @compute_leanMass sample_env zero_fat_measurement in
  isModified zero_fat_measurement "bodyFatPercentage" = true
  /\ md_fields zero_fat_measurement !! "weight" = Some (VNum 70)
  /\ md_fields zero_fat_measurement !! "bodyFatPercentage" = Some (VNum 0)
  /\ lean_mass 70 0 = 70%float
  /\ md_fields d !! "leanMass" = Some (VNum 56).
Proof. vm_compute. repeat split; reflexivity. Qed.

(** ** Tokens *)

Lemma option_eqb_string_eq (a b : option string) :
  option_eqb String.eqb a b = true <-> a = b.
Proof.
  destruct a, b; simpl; split; try done.
  - intros E. apply String.eqb_eq in E. by subst.
  - intros [= ->]. apply String.eqb_refl.
Qed.

Lemma claims_eqb_eq (a b : claims) : claims_eqb a b = true <-> a = b.
Proof.
  unfold claims_eqb. rewrite !andb_true_iff, N.eqb_eq, !Z.eqb_eq, option_eqb_string_eq.
  destruct a, b; simpl. split.
  - intros [[[-> ->] ->] ->]. done.
  - intros [= -> -> -> ->]. done.
Qed.

Lemma jwt_verify_ok (secret : string) (t : token) (e : env) :
  signature_valid secret t -> ~ expired e t ->
  jwt_verify (Some (VJwt t)) secret (now e) = Ok (t_claims t).
Proof.
  intros [Hk Ho] Hexp. unfold jwt_verify, expired in *.
  rewrite Hk, String.eqb_refl. simpl.
  rewrite (proj2 (claims_eqb_eq _ _) Ho).
  destruct (Z.leb_spec (c_exp (t_claims t)) (now e / 1000)); [lia | done].
Qed.

Lemma jwt_verify_throw (secret : string) (t : token) (e : env) :
  ~ signature_valid secret t \/ expired e t ->
  exists err, jwt_verify (Some (VJwt t)) secret (now e) = Throw err.
Proof.
  intros Hbad. unfold jwt_verify, expired, signature_valid in *.
  destruct (String.eqb_spec (t_sig_key t) secret) as [Hk|Hk]; simpl; [|eauto].
  destruct (claims_eqb (t_sig_over t) (t_claims t)) eqn:Ho; [|eauto].
  apply claims_eqb_eq in Ho.
  destruct (Z.leb_spec (c_exp (t_claims t)) (now e / 1000)); [eauto|].
  destruct Hbad as [Hbad|Hbad]; [tauto | lia].
Qed.

(** A token the server issues carries a valid signature under the key it
    was signed with and is accepted from issuance until its lifetime has
    elapsed, and not after. *)
Lemma jwt_sign_valid (id : N) (role : option string) (secret : string) (life t0 : Z) :
  signature_valid secret (jwt_sign id role secret life t0).
Proof. by split. Qed.

Lemma jwt_sign_lifetime (id : N) (role : option string) (secret : string) (life t0 t1 : Z) :
  jwt_verify (Some (VJwt (jwt_sign id role secret life t0))) secret t1
  = if t0 / 1000 + life <=? t1 / 1000 then Throw TokenExpiredError
    else Ok {| c_userId := id; c_role := role; c_iat := t0 / 1000; c_exp := t0 / 1000 + life |}.
Proof.
  unfold jwt_verify, jwt_sign. simpl. rewrite String.eqb_refl. simpl.
  by rewrite (proj2 (claims_eqb_eq _ _) eq_refl).
Qed.

(** ** Refreshing a session *)

Section Tokens.
Context `{Externals}.
Variable cfg : config.

Lemma refresh_validation (r : request) (s : store) (t : token) :
  req_body r !! "refreshToken" = Some (VJwt t) ->
  validationResult s refresh_validators (req_body r) = ([], req_body r).
Proof.
  intros Hb. unfold validationResult, refresh_validators. simpl.
  unfold run_chain. simpl. unfold body_get. simpl. rewrite Hb. simpl. reflexivity.
Qed.

Lemma find_by_id (m : model) (id : N) :
  exists q', prepared cfg m {["_id" := CEq (VId id)]} = Ok q'
  /\ forall d, matches q' d = true <-> d !! "_id" = Some (VId id).
Proof.
  assert (strict_filter cfg m {["_id" := CEq (VId id)]} = {["_id" := CEq (VId id)]}) as Hs.
  { apply strict_filter_declared. apply map_Forall_singleton. simpl. eauto. }
  destruct (prepared_ok cfg m {["_id" := CEq (VId id)]}) as [q' Hq].
  { rewrite Hs. apply map_Forall_singleton. simpl. eauto. }
  exists q'. split; [done|]. intros d.
  rewrite (matches_prepared cfg _ _ _ d Hq), Hs, map_Forall_singleton.
  change (cast_cond m "_id" (CEq (VId id))) with (Some (CEq (VId id))).
  rewrite <- cond_holds_id. split.
  - by intros (c' & [= <-] & Hc).
  - intros Hc. eauto.
Qed.

(** Looking a user up by id finds one exactly when one is stored. *)
Lemma findOne_user_found (id : N) (s : store) :
  user_exists s id ->
  exists u, In u (users s) /\ u !! "_id" = Some (VId id)
            /\ findOne cfg User {["_id" := CEq (VId id)]} s = (Ok (Some (hydrate u)), s).
Proof.
  intros (u0 & Hin & Hid). destruct (find_by_id User id) as (q' & Hq & Hm).
  rewrite findOne_eq, Hq. simpl.
  destruct (head (List.filter (matches q') (users s))) as [u|] eqn:E.
  - apply head_filter_In in E as [Hu Hmu]. exists u. by rewrite <- Hm.
  - exfalso. rewrite head_filter_None in E. specialize (E u0 Hin).
    apply Hm in Hid. congruence.
Qed.

Lemma findOne_user_missing (id : N) (s : store) :
  ~ user_exists s id ->
  findOne cfg User {["_id" := CEq (VId id)]} s = (Ok None, s).
Proof.
  intros Hno. destruct (find_by_id User id) as (q' & Hq & Hm).
  rewrite findOne_eq, Hq. simpl.
  destruct (head (List.filter (matches q') (users s))) as [u|] eqn:E; [|done].
  apply head_filter_In in E as [Hu Hmu]. exfalso. apply Hno. exists u. by rewrite <- Hm.
Qed.

(** C5: a refresh token whose signature does not verify under the refresh
    secret (tampered claims or another key), or which has expired, or whose
    user is gone, is answered 401 INVALID_TOKEN. A valid one is answered
    with a pair of tokens issued now, the store is left as it was, and the
    same token is accepted again at any later time at which it has not yet
    expired. *)
Theorem C5_refresh_token_reuse (r : request) (e : env) (s : store) (t : token) :
  req_body r !! "refreshToken" = Some (VJwt t) ->
  ((~ signature_valid (REFRESH_TOKEN_SECRET cfg) t \/ expired e t
    \/ ~ user_exists s (c_userId (t_claims t))) ->
   refresh cfg r e s = (Ok invalid_token, s))
  /\ (signature_valid (REFRESH_TOKEN_SECRET cfg) t -> ~ expired e t ->
      user_exists s (c_userId (t_claims t)) ->
      refresh cfg r e s
      = (Ok {| status := 200;
               res_body := RSession None
                 (jwt_sign (c_userId (t_claims t)) None (JWT_SECRET cfg) one_hour (now e))
                 (jwt_sign (c_userId (t_claims t)) None (REFRESH_TOKEN_SECRET cfg)
                    seven_days (now e)) |}, s)
      /\ forall e', ~ expired e' t ->
           refresh cfg r e' (refresh cfg r e s).2
           = (Ok {| status := 200;
                    res_body := RSession None
                      (jwt_sign (c_userId (t_claims t)) None (JWT_SECRET cfg) one_hour (now e'))
                      (jwt_sign (c_userId (t_claims t)) None (REFRESH_TOKEN_SECRET cfg)
                         seven_days (now e')) |}, s)).
Proof.
  intros Hb.
  assert (forall e0, signature_valid (REFRESH_TOKEN_SECRET cfg) t -> ~ expired e0 t ->
            user_exists s (c_userId (t_claims t)) ->
            refresh cfg r e0 s
            = (Ok {| status := 200;
                     res_body := RSession None
                       (jwt_sign (c_userId (t_claims t)) None (JWT_SECRET cfg) one_hour (now e0))
                       (jwt_sign (c_userId (t_claims t)) None (REFRESH_TOKEN_SECRET cfg)
                          seven_days (now e0)) |}, s)) as Hgood.
  { intros e0 Hsig Hexp Hu. unfold refresh, try_catch, bind, get_store, lift_outcome.
    rewrite (refresh_validation r s t Hb), Hb, (jwt_verify_ok _ _ _ Hsig Hexp).
    destruct (findOne_user_found _ _ Hu) as (u & Hin & Hid & ->).
    simpl. unfold oid_of. by rewrite Hid. }
  split.
  - intros Hbad. unfold refresh, try_catch, bind, get_store, lift_outcome.
    rewrite (refresh_validation r s t Hb), Hb.
    destruct (jwt_verify (Some (VJwt t)) (REFRESH_TOKEN_SECRET cfg) (now e)) as [c|err] eqn:Hv;
      [|done].
    destruct Hbad as [Hbad|[Hbad|Hbad]].
    + destruct (jwt_verify_throw _ _ e (or_introl Hbad)) as [err He]. congruence.
    + destruct (jwt_verify_throw (REFRESH_TOKEN_SECRET cfg) _ e (or_intror Hbad)) as [err He].
      congruence.
    + assert (c = t_claims t) as ->.
      { unfold jwt_verify in Hv. repeat case_match; congruence. }
      by rewrite (findOne_user_missing _ _ Hbad).
  - intros Hsig Hexp Hu. split; [by apply Hgood|].
    intros e' Hexp'. rewrite (Hgood e Hsig Hexp Hu). simpl. by apply Hgood.
Qed.
End Tokens.

Lemma C5_refresh_token_reuse_witness :
  let t := jwt_sign 2 None "refresh-secret" seven_days 1699999000000 in
  let r := post {["refreshToken" := VJwt t]} in
  @refresh sample_externals sample_config r sample_env clinic
  = (Ok {| status := 200;
           res_body := RSession None
             (jwt_sign 2 None "access-secret" one_hour 1700000000000)
             (jwt_sign 2 None "refresh-secret" seven_days 1700000000000) |}, clinic)
  /\ ~ signature_valid "refresh-secret"
         {| t_claims := {| c_userId := 1; c_role := None;
                           c_iat := 1699999000; c_exp := 1700603800 |};
            t_sig_key := "refresh-secret"; t_sig_over := t_claims t |}.
Proof.
  intros t r. split.
  - refine (proj1 (proj2 (@C5_refresh_token_reuse sample_externals sample_config r sample_env
                            clinic t eq_refl) _ _ _)).
    + split; reflexivity.
    + unfold expired. intros Hle. vm_compute in Hle. by apply Hle.
    + exists ana. split; [right; left; reflexivity | reflexivity].
  - intros [_ Hover]. vm_compute in Hover. inversion Hover.
Defined.
(** ** Logging in *)

Section Login.
Context `{Externals}.
Variable cfg : config.

(** What a successful login answers: the public profile of a stored user
    and two tokens issued now, both over the claim set holding the user id
    alone. *)
Lemma login_success (r : request) (e : env) (s s' : store) (res : response) :
  login cfg r e s = (Ok res, s') -> status res = 200 ->
  exists u, In u (users s) /\ s' = s
    /\ res_body res
       = RSession (Some (getPublicProfile u))
           (jwt_sign (oid_of u) None (JWT_SECRET cfg) one_hour (now e))
           (jwt_sign (oid_of u) None (REFRESH_TOKEN_SECRET cfg) seven_days (now e)).
Proof.
  unfold login, try_catch, bind, get_store, ret.
  destruct (validationResult s login_validators (req_body r)) as [errors b].
  destruct errors as [|err errors].
  - rewrite findOne_eq. destruct (prepared cfg User _) as [q'|]; simpl.
    + destruct (head (List.filter (matches q') (users s))) as [u|] eqn:E; simpl.
      * destruct (comparePassword u (b !! "password")); simpl.
        -- intros [= <- <-] _. apply head_filter_In in E as [Hin _]. eauto.
        -- intros [= <- <-]. discriminate.
      * intros [= <- <-]. discriminate.
    + intros [= <- <-]. discriminate.
  - intros [= <- <-]. discriminate.
Qed.

End Login.


(** Registration, by contrast, puts the role into the access token. *)
Lemma register_access_token_has_role :
  let payload : doc :=
    {["name" := VStr "Quiroga"; "email" := VStr "quiroga@clinic"; "password" := VStr "longpassword";
      "role" := VStr "professional"; "specialization" := VStr "kinesiology";
      "licenseNumber" := VStr "L2"; "yearsOfExperience" := VStr "5"]} in
  exists profile tok rt,
    (@register sample_externals sample_config (post payload) sample_env clinic).1
    = Ok {| status := 201; res_body := RSession (Some profile) tok rt |}
    /\ c_role (t_claims tok) = Some "professional".
Proof.
  intros payload. eexists _, _, _. split; [vm_compute; reflexivity|]. reflexivity.
Qed.
(** ** Queries scoped to an owner *)

Section Scoped.
Context `{Externals}.
Variable cfg : config.

Lemma map_Forall_two {A} (P : string -> A -> Prop) (k1 k2 : string) (c1 c2 : A) :
  k1 <> k2 ->
  map_Forall P (<[k1 := c1]> ({[k2 := c2]} : gmap string A)) <-> P k1 c1 /\ P k2 c2.
Proof.
  intros Hne. rewrite map_Forall_insert by (by apply lookup_singleton_ne).
  by rewrite map_Forall_singleton.
Qed.

Lemma map_Forall_three {A} (P : string -> A -> Prop) (k1 k2 k3 : string) (c1 c2 c3 : A) :
  k1 <> k2 -> k1 <> k3 -> k2 <> k3 ->
  map_Forall P (<[k1 := c1]> (<[k2 := c2]> ({[k3 := c3]} : gmap string A)))
  <-> P k1 c1 /\ P k2 c2 /\ P k3 c3.
Proof.
  intros H12 H13 H23. rewrite map_Forall_insert.
  - by rewrite map_Forall_two.
  - rewrite lookup_insert_ne by done. by apply lookup_singleton_ne.
Qed.

Lemma uid_of_user (user : doc) (a : N) : user !! "_id" = Some (VId a) -> uid user = CEq (VId a).
Proof. intros Hu. unfold uid, as_filter. by rewrite Hu. Qed.


End Scoped.

(** ** Saving a document that was not touched *)

Section SaveFacts.
Context `{Externals}.





Lemma set_coll_same (c : coll) (s : store) : set_coll c (get_coll c s) s = s.
Proof. by destruct c, s. Qed.

End SaveFacts.

(** ** Sharing a report *)

Section Sharing.
Context `{Externals}.
Variable cfg : config.







End Sharing.


(** ** Failures inside handlers *)

Create HintDb handlers.
#[local] Hint Unfold register login refresh profile_get profile_update
  patient_list patient_get patient_create patient_update patient_delete
  health_create health_list health_get health_update health_delete
  performance_create performance_list performance_get performance_update performance_delete
  anthropometric_create anthropometric_list anthropometric_get anthropometric_update
  anthropometric_delete report_create report_list report_get report_share report_shared
  report_delete integration_connect integration_status : handlers.

Section Failures.
Context `{Externals}.
Variable cfg : config.

Lemma try_catch_ok {A} (body : M A) (h : exn -> A) (s : store) :
  exists a, (try_catch body h s).1 = Ok a.
Proof. unfold try_catch. destruct (body s) as [[a|err] s']; simpl; eauto. Qed.

(** Every handler body sits in a [try] whose [catch] answers: serving a
    request always produces a response. *)
Lemma handler_never_throws (ep : endpoint) (user : doc) (r : request) (e : env) (s : store) :
  exists res, (handler cfg ep user r e s).1 = Ok res.
Proof. destruct ep; unfold handler; autounfold with handlers; apply try_catch_ok. Qed.

Lemma serve_never_throws (ep : endpoint) (r : request) (e : env) (s : store) :
  exists res, (serve cfg ep r e s).1 = Ok res.
Proof.
  unfold serve. destruct (guard_of ep); [apply handler_never_throws| |].
  - unfold bind. destruct (try_catch_ok
      (c <- lift_outcome (jwt_verify (req_bearer r) (JWT_SECRET cfg) (now e)) ;;
       u <- findOne cfg User {["_id" := CEq (VId (c_userId c))]} ;;
       match u with
       | Some u => ret (inr (md_fields u))
       | None => ret (inl unauthorized)
       end) (fun _ => inl unauthorized) s) as [a Ha].
    unfold auth. destruct (try_catch _ _ s) as [[x|err] s']; simpl in Ha; [|discriminate].
    destruct x as [refused|user]; [simpl; eauto|]. apply handler_never_throws.
  - unfold bind. destruct (try_catch_ok
      (c <- lift_outcome (jwt_verify (req_bearer r) (JWT_SECRET cfg) (now e)) ;;
       u <- findOne cfg User {["_id" := CEq (VId (c_userId c))]} ;;
       match u with
       | Some u => ret (inr (md_fields u))
       | None => ret (inl unauthorized)
       end) (fun _ => inl unauthorized) s) as [a Ha].
    unfold auth. destruct (try_catch _ _ s) as [[x|err] s']; simpl in Ha; [|discriminate].
    destruct x as [refused|user]; [simpl; eauto|].
    destruct (requireProfessional user); [simpl; eauto|]. apply handler_never_throws.
Qed.

End Failures.


(** C4 (fails on the code): the athlete branch of the measurement routes
    filters on [athleteId], a property the schema does not declare and no
    stored measurement has. With [strictQuery] off, Ana's list is empty and
    her own measurement is not found by id; with [strictQuery] on the
    condition is dropped, her list holds every measurement and she can read
    another athlete's by id. In neither case is the query scoped by
    [userId] and in neither does the list hold exactly her own record. *)
Theorem C4_athlete_queries_filter_on_athleteId :
  ana_measurement !! "userId" = ana !! "_id"
  /\ other_measurement !! "userId" <> ana !! "_id"
  /\ (@anthropometric_list sample_externals sample_config ana blank_request sample_env
        clinic_with_measurements).1
     = Ok {| status := 200; res_body := RPage "data" [] 0 1 10 (Some 0) |}
  /\ (@anthropometric_list sample_externals strict_config ana blank_request sample_env
        clinic_with_measurements).1
     = Ok {| status := 200;
             res_body := RPage "data" [ana_measurement; other_measurement] 2 1 10 (Some 1) |}
  /\ (@anthropometric_get sample_externals sample_config ana
        (put "000000000000000000000014" ∅) sample_env clinic_with_measurements).1
     = Ok (not_found "Measurement not found")
  /\ (@anthropometric_get sample_externals strict_config ana
        (put "000000000000000000000015" ∅) sample_env clinic_with_measurements).1
     = Ok {| status := 200; res_body := RDoc other_measurement |}.
Proof.
  split; [reflexivity|]. split; [by vm_compute|].
  repeat split; vm_compute; reflexivity.
Qed.

(** ** Deleting a patient *)

Section Cascade.
Context `{Externals}.
Variable cfg : config.

Lemma bool_eq_iff (x y : bool) : (x = true <-> y = true) -> x = y.
Proof. destruct x, y; intros [H1 H2]; auto. symmetry; auto. Qed.

Lemma has_id_spec (id : N) (d : doc) : has_id id d = true <-> d !! "_id" = Some (VId id).
Proof.
  unfold has_id. destruct (d !! "_id") as [[]|]; split; try done.
  - intros E. apply N.eqb_eq in E. by subst.
  - intros [= ->]. apply N.eqb_refl.
Qed.

Lemma of_user_spec (id : N) (d : doc) : of_user id d = true <-> d !! "userId" = Some (VId id).
Proof.
  unfold of_user. destruct (d !! "userId") as [[]|]; split; try done.
  - intros E. apply N.eqb_eq in E. by subst.
  - intros [= ->]. apply N.eqb_refl.
Qed.

Lemma owned_by_spec (a : N) (d : doc) :
  owned_by a d = true <-> d !! "professionalId" = Some (VId a).
Proof.
  unfold owned_by. destruct (d !! "professionalId") as [[]|]; split; try done.
  - intros E. apply N.eqb_eq in E. by subst.
  - intros [= ->]. apply N.eqb_refl.
Qed.

Lemma remove_first_ext (f g : doc -> bool) (l : list doc) :
  (forall d, f d = g d) -> remove_first f l = remove_first g l.
Proof. intros Hfg. induction l as [|d l IH]; simpl; [done|]. by rewrite Hfg, IH. Qed.

(** [{ _id: raw, role: 'athlete', professionalId: a }] on the users. *)
Lemma patient_query (raw : string) (a : N) :
  let q : query := {["_id" := CEq (VStr raw); "role" := CEq (VStr "athlete");
                     "professionalId" := CEq (VId a)]} in
  match parseObjectId raw with
  | Some pid =>
      exists q', prepared cfg User q = Ok q'
        /\ forall d, matches q' d = true
                     <-> d !! "_id" = Some (VId pid) /\ d !! "role" = Some (VStr "athlete")
                         /\ d !! "professionalId" = Some (VId a)
  | None => exists err, prepared cfg User q = Throw err
  end.
Proof.
  intros q.
  assert (strict_filter cfg User q = q) as Hs.
  { apply strict_filter_declared. apply map_Forall_three; [done..|]. repeat split; simpl; eauto. }
  assert (cast_cond User "professionalId" (CEq (VId a)) = Some (CEq (VId a))) as Hca
    by reflexivity.
  assert (cast_cond User "role" (CEq (VStr "athlete")) = Some (CEq (VStr "athlete"))) as Hcr
    by reflexivity.
  assert (cast_cond User "_id" (CEq (VStr raw)) = (fun o => CEq (VId o)) <$> parseObjectId raw)
    as Hci.
  { unfold cast_cond. simpl. by destruct (parseObjectId raw). }
  destruct (parseObjectId raw) as [pid|] eqn:Hr.
  - destruct (prepared_ok cfg User q) as [q' Hq].
    { rewrite Hs. unfold q. apply map_Forall_three; [done..|]. rewrite Hci, Hca, Hcr.
      simpl. eauto. }
    exists q'. split; [done|]. intros d.
    rewrite (matches_prepared cfg _ _ _ d Hq), Hs. unfold q.
    rewrite map_Forall_three by done.
    rewrite Hci, Hca, Hcr. simpl. rewrite <- !cond_holds_id, <- cond_holds_str. split.
    + intros ((c1 & [= <-] & G1) & (c2 & [= <-] & G2) & (c3 & [= <-] & G3)). done.
    + intros (G1 & G2 & G3).
      repeat split; eexists; (split; [reflexivity|]); done.
  - unfold prepared. rewrite Hs. unfold q. eapply cast_query_throw.
    + apply lookup_insert_eq.
    + by rewrite Hci.
Qed.

(** [deleteMany({ userId: pid })] removes the records of athlete [pid] from
    the model's collection and touches nothing else. *)
Lemma deleteMany_of_user (m : model) (p : pathSpec) (pid : N) (s : store) :
  find_path m "userId" = Some p -> p_type p = TObjectId ->
  deleteMany cfg m {["userId" := CEq (VId pid)]} s
  = (Ok tt, set_coll (m_coll m)
              (List.filter (fun d => negb (of_user pid d)) (get_coll (m_coll m) s)) s).
Proof.
  intros Hp Ht. rewrite deleteMany_eq.
  set (q := ({["userId" := CEq (VId pid)]} : query)).
  assert (strict_filter cfg m q = q) as Hs.
  { apply strict_filter_declared. apply map_Forall_singleton. rewrite Hp. eauto. }
  assert (cast_cond m "userId" (CEq (VId pid)) = Some (CEq (VId pid))) as Hc.
  { unfold cast_cond. rewrite Hp, Ht. simpl. by destruct p. }
  destruct (prepared_ok cfg m q) as [q' Hq].
  { rewrite Hs. apply map_Forall_singleton. rewrite Hc. eauto. }
  rewrite Hq. do 2 f_equal. apply filter_ext. intros d. f_equal.
  apply bool_eq_iff. rewrite (matches_prepared cfg _ _ _ d Hq), Hs.
  unfold q. rewrite map_Forall_singleton, Hc, of_user_spec, <- cond_holds_id. split.
  - by intros (c & [= <-] & Hh).
  - eauto.
Qed.

(** C8: when the professional's patient with the given id exists, the
    answer is 200 and the resulting store is the old one with exactly the
    anthropometric, health and performance records of that athlete
    filtered out and the patient's user document removed; the reports and
    the id counter are the old ones, and so is every record of another
    athlete. Each of the four operations rewrites one collection only. *)
Theorem C8_patient_delete_cascade (user : doc) (a pid : N) (r : request) (e : env) (s : store) :
  user !! "_id" = Some (VId a) ->
  parseObjectId (params_id r) = Some pid ->
  (exists p, In p (users s) /\ p !! "_id" = Some (VId pid)
             /\ p !! "role" = Some (VStr "athlete") /\ p !! "professionalId" = Some (VId a)) ->
  patient_delete cfg user r e s
  = (Ok {| status := 200; res_body := RMessage "Patient deleted successfully" |},
     {| users := remove_first (has_id pid) (users s);
        anthropometric := List.filter (fun d => negb (of_user pid d)) (anthropometric s);
        performance := List.filter (fun d => negb (of_user pid d)) (performance s);
        health := List.filter (fun d => negb (of_user pid d)) (health s);
        reports := reports s;
        next_oid := next_oid s |})
  /\ (forall d, of_user pid d = false ->
        (In d (anthropometric s) <-> In d (anthropometric (patient_delete cfg user r e s).2))
        /\ (In d (performance s) <-> In d (performance (patient_delete cfg user r e s).2))
        /\ (In d (health s) <-> In d (health (patient_delete cfg user r e s).2)))
  /\ (forall d, of_user pid d = true ->
        ~ In d (anthropometric (patient_delete cfg user r e s).2)
        /\ ~ In d (performance (patient_delete cfg user r e s).2)
        /\ ~ In d (health (patient_delete cfg user r e s).2)).
Proof.
  intros Hu Hr (p0 & Hin0 & Hid0 & Hrole0 & Hown0).
  assert (patient_delete cfg user r e s
          = (Ok {| status := 200; res_body := RMessage "Patient deleted successfully" |},
             {| users := remove_first (has_id pid) (users s);
                anthropometric := List.filter (fun d => negb (of_user pid d)) (anthropometric s);
                performance := List.filter (fun d => negb (of_user pid d)) (performance s);
                health := List.filter (fun d => negb (of_user pid d)) (health s);
                reports := reports s;
                next_oid := next_oid s |})) as Heq.
  { unfold patient_delete, try_catch, bind. rewrite (uid_of_user _ _ Hu), findOne_eq.
    pose proof (patient_query (params_id r) a) as Hq. rewrite Hr in Hq.
    destruct Hq as (q' & -> & Hm). simpl.
    destruct (head (List.filter (matches q') (users s))) as [p|] eqn:E.
    - apply head_filter_In in E as [Hin Hmp]. apply Hm in Hmp as (Hid & Hrole & Hown).
      simpl. unfold delete_measurements, delete_health, delete_performance, delete_patient.
      unfold user_id. rewrite Hid. simpl.
      rewrite (deleteMany_of_user AnthropometricMeasurement _ pid s eq_refl eq_refl).
      rewrite (deleteMany_of_user HealthMetrics _ pid _ eq_refl eq_refl).
      rewrite (deleteMany_of_user PerformanceMetrics _ pid _ eq_refl eq_refl).
      unfold deleteOne, bind, read_coll, write_coll. simpl.
      do 2 f_equal. apply remove_first_ext. intros d. apply bool_eq_iff.
      rewrite has_id_spec. unfold same_id. rewrite Hid.
      destruct (d !! "_id") as [[]|]; simpl; split; try done.
      + intros E. apply N.eqb_eq in E. by subst.
      + intros [= ->]. apply N.eqb_refl.
    - exfalso. rewrite head_filter_None in E. specialize (E p0 Hin0).
      assert (matches q' p0 = true) by (by apply Hm). congruence. }
  split; [exact Heq|]. rewrite Heq. simpl. split.
  - intros d Hd. rewrite !filter_In, Hd. simpl. tauto.
  - intros d Hd. rewrite !filter_In, Hd. simpl. repeat split; intros [_ [=]].
Qed.

(** Any two of the four operations can be swapped: the order in which
    they complete does not matter for the store reached. *)
Lemma cascade_operations_commute (pid : N) (patient : mdoc) (s : store) :
  let run (m : M unit) (s : store) := (m s).2 in
  let ops := [delete_measurements cfg (VId pid); delete_health cfg (VId pid);
              delete_performance cfg (VId pid); delete_patient patient] in
  forall m1 m2, In m1 ops -> In m2 ops -> run m2 (run m1 s) = run m1 (run m2 s).
Proof.
  intros run ops m1 m2 H1 H2. unfold ops in *. simpl in H1, H2. unfold run.
  unfold delete_measurements, delete_health, delete_performance, delete_patient in *.
  pose proof (fun s => deleteMany_of_user AnthropometricMeasurement
                         (path "userId" TObjectId [Required]) pid s eq_refl eq_refl) as Ea.
  pose proof (fun s => deleteMany_of_user HealthMetrics
                         (path "userId" TObjectId [Required]) pid s eq_refl eq_refl) as Eh.
  pose proof (fun s => deleteMany_of_user PerformanceMetrics
                         (path "userId" TObjectId [Required]) pid s eq_refl eq_refl) as Ep.
  destruct H1 as [<-|[<-|[<-|[<-|[]]]]], H2 as [<-|[<-|[<-|[<-|[]]]]];
    rewrite ?Ea, ?Eh, ?Ep;
    unfold deleteOne, bind, read_coll, write_coll; simpl;
    rewrite ?Ea, ?Eh, ?Ep; reflexivity.
Qed.

End Cascade.

Lemma C8_patient_delete_cascade_witness :
  (@patient_delete sample_externals sample_config dr_perez
     (put "000000000000000000000002" ∅) sample_env clinic_with_measurements).2
  = {| users := [dr_perez]; anthropometric := [other_measurement]; performance := [];
       health := []; reports := []; next_oid := 22%N |}.
Proof.
  pose proof (@C8_patient_delete_cascade sample_externals sample_config dr_perez 1 2
                (put "000000000000000000000002" ∅) sample_env clinic_with_measurements
                eq_refl eq_refl) as Hc.
  destruct Hc as [Heq _].
  - exists ana. repeat split. right. by left.
  - rewrite Heq. vm_compute. reflexivity.
Defined.

(** ** Request validation *)

Section ValidationFacts.
Context `{Externals}.

Lemma fold_chain_acc (s : store) (cs : list chain) (errs : list (string * string)) (b : doc) :
  fold_left (fun acc c => let '(e1, b') := run_chain s c acc.2 in (acc.1 ++ e1, b'))
            cs (errs, b)
  = (errs ++ (validationResult s cs b).1, (validationResult s cs b).2).
Proof.
  unfold validationResult. revert errs b.
  induction cs as [|c cs IH]; intros errs b; simpl.
  - by rewrite app_nil_r.
  - destruct (run_chain s c b) as [e1 b1]. simpl.
    rewrite (IH (errs ++ e1) b1), (IH e1 b1). simpl. by rewrite app_assoc.
Qed.

Lemma validationResult_cons (s : store) (c : chain) (cs : list chain) (b : doc) :
  validationResult s (c :: cs) b
  = ((run_chain s c b).1 ++ (validationResult s cs (run_chain s c b).2).1,
     (validationResult s cs (run_chain s c b).2).2).
Proof.
  unfold validationResult at 1. simpl. destruct (run_chain s c b) as [e1 b1]. simpl.
  apply fold_chain_acc.
Qed.

Lemma validationResult_app (s : store) (cs1 cs2 : list chain) (b : doc) :
  validationResult s (cs1 ++ cs2) b
  = ((validationResult s cs1 b).1 ++ (validationResult s cs2 (validationResult s cs1 b).2).1,
     (validationResult s cs2 (validationResult s cs1 b).2).2).
Proof.
  revert b. induction cs1 as [|c cs1 IH]; intros b; simpl.
  - by destruct (validationResult s cs2 b).
  - rewrite !validationResult_cons, IH. simpl. by rewrite app_assoc.
Qed.

Lemma run_steps_field (s : store) (k : string) (steps : list step) (cur : option value)
    (f msg : string) :
  In (f, msg) (run_steps s k steps cur).1 -> f = k.
Proof.
  revert cur. induction steps as [|st steps IH]; intros cur; simpl; [done|].
  destruct st as [g|g m|g].
  - apply IH.
  - destruct (run_steps s k steps cur) as [errs v] eqn:E. simpl.
    rewrite in_app_iff. intros [Hin|Hin].
    + destruct (g cur); simpl in Hin; [done|]. destruct Hin as [[= <- _]|[]]. done.
    + apply (IH cur). by rewrite E.
  - destruct (run_steps s k steps cur) as [errs v] eqn:E. simpl.
    rewrite in_app_iff. intros [Hin|Hin].
    + destruct (g s (to_string cur)); simpl in Hin; [|done].
      destruct Hin as [[= <- _]|[]]. done.
    + apply (IH cur). by rewrite E.
Qed.

(** An error of a chain names the chain's field, and the chain's
    condition held. *)
Lemma run_chain_field (s : store) (c : chain) (b : doc) (f msg : string) :
  In (f, msg) (run_chain s c b).1 -> f = ch_field c /\ ch_if c b = true.
Proof.
  unfold run_chain. destruct (ch_if c b); simpl; [|done].
  destruct (ch_optional c && _); simpl; [done|].
  destruct (run_steps s (ch_field c) (ch_steps c) (body_get b (ch_field c))) as [errs v] eqn:E.
  simpl. intros Hin. split; [|done]. eapply run_steps_field. by rewrite E.
Qed.

(** A chain writes at most its own field, and only if it sanitizes. *)
Lemma run_chain_other (s : store) (c : chain) (b : doc) (k : string) :
  ch_field c <> k \/ sanitizes c = false -> (run_chain s c b).2 !! k = b !! k.
Proof.
  intros Hk. unfold run_chain. destruct (ch_if c b); simpl; [|done].
  destruct (ch_optional c && _); simpl; [done|].
  destruct (run_steps s (ch_field c) (ch_steps c) (body_get b (ch_field c))) as [errs v].
  simpl. destruct (sanitizes c); [|done]. destruct v as [x|]; [|done].
  destruct Hk as [Hk|Hk]; [|done]. by rewrite lookup_insert_ne.
Qed.

Lemma validationResult_other (s : store) (cs : list chain) (b : doc) (k : string) :
  Forall (fun c => ch_field c <> k \/ sanitizes c = false) cs ->
  (validationResult s cs b).2 !! k = b !! k.
Proof.
  revert b. induction cs as [|c cs IH]; intros b Hall; [done|].
  apply Forall_cons in Hall as [Hc Hall].
  rewrite validationResult_cons. simpl. rewrite IH by done. by apply run_chain_other.
Qed.

Lemma validationResult_unsanitized (s : store) (cs : list chain) (b : doc) :
  Forall (fun c => sanitizes c = false) cs -> (validationResult s cs b).2 = b.
Proof.
  revert b. induction cs as [|c cs IH]; intros b Hall; [done|].
  apply Forall_cons in Hall as [Hc Hall].
  rewrite validationResult_cons. simpl. rewrite IH by done.
  unfold run_chain. destruct (ch_if c b); simpl; [|done].
  destruct (ch_optional c && _); simpl; [done|].
  destruct (run_steps _ _ _ _). simpl. by rewrite Hc.
Qed.

(** Every error comes from a chain of the route, run on a body that
    agrees with the request body on every field no chain rewrites. *)
Lemma validationResult_error (s : store) (cs : list chain) (b : doc) (k f msg : string) :
  Forall (fun c => ch_field c <> k \/ sanitizes c = false) cs ->
  In (f, msg) (validationResult s cs b).1 ->
  exists c b', In c cs /\ ch_field c = f /\ ch_if c b' = true /\ b' !! k = b !! k.
Proof.
  revert b. induction cs as [|c cs IH]; intros b Hall; [done|].
  apply Forall_cons in Hall as [Hc Hall].
  rewrite validationResult_cons. simpl. rewrite in_app_iff. intros [Hin|Hin].
  - apply run_chain_field in Hin as [-> Hif]. exists c, b. split; [by left|]. by repeat split.
  - destruct (IH _ Hall Hin) as (c' & b' & Hc' & Hf & Hif & Hb).
    exists c', b'. split; [by right|]. split; [done|]. split; [done|].
    rewrite Hb. by apply run_chain_other.
Qed.

End ValidationFacts.

(** ** Registration *)

Section Registration.
Context `{Externals}.
Variable cfg : config.

Lemma professional_query (v : string) :
  let q : query := {["_id" := CEq (VStr v); "role" := CEq (VStr "professional")]} in
  match parseObjectId v with
  | Some o =>
      exists q', prepared cfg User q = Ok q'
        /\ forall d, matches q' d = true
                     <-> d !! "_id" = Some (VId o) /\ d !! "role" = Some (VStr "professional")
  | None => exists err, prepared cfg User q = Throw err
  end.
Proof.
  intros q.
  assert (strict_filter cfg User q = q) as Hs.
  { apply strict_filter_declared. apply map_Forall_two; [done|]. split; simpl; eauto. }
  assert (cast_cond User "role" (CEq (VStr "professional")) = Some (CEq (VStr "professional")))
    as Hcr by reflexivity.
  assert (cast_cond User "_id" (CEq (VStr v)) = (fun o => CEq (VId o)) <$> parseObjectId v)
    as Hci.
  { unfold cast_cond. simpl. by destruct (parseObjectId v). }
  destruct (parseObjectId v) as [o|] eqn:Hr.
  - destruct (prepared_ok cfg User q) as [q' Hq].
    { rewrite Hs. unfold q. apply map_Forall_two; [done|]. rewrite Hci, Hcr. simpl. eauto. }
    exists q'. split; [done|]. intros d.
    rewrite (matches_prepared cfg _ _ _ d Hq), Hs. unfold q. rewrite map_Forall_two by done.
    rewrite Hci, Hcr. simpl. rewrite <- cond_holds_id, <- cond_holds_str. split.
    + intros [(c1 & [= <-] & G1) (c2 & [= <-] & G2)]. done.
    + intros [G1 G2]. split; eexists; split; [reflexivity | done | reflexivity | done].
  - unfold prepared. rewrite Hs. unfold q. eapply cast_query_throw.
    + apply lookup_insert_eq.
    + by rewrite Hci.
Qed.

(** The custom validator passes exactly on the id of a stored
    professional. *)
Lemma professional_exists_spec (s : store) (v : string) :
  professional_exists cfg s v = None
  <-> exists o u, parseObjectId v = Some o /\ In u (users s)
                  /\ u !! "_id" = Some (VId o) /\ u !! "role" = Some (VStr "professional").
Proof.
  unfold professional_exists. pose proof (professional_query v) as Hq.
  destruct (parseObjectId v) as [o|] eqn:Hr; simpl.
  - destruct Hq as (q' & Hq & Hm). rewrite findOne_eq, Hq. simpl.
    destruct (head (List.filter (matches q') (users s))) as [u|] eqn:E; simpl.
    + apply head_filter_In in E as [Hin Hmu]. apply Hm in Hmu as [Hid Hrole].
      split; [|done]. intros _. by exists o, u.
    + split; [done|]. intros (o' & u & [= <-] & Hin & Hid & Hrole). exfalso.
      rewrite head_filter_None in E. specialize (E u Hin).
      assert (matches q' u = true) by (by apply Hm). congruence.
  - split; [done|]. by intros (o & u & [=] & _).
Qed.

Lemma register_validators_split :
  register_validators cfg
  = take 7 (register_validators cfg)
    ++ check_if_role "athlete" "professionalId"
         [Sanitize js_trim; Validate notEmpty "Professional ID is required";
          Custom (professional_exists cfg)]
    :: drop 8 (register_validators cfg).
Proof. reflexivity. Qed.

Lemma body_get_role (b : doc) : body_get b "role" = b !! "role".
Proof.
  unfold body_get. change (split_dot "role") with ["role"]. cbv beta iota.
  by destruct (b !! "role").
Qed.

Lemma body_get_professionalId (b : doc) : body_get b "professionalId" = b !! "professionalId".
Proof.
  unfold body_get. change (split_dot "professionalId") with ["professionalId"]. cbv beta iota.
  by destruct (b !! "professionalId").
Qed.

(** The errors of a chain [trim; validator; custom] whose condition holds. *)
Lemma run_chain_trim_validate_custom (s : store) (field msg : string) (cond : doc -> bool)
    (san : string -> string) (val : option value -> bool)
    (cust : store -> string -> option string) (b : doc) :
  cond b = true ->
  (run_chain s {| ch_field := field; ch_if := cond; ch_optional := false;
                  ch_steps := [Sanitize san; Validate val msg; Custom cust] |} b).1
  = (if val (Some (VStr (san (to_string (body_get b field))))) then [] else [(field, msg)])
    ++ match cust s (san (to_string (body_get b field))) with
       | Some m => [(field, m)]
       | None => []
       end.
Proof. intros Hc. unfold run_chain. simpl. rewrite Hc. simpl. by rewrite app_nil_r. Qed.

(** What the [professionalId] chain reports for an athlete payload. *)
Lemma professionalId_errors (s : store) (b : doc) :
  b !! "role" = Some (VStr "athlete") ->
  exists pre post,
    (validationResult s (register_validators cfg) b).1
    = pre
      ++ ((if notEmpty (Some (VStr (js_trim (to_string (b !! "professionalId")))))
           then [] else [("professionalId", "Professional ID is required")])
          ++ match professional_exists cfg s (js_trim (to_string (b !! "professionalId"))) with
             | Some msg => [("professionalId", msg)]
             | None => []
             end)
      ++ post.
Proof.
  intros Hrole. rewrite register_validators_split, validationResult_app, validationResult_cons.
  cbn [fst snd]. set (b7 := (validationResult s (take 7 (register_validators cfg)) b).2).
  assert (b7 !! "professionalId" = b !! "professionalId") as Hp.
  { apply validationResult_other. simpl.
    repeat (apply List.Forall_cons; [by left|]). apply List.Forall_nil. }
  assert (b7 !! "role" = b !! "role") as Hr.
  { apply validationResult_other. simpl.
    repeat (apply List.Forall_cons; [first [by left | by right]|]). apply List.Forall_nil. }
  eexists _, _. f_equal. f_equal. unfold check_if_role.
  rewrite run_chain_trim_validate_custom.
  - by rewrite body_get_professionalId, Hp.
  - rewrite body_get_role, Hr, Hrole. reflexivity.
Qed.

(** A payload that fails validation is answered before anything else is
    looked at; a 201 therefore means that no validator complained. *)
Lemma register_invalid (r : request) (e : env) (s : store) :
  (validationResult s (register_validators cfg) (req_body r)).1 <> [] ->
  register cfg r e s
  = (Ok (validation_failed (validationResult s (register_validators cfg) (req_body r)).1), s).
Proof.
  intros Hne. unfold register, try_catch, bind, get_store.
  destruct (validationResult s (register_validators cfg) (req_body r)) as [errors b].
  cbn [fst] in *. destruct errors as [|err errors]; [by destruct Hne|]. reflexivity.
Qed.

Lemma register_created (r : request) (e : env) (s s' : store) (res : response) :
  register cfg r e s = (Ok res, s') -> status res = 201 ->
  (validationResult s (register_validators cfg) (req_body r)).1 = [].
Proof.
  intros Hreg Hst. pose proof (register_invalid r e s) as Hinv.
  destruct ((validationResult s (register_validators cfg) (req_body r)).1) as [|err errors];
    [reflexivity|].
  rewrite Hinv in Hreg by (intros [=]). clear Hinv.
  injection Hreg as <- <-. discriminate Hst.
Qed.

(** C6: for a payload whose role is professional no validation error ever
    names professionalId, gender, age or country; for a payload whose role
    is athlete a 201 implies that the (trimmed) professionalId is the id of
    a stored professional, and when it is not, the answer is the 400
    "Validation failed" whose details pair the field professionalId with a
    message, and nothing is stored. *)
Theorem C6_registration_by_role (r : request) (e : env) (s : store) :
  (req_body r !! "role" = Some (VStr "professional") ->
   forall f msg,
     In (f, msg) (validationResult s (register_validators cfg) (req_body r)).1 ->
     ~ In f ["professionalId"; "gender"; "age"; "country"])
  /\ (req_body r !! "role" = Some (VStr "athlete") ->
      (forall res s', register cfg r e s = (Ok res, s') -> status res = 201 ->
                      references_professional s (req_body r))
      /\ (~ references_professional s (req_body r) ->
          exists errors msg,
            register cfg r e s = (Ok (validation_failed errors), s)
            /\ In ("professionalId", msg) errors
            /\ In (Some "professionalId", msg) (field_details errors))).
Proof.
  split.
  - intros Hrole f msg Hin Hf.
    destruct (validationResult_error s (register_validators cfg) (req_body r) "role" f msg)
      as (c & b' & Hc & Hcf & Hif & Hb); [|exact Hin|].
    { unfold register_validators.
      repeat (apply List.Forall_cons;
              [first [ right; reflexivity
                     | left; unfold check, check_if_role; cbn [ch_field]; intros [=] ]|]).
      apply List.Forall_nil. }
    clear Hin. unfold register_validators in Hc. cbn [In] in Hc.
    assert (equals "athlete" (body_get b' "role") = false) as Hno.
    { rewrite body_get_role, Hb, Hrole. reflexivity. }
    cbn [In] in Hf.
    repeat (destruct Hc as [<-|Hc]; [
      unfold check, check_if_role in Hcf, Hif; cbn [ch_field ch_if] in Hcf, Hif;
      subst f; try (rewrite Hno in Hif; discriminate Hif);
      repeat (destruct Hf as [Hf|Hf]; [discriminate Hf|]); destruct Hf |]).
    destruct Hc.
  - intros Hrole.
    destruct (professionalId_errors s (req_body r) Hrole) as (pre & post & Herrs).
    pose proof (professional_exists_spec s (js_trim (to_string (req_body r !! "professionalId"))))
      as Hspec.
    split.
    + intros res s' Hreg Hst. apply Hspec.
      pose proof (register_created r e s s' res Hreg Hst) as Hnil. clear Hreg.
      rewrite Hnil in Herrs. clear Hnil.
      destruct (professional_exists cfg s _) as [m|]; [|reflexivity].
      symmetry in Herrs. apply app_eq_nil in Herrs as [_ Herrs].
      apply app_eq_nil in Herrs as [Herrs _]. apply app_eq_nil in Herrs as [_ Herrs].
      discriminate Herrs.
    + intros Hno.
      destruct (professional_exists cfg s _) as [m|] eqn:Hpe.
      2: { exfalso. apply Hno, Hspec. reflexivity. }
      assert (In ("professionalId", m)
                (validationResult s (register_validators cfg) (req_body r)).1) as Hin.
      { rewrite Herrs, !in_app_iff. right. left. right. by left. }
      clear Herrs.
      exists (validationResult s (register_validators cfg) (req_body r)).1, m.
      split; [|split; [exact Hin|]].
      * apply register_invalid. intros Hnil. rewrite Hnil in Hin. destruct Hin.
      * unfold field_details.
        exact (in_map (fun fm : string * string => (Some fm.1, fm.2)) _ _ Hin).
Qed.

End Registration.

Lemma C6_registration_by_role_witness :
  let orphan : doc :=
    {["name" := VStr "Bea"; "email" := VStr "bea@club"; "password" := VStr "longpassword";
      "role" := VStr "athlete"; "gender" := VStr "female"; "age" := VStr "19";
      "country" := VStr "AR"; "professionalId" := VStr "000000000000000000000002"]} in
  exists errors msg,
    @register sample_externals sample_config (post orphan) sample_env clinic
    = (Ok (validation_failed errors), clinic)
    /\ In ("professionalId", msg) errors
    /\ In (Some "professionalId", msg) (field_details errors).
Proof.
  intros orphan.
  refine (proj2 (proj2 (@C6_registration_by_role sample_externals sample_config (post orphan)
                          sample_env clinic) eq_refl) _).
  intros (o & u & Ho & Hin & Hid & Hrole). vm_compute in Ho. injection Ho as <-.
  destruct Hin as [<-|[<-|[]]]; vm_compute in Hid, Hrole; congruence.
Defined.

(** ** What every reachable store satisfies *)

Section Invariant.
Context `{Externals}.
Variable cfg : config.

Lemma preserves_ret {A} (P : store -> Prop) (a : A) : preserves P (ret a).
Proof. by intros s. Qed.

Lemma preserves_throw {A} (P : store -> Prop) (err : exn) : preserves P (throw (A := A) err).
Proof. by intros s. Qed.

Lemma preserves_lift_outcome {A} (P : store -> Prop) (o : outcome A) :
  preserves P (lift_outcome o).
Proof. by intros s. Qed.

Lemma preserves_get_store (P : store -> Prop) : preserves P get_store.
Proof. by intros s. Qed.

Lemma preserves_bind {A B} (P : store -> Prop) (m : M A) (k : A -> M B) :
  preserves P m -> (forall a, preserves P (k a)) -> preserves P (bind m k).
Proof.
  intros Hm Hk s Hs. unfold bind. specialize (Hm s Hs).
  destruct (m s) as [[a|err] s']; simpl in *; [by apply Hk | exact Hm].
Qed.

Lemma preserves_try_catch {A} (P : store -> Prop) (m : M A) (h : exn -> A) :
  preserves P m -> preserves P (try_catch m h).
Proof.
  intros Hm s Hs. unfold try_catch. specialize (Hm s Hs).
  by destruct (m s) as [[a|err] s'].
Qed.

Lemma preserves_find (P : store -> Prop) (m : model) (q : query) : preserves P (find cfg m q).
Proof. intros s Hs. by rewrite find_eq. Qed.

Lemma preserves_findOne (P : store -> Prop) (m : model) (q : query) :
  preserves P (findOne cfg m q).
Proof. intros s Hs. by rewrite findOne_eq. Qed.

Lemma preserves_countDocuments (P : store -> Prop) (m : model) (q : query) :
  preserves P (countDocuments cfg m q).
Proof. intros s Hs. by rewrite countDocuments_eq. Qed.

Lemma preserves_fresh_oid : preserves no_user_role fresh_oid.
Proof. by intros s Hs. Qed.

(** Replacing a collection by a list of documents taken from it, or, for
    a collection other than the reports, adding valid users. *)
Lemma no_user_role_set_coll (c : coll) (l : list doc) (s : store) :
  no_user_role s ->
  (c = Users -> Forall valid_role l) -> (c = Reports -> l = []) ->
  no_user_role (set_coll c l s).
Proof. intros [Hu Hr] Hl1 Hl2. destruct c; split; simpl; auto. Qed.

Lemma filter_sub (c : coll) (f : doc -> bool) (s : store) :
  no_user_role s ->
  no_user_role (set_coll c (List.filter f (get_coll c s)) s).
Proof.
  intros Hs. apply no_user_role_set_coll; [done| |]; intros ->; simpl.
  - destruct Hs as [Hu _]. rewrite List.Forall_forall in *.
    intros u Hin. apply filter_In in Hin as [Hin _]. auto.
  - destruct Hs as [_ ->]. done.
Qed.

Lemma remove_first_In (f : doc -> bool) (l : list doc) (d : doc) :
  In d (remove_first f l) -> In d l.
Proof.
  induction l as [|x l IH]; simpl; [done|]. destruct (f x); [by right|].
  intros [->|Hin]; [by left | right; auto].
Qed.

Lemma remove_sub (c : coll) (f : doc -> bool) (s : store) :
  no_user_role s ->
  no_user_role (set_coll c (remove_first f (get_coll c s)) s).
Proof.
  intros Hs. apply no_user_role_set_coll; [done| |]; intros ->; simpl.
  - destruct Hs as [Hu _]. rewrite List.Forall_forall in *.
    intros u Hin. apply remove_first_In in Hin. auto.
  - destruct Hs as [_ ->]. done.
Qed.

Lemma preserves_deleteMany (m : model) (q : query) :
  preserves no_user_role (deleteMany cfg m q).
Proof.
  intros s Hs. rewrite deleteMany_eq. destruct (prepared cfg m q); [|done].
  by apply filter_sub.
Qed.

Lemma preserves_findOneAndDelete (m : model) (q : query) :
  preserves no_user_role (findOneAndDelete cfg m q).
Proof.
  intros s Hs. rewrite findOneAndDelete_eq. destruct (prepared cfg m q); [|done].
  destruct (head _); [|done]. by apply remove_sub.
Qed.

Lemma preserves_deleteOne (m : model) (d : mdoc) : preserves no_user_role (deleteOne m d).
Proof. intros s Hs. unfold deleteOne, bind, read_coll, write_coll. simpl. by apply remove_sub. Qed.

Lemma flat_map_nil {A B} (f : A -> list B) (l : list A) (x : A) :
  flat_map f l = [] -> In x l -> f x = [].
Proof.
  induction l as [|y l IH]; simpl; [done|]. intros Hnil [->|Hin].
  - by apply app_eq_nil in Hnil as [? _].
  - apply app_eq_nil in Hnil as [_ ?]. auto.
Qed.

(** A document the role path accepts has a listed role. *)
Lemma validate_role (d : mdoc) : validate_path d role_path = [] -> valid_role (md_fields d).
Proof.
  unfold validate_path, role_path, valid_role. simpl.
  destruct (mem "role" (md_invalid d)); [intros [=]|].
  destruct (md_fields d !! "role") as [v|]; [|intros [=]].
  destruct v as [| | |r| | | | |]; try (intros [=]; fail).
  destruct (String.eqb_spec r ""); [intros [=]|].
  destruct (String.eqb_spec r "athlete") as [->|]; [by left|].
  destruct (String.eqb_spec r "professional") as [->|]; [by right|].
  simpl. intros [=].
Qed.

Lemma stamp_role (m : model) (e : env) (d : mdoc) :
  md_fields (stamp m e d) !! "role" = md_fields d !! "role".
Proof.
  unfold stamp. destruct (m_timestamps m); [|done]. simpl.
  destruct (md_isNew d || _), (md_isNew d); rewrite ?lookup_insert_ne by (intros [=]); done.
Qed.

Lemma hooks_role (hs : list (env -> mdoc -> mdoc)) (e : env) (d : mdoc) :
  Forall (fun h : env -> mdoc -> mdoc =>
            forall e d, md_fields (h e d) !! "role" = md_fields d !! "role") hs ->
  md_fields (fold_left (fun d h => h e d) hs d) !! "role" = md_fields d !! "role".
Proof.
  revert d. induction hs as [|h hs IH]; intros d Hall; [done|].
  apply Forall_cons in Hall as [Hh Hall]. simpl. by rewrite IH, Hh.
Qed.

Lemma replace_first_In (f : doc -> bool) (d' : doc) (l : list doc) (x : doc) :
  In x (replace_first f d' l) -> x = d' \/ In x l.
Proof.
  induction l as [|y l IH]; simpl; [done|]. destruct (f y).
  - intros [<-|Hin]; [by left | right; by right].
  - intros [->|Hin]; [right; by left|]. destruct (IH Hin); [by left | right; by right].
Qed.

Lemma replace_first_nil_inv (f : doc -> bool) (d' : doc) (l : list doc) :
  l = [] -> replace_first f d' l = [].
Proof. by intros ->. Qed.

(** Saving through a model that checks the role keeps the invariant. *)
Lemma preserves_save (m : model) (e : env) (d : mdoc) :
  role_checked m -> preserves no_user_role (save m e d).
Proof.
  intros [Hnr Hrc] s Hs. unfold save.
  destruct (validate m d) as [|err errs] eqn:Hv; [|done].
  unfold bind, read_coll, write_coll, ret, throw.
  set (d1 := stamp m e (fold_left (fun d h => h e d) (m_pre_save m) d)).
  destruct (negb (md_isNew d1) && isModified d1 "_id"); [done|].
  destruct (unique_conflict m d1 (get_coll (m_coll m) s)); [done|]. simpl.
  apply no_user_role_set_coll; [done| |done].
  intros Hc. destruct (Hrc Hc) as [Hin Hhooks].
  assert (valid_role (md_fields d1)) as Hvalid.
  { unfold valid_role, d1. rewrite stamp_role, hooks_role by done.
    apply validate_role. by apply (flat_map_nil _ _ _ Hv). }
  destruct Hs as [Hu _]. rewrite Hc. simpl. rewrite List.Forall_forall in *.
  destruct (md_isNew d1).
  - intros u Hin'. apply in_app_iff in Hin' as [Hin'|[<-|[]]]; auto.
  - intros u Hin'. apply replace_first_In in Hin' as [->|Hin']; auto.
Qed.

Lemma hash_password_role (e : env) (d : mdoc) :
  md_fields (hash_password e d) !! "role" = md_fields d !! "role".
Proof.
  unfold hash_password. destruct (negb _); [done|].
  destruct (md_fields d !! "password") as [[]|]; try done.
  simpl. by rewrite lookup_insert_ne by (intros [=]).
Qed.

Lemma role_checked_users (m : model) :
  m = User \/ m = Athlete \/ m = Professional -> role_checked m.
Proof.
  intros [-> | [-> | ->]]; (split; [intros [=]|]); intros _; (split;
    [ simpl; unfold role_path; auto 10
    | simpl; repeat constructor; apply hash_password_role ]).
Qed.

Lemma role_checked_user_model (f : doc) : role_checked (user_model f).
Proof.
  apply role_checked_users. unfold user_model.
  destruct (f !! "role") as [[]|]; auto. repeat case_match; auto.
Qed.

Lemma role_checked_measurement (m : model) :
  m = AnthropometricMeasurement \/ m = PerformanceMetrics \/ m = HealthMetrics ->
  role_checked m.
Proof. intros [-> | [-> | ->]]; split; intros [=]. Qed.


Ltac role_checked_tac :=
  first [ apply role_checked_user_model
        | solve [apply role_checked_measurement; auto]
        | solve [apply role_checked_users; auto]
        | solve [apply role_checked_users; repeat case_match; auto] ].

Ltac preserves_step :=
  first
    [ apply preserves_try_catch | apply preserves_ret | apply preserves_throw
    | apply preserves_lift_outcome | apply preserves_get_store
    | apply preserves_find | apply preserves_findOne | apply preserves_countDocuments
    | apply preserves_fresh_oid | apply preserves_deleteMany
    | apply preserves_findOneAndDelete | apply preserves_deleteOne
    | apply preserves_save; role_checked_tac
    | apply preserves_bind; [|intros ?]
    | match goal with
      | |- preserves _ (match ?x with _ => _ end) => destruct x
      end
    | progress cbv zeta ].

Ltac preserves_tac :=
  autounfold with handlers;
  unfold paged, delete_measurements, delete_health, delete_performance, delete_patient;
  repeat preserves_step.

Lemma report_share_unchanged (user : doc) (r : request) (e : env) (s : store) :
  reports s = [] -> (report_share cfg user r e s).2 = s.
Proof.
  intros Hr. unfold report_share, try_catch, bind. rewrite findOne_eq.
  destruct (prepared cfg Report _); [|done]. simpl. by rewrite Hr.
Qed.

(** With every user's role listed, the lookup of report creation, which
    asks for the role [user], selects nobody. *)
Lemma report_lookup_empty (user : doc) (b : doc) (s : store) (q' : query) :
  Forall valid_role (users s) ->
  prepared cfg User {["_id" := as_filter (b !! "userId"); "role" := CEq (VStr "user");
                      "professionalId" := uid user]} = Ok q' ->
  head (List.filter (matches q') (users s)) = None.
Proof.
  intros Hu Hq. apply head_filter_None. intros u Hin.
  destruct (matches q' u) eqn:Hm; [|done]. exfalso.
  assert (q' !! "role" = Some (CEq (VStr "user"))) as Hrole.
  { rewrite (prepared_lookup cfg User _ q' "role" (CEq (VStr "user")) role_path Hq); [done| |done].
    rewrite lookup_insert_ne by (intros [=]). apply lookup_insert_eq. }
  pose proof (matches_lookup _ _ _ _ Hm Hrole) as Hc. apply cond_holds_str in Hc.
  rewrite List.Forall_forall in Hu. destruct (Hu u Hin) as [Hv|Hv]; rewrite Hv in Hc; by inversion Hc.
Qed.

Lemma report_create_unchanged (user : doc) (r : request) (e : env) (s : store) :
  Forall valid_role (users s) -> (report_create cfg user r e s).2 = s.
Proof.
  intros Hu. unfold report_create, try_catch, bind, get_store.
  destruct (validationResult s report_create_validators (req_body r)) as [errors b].
  destruct errors as [|err errors]; [|done].
  rewrite findOne_eq. destruct (prepared cfg User _) as [q'|] eqn:Hq; [|done].
  change (get_coll (m_coll User) s) with (users s).
  by rewrite (report_lookup_empty user b s q' Hu Hq).
Qed.

Lemma handler_preserves (ep : endpoint) (user : doc) (r : request) (e : env) :
  preserves no_user_role (handler cfg ep user r e).
Proof.
  destruct ep; unfold handler;
    try (intros s [Hu Hr]; first [ rewrite report_create_unchanged by done
                                 | rewrite report_share_unchanged by done ]; by split);
    preserves_tac.
Qed.

Lemma serve_preserves (ep : endpoint) (r : request) (e : env) :
  preserves no_user_role (serve cfg ep r e).
Proof.
  unfold serve. destruct (guard_of ep).
  - apply handler_preserves.
  - apply preserves_bind; [unfold auth; repeat preserves_step|].
    intros [refused|user]; [apply preserves_ret | apply handler_preserves].
  - apply preserves_bind; [unfold auth; repeat preserves_step|].
    intros [refused|user]; [apply preserves_ret|].
    destruct (requireProfessional user); [apply preserves_ret | apply handler_preserves].
Qed.

Lemma reachable_no_user_role (s : store) : reachable cfg s -> no_user_role s.
Proof.
  induction 1 as [|s ep r e Hreach IH].
  - split; [apply List.Forall_nil | done].
  - by apply serve_preserves.
Qed.

Lemma body_get_userId (b : doc) : body_get b "userId" = b !! "userId".
Proof.
  unfold body_get. change (split_dot "userId") with ["userId"]. cbv beta iota.
  by destruct (b !! "userId").
Qed.

Lemma run_chain_validate (s : store) (field msg : string) (val : option value -> bool)
    (b : doc) :
  run_chain s (check field [Validate val msg]) b
  = (if val (body_get b field) then [] else [(field, msg)], b).
Proof. unfold run_chain, check. simpl. by rewrite app_nil_r. Qed.

Lemma report_create_body (s : store) (b : doc) :
  (validationResult s report_create_validators b).2 = b.
Proof.
  apply validationResult_unsanitized. unfold report_create_validators.
  repeat (apply List.Forall_cons; [reflexivity|]). apply List.Forall_nil.
Qed.

(** A validated request naming the athlete by a string id reaches the
    lookup, which finds nobody: the answer is 404. *)
Lemma report_create_not_found (user : doc) (a : N) (r : request) (e : env) (s : store)
    (u : string) :
  Forall valid_role (users s) ->
  user !! "_id" = Some (VId a) ->
  (validationResult s report_create_validators (req_body r)).1 = [] ->
  req_body r !! "userId" = Some (VStr u) ->
  (report_create cfg user r e s).1 = Ok (not_found "User not found or not assigned to you").
Proof.
  intros Hu Hid Hnil Hb.
  assert (exists o, parseObjectId u = Some o) as [o Ho].
  { pose proof Hnil as Hnil'. unfold report_create_validators in Hnil'.
    rewrite validationResult_cons, run_chain_validate in Hnil'. cbn [fst snd] in Hnil'.
    apply app_eq_nil in Hnil' as [Hfirst _].
    rewrite body_get_userId, Hb in Hfirst. unfold isMongoId in Hfirst. cbn [to_string] in Hfirst.
    destruct (parseObjectId u) as [o|]; [eauto|].
    rewrite bool_decide_eq_false_2 in Hfirst by (by intros [? ?]). discriminate Hfirst. }
  pose proof (report_create_body s (req_body r)) as Hbody.
  unfold report_create, try_catch, bind, get_store.
  destruct (validationResult s report_create_validators (req_body r)) as [errors b].
  cbn [fst snd] in Hnil, Hbody. subst errors b. rewrite findOne_eq.
  set (q := ({["_id" := as_filter (req_body r !! "userId"); "role" := CEq (VStr "user");
              "professionalId" := uid user]} : query)).
  assert (exists q', prepared cfg User q = Ok q') as [q' Hq].
  { apply prepared_ok. rewrite strict_filter_declared.
    - unfold q. apply map_Forall_three; [done..|]. rewrite Hb, (uid_of_user _ _ Hid).
      unfold as_filter. cbn [default]. repeat split.
      + unfold cast_cond. simpl. rewrite Ho. simpl. eauto.
      + simpl. eauto.
      + simpl. eauto.
    - unfold q. apply map_Forall_three; [done..|]. repeat split; simpl; eauto. }
  rewrite Hq. change (get_coll (m_coll User) s) with (users s).
  by rewrite (report_lookup_empty user (req_body r) s q' Hu Hq).
Qed.

(** C3 (amended): in every store the server can reach, each user's role is
    athlete or professional and there is no report; report creation leaves
    the store as it is whatever the request, and a request that passes the
    route's validators and names the athlete by a string id is answered
    404, because the lookup asks for the role [user]. *)
Theorem C3_report_creation_never_succeeds (s : store) :
  reachable cfg s ->
  Forall valid_role (users s)
  /\ reports s = []
  /\ forall user a r e,
       user !! "_id" = Some (VId a) ->
       (report_create cfg user r e s).2 = s
       /\ forall u,
            (validationResult s report_create_validators (req_body r)).1 = [] ->
            req_body r !! "userId" = Some (VStr u) ->
            (report_create cfg user r e s).1
            = Ok (not_found "User not found or not assigned to you").
Proof.
  intros Hreach. destruct (reachable_no_user_role s Hreach) as [Hu Hr].
  split; [exact Hu|]. split; [exact Hr|].
  intros user a r e Hid. split.
  - by apply report_create_unchanged.
  - intros u Hnil Hb. by apply (report_create_not_found user a r e s u).
Qed.

End Invariant.

Lemma C3_report_creation_never_succeeds_witness :
  let s := (@serve sample_externals sample_config AuthRegister
              (post {["name" := VStr "Quiroga"; "email" := VStr "quiroga@clinic";
                      "password" := VStr "longpassword"; "role" := VStr "professional";
                      "specialization" := VStr "kinesiology"; "licenseNumber" := VStr "L2";
                      "yearsOfExperience" := VStr "5"]})
              sample_env empty_store).2 in
  length (users s) = 1%nat
  /\ reports s = []
  /\ @report_create sample_externals sample_config dr_perez (post individual_report_request)
       sample_env s
     = (Ok (not_found "User not found or not assigned to you"), s).
Proof.
  intros s.
  assert (@reachable sample_externals sample_config s) as Hreach
    by (apply reach_serve, reach_empty).
  destruct (@C3_report_creation_never_succeeds sample_externals sample_config s Hreach)
    as (Hu & Hr & Hc).
  split; [vm_compute; reflexivity|]. split; [exact Hr|].
  destruct (Hc dr_perez 1%N (post individual_report_request) sample_env eq_refl) as [Hs Hnf].
  specialize (Hnf "000000000000000000000002").
  rewrite (surjective_pairing (report_create _ _ _ _ _)), Hs, Hnf; [reflexivity| |reflexivity].
  vm_compute. reflexivity.
Defined.

(** C3, as stated, fails: a professional's request whose [type] is not
    accepted by the route's validators is answered 400 with the validation
    errors, before any lookup; it is not answered NotFound. *)
Lemma C3_invalid_request_is_400_not_404 :
  (@report_create sample_externals sample_config dr_perez (post weekly_report_request)
     sample_env clinic).1
  = Ok {| status := 400; res_body := RErrors [("type", "Invalid value")] |}
  /\ (@report_create sample_externals sample_config dr_perez (post weekly_report_request)
        sample_env clinic).1
     <> Ok (not_found "User not found or not assigned to you").
Proof.
  assert ((@report_create sample_externals sample_config dr_perez (post weekly_report_request)
             sample_env clinic).1
          = Ok {| status := 400; res_body := RErrors [("type", "Invalid value")] |}) as E
    by (vm_compute; reflexivity).
  split; [exact E|]. rewrite E. intros [=].
Qed.

(** ** Saving keeps the id *)

Section SaveId.
Context `{Externals}.

Lemma dot_prefix_id (k : string) : is_prefix (k +:+ ".") "_id" = false.
Proof.
  unfold is_prefix.
  destruct k as [|c1 [|c2 [|c3 k]]]; simpl.
  - reflexivity.
  - by destruct (ascii_dec c1 "_").
  - destruct (ascii_dec c1 "_"); [|done]. by destruct (ascii_dec c2 "i").
  - destruct (ascii_dec c1 "_"); [|done]. destruct (ascii_dec c2 "i"); [|done].
    destruct (ascii_dec c3 "d"); [|done]. by destruct k.
Qed.

Lemma keeps_id_marked (o : option value) (k : string) (f : doc) (mods inv : list string)
    (n : bool) (d : mdoc) :
  mods = k :: md_modified d ->
  (k <> "_id" -> f !! "_id" = md_fields d !! "_id") ->
  keeps_id o d ->
  keeps_id o {| md_fields := f; md_modified := mods; md_invalid := inv; md_isNew := n |}.
Proof.
  intros -> Hf. unfold keeps_id, isModified. cbn [md_modified md_fields existsb].
  destruct (String.eqb_spec "_id" k) as [<-|Hne]; [by left|].
  intros [Hm|Ho]; [left; rewrite Hm; apply orb_true_r|].
  right. rewrite Hf; [done | congruence].
Qed.

Lemma set_leaf_keeps (m : model) (k : string) (v : value) (o : option value) (d : mdoc) :
  keeps_id o d -> keeps_id o (set_leaf m k v d).
Proof.
  intros Hd. unfold set_leaf. destruct (find_path m k) as [p|]; [|done].
  destruct (cast (p_type p) v) as [v0|]; [|exact Hd].
  cbv zeta. destruct (same_value _ _); [done|].
  apply (keeps_id_marked o k _ _ _ _ d); [reflexivity | | exact Hd].
  intros Hk. by rewrite lookup_insert_ne.
Qed.

Lemma set_leaf_isNew (m : model) (k : string) (v : value) (d : mdoc) :
  md_isNew (set_leaf m k v d) = md_isNew d.
Proof.
  unfold set_leaf. destruct (find_path m k) as [p|]; [|done].
  destruct (cast (p_type p) v) as [v0|]; [|done].
  cbv zeta. by destruct (same_value _ _).
Qed.

Lemma clear_nested_keeps (k : string) (o : option value) (d : mdoc) :
  keeps_id o d -> keeps_id o (clear_nested k d).
Proof.
  intros Hd. apply (keeps_id_marked o k _ _ _ _ d); [reflexivity | | exact Hd].
  intros _. apply option_eq. intros x. rewrite map_lookup_filter_Some. simpl.
  pose proof (dot_prefix_id k). tauto.
Qed.

Lemma fold_left_inv {A B} (P : A -> Prop) (f : A -> B -> A) (l : list B) (x : A) :
  (forall x y, P x -> P (f x y)) -> P x -> P (fold_left f l x).
Proof. intros Hf. revert x. induction l as [|y l IH]; intros x Hx; simpl; auto. Qed.

Lemma fold_left_eq {A B C} (g : A -> C) (f : A -> B -> A) (l : list B) (x : A) :
  (forall x y, g (f x y) = g x) -> g (fold_left f l x) = g x.
Proof.
  intros Hf. revert x. induction l as [|y l IH]; intros x; simpl; [done|].
  by rewrite IH, Hf.
Qed.

Lemma set_path_keeps (m : model) (k : string) (v : value) (o : option value) (d : mdoc) :
  keeps_id o d -> keeps_id o (set_path m k v d).
Proof.
  intros Hd. unfold set_path. destruct (is_nested m k); [|by apply set_leaf_keeps].
  destruct v; try exact Hd.
  apply fold_left_inv; [intros; by apply set_leaf_keeps | by apply clear_nested_keeps].
Qed.

Lemma set_path_isNew (m : model) (k : string) (v : value) (d : mdoc) :
  md_isNew (set_path m k v d) = md_isNew d.
Proof.
  unfold set_path. destruct (is_nested m k); [|apply set_leaf_isNew].
  destruct v; try reflexivity.
  transitivity (md_isNew (clear_nested k d)); [|done].
  apply (fold_left_eq md_isNew). intros. apply set_leaf_isNew.
Qed.

Lemma assign_keeps (m : model) (b : doc) (o : option value) (d : mdoc) :
  keeps_id o d -> keeps_id o (assign m b d).
Proof.
  intros Hd. unfold assign.
  apply (fold_left_inv (keeps_id o)); [intros; by apply set_path_keeps | exact Hd].
Qed.

Lemma assign_isNew (m : model) (b : doc) (d : mdoc) : md_isNew (assign m b d) = md_isNew d.
Proof. unfold assign. apply (fold_left_eq md_isNew). intros. apply set_path_isNew. Qed.

Lemma write_field_keeps (k : string) (v : value) (o : option value) (d : mdoc) :
  k <> "_id" -> keeps_id o d -> keeps_id o (write_field k v d).
Proof.
  intros Hk Hd. apply (keeps_id_marked o k _ _ _ _ d); [reflexivity | | exact Hd].
  intros _. by rewrite lookup_insert_ne.
Qed.

Lemma hash_password_safe : id_safe hash_password.
Proof.
  intros e o d. unfold hash_password. destruct (negb _); [done|].
  destruct (md_fields d !! "password") as [[]|]; try done.
  split; [|done]. by apply write_field_keeps.
Qed.

Lemma compute_leanMass_safe : id_safe compute_leanMass.
Proof.
  intros e o d. unfold compute_leanMass. destruct (_ || _); [|done].
  destruct (_ && _); [|done].
  destruct (md_fields d !! "weight") as [[]|]; try done.
  destruct (md_fields d !! "bodyFatPercentage") as [[]|]; try done.
  split; [|done]. by apply write_field_keeps.
Qed.

Lemma generate_accessCode_safe : id_safe generate_accessCode.
Proof.
  intros e o d. unfold generate_accessCode. destruct (_ && _); [|done].
  split; [|done]. by apply write_field_keeps.
Qed.

Lemma user_model_safe (f : doc) : Forall id_safe (m_pre_save (user_model f)).
Proof.
  assert (Forall id_safe [hash_password]) as Hs
    by (apply List.Forall_cons; [apply hash_password_safe | apply List.Forall_nil]).
  unfold user_model. destruct (f !! "role") as [[| | |x| | | | |]|]; try exact Hs.
  destruct (String.eqb x "athlete"); [exact Hs|].
  destruct (String.eqb x "professional"); exact Hs.
Qed.

Lemma hooks_keep (hs : list (env -> mdoc -> mdoc)) (e : env) (o : option value) (d : mdoc) :
  Forall id_safe hs ->
  (keeps_id o d -> keeps_id o (fold_left (fun d h => h e d) hs d))
  /\ md_isNew (fold_left (fun d h => h e d) hs d) = md_isNew d.
Proof.
  intros Hs. revert d. induction Hs as [|h hs Hh _ IH]; intros d; simpl; [done|].
  destruct (IH (h e d)) as [IH1 IH2]. destruct (Hh e o d) as [H1 H2].
  split; [auto | congruence].
Qed.

Lemma stamp_keeps (m : model) (e : env) (o : option value) (d : mdoc) :
  keeps_id o d -> keeps_id o (stamp m e d).
Proof.
  unfold stamp. destruct (m_timestamps m); [|done].
  unfold keeps_id, isModified. cbn [md_modified md_fields].
  intros [Hm|Ho]; [by left|]. right.
  destruct (md_isNew d); simpl; rewrite ?lookup_insert_ne by done; try done.
  destruct (negb _); rewrite ?lookup_insert_ne by done; done.
Qed.

Lemma stamp_isNew (m : model) (e : env) (d : mdoc) : md_isNew (stamp m e d) = md_isNew d.
Proof. unfold stamp. by destruct (m_timestamps m). Qed.

(** A stored document that was assigned to and saved again has the [_id]
    it was loaded with: an assignment that changes the [_id] makes the save
    fail. *)
Lemma save_keeps_id (m : model) (e : env) (o : option value) (d saved : mdoc) (s : store) :
  Forall id_safe (m_pre_save m) -> md_isNew d = false -> keeps_id o d ->
  (save m e d s).1 = Ok saved -> md_fields saved !! "_id" = o.
Proof.
  intros Hs Hnew Hd. unfold save. destruct (validate m d); [|intros [=]].
  cbv zeta. unfold bind, read_coll.
  set (d1 := stamp m e (fold_left (fun d h => h e d) (m_pre_save m) d)).
  destruct (hooks_keep (m_pre_save m) e o d Hs) as [Hk Hn].
  assert (md_isNew d1 = false) as Hn1 by (unfold d1; by rewrite stamp_isNew, Hn).
  assert (keeps_id o d1) as [Hm|Ho].
  { unfold d1. apply stamp_keeps, Hk, Hd. }
  - rewrite Hn1, Hm. intros [=].
  - rewrite Hn1. destruct (negb false && isModified d1 "_id"); [intros [=]|].
    destruct (unique_conflict m d1 _); [intros [=]|].
    unfold write_coll. simpl. intros [= <-]. exact Ho.
Qed.

Lemma hydrate_keeps (d : doc) : keeps_id (d !! "_id") (hydrate d).
Proof. by right. Qed.

Lemma no_unique_conflict (m : model) (d : mdoc) (c : list doc) :
  forallb (fun p => negb (is_unique p)) (m_paths m) = true -> unique_conflict m d c = None.
Proof.
  intros Hf. unfold unique_conflict.
  induction (m_paths m) as [|p l IH]; [done|].
  simpl in Hf. apply andb_true_iff in Hf as [Hp Hl]. simpl.
  apply negb_true_iff in Hp. rewrite Hp. simpl. by apply IH.
Qed.

(** Without a unique path the outcome of a save does not depend on what is
    stored. *)
Lemma save_store_free (m : model) (e : env) (d : mdoc) (s1 s2 : store) :
  forallb (fun p => negb (is_unique p)) (m_paths m) = true ->
  (save m e d s1).1 = (save m e d s2).1.
Proof.
  intros Hf. unfold save. destruct (validate m d); [|done].
  cbv zeta. unfold bind, read_coll.
  destruct (negb _ && _); [done|]. by rewrite !(no_unique_conflict _ _ _ Hf).
Qed.

End SaveId.


(** ** Isolation between professionals *)

Section Isolation.
Context `{Externals}.
Variable cfg : config.

Lemma filter_ext_iff (f g : doc -> bool) (l : list doc) :
  (forall d, f d = true <-> g d = true) -> List.filter f l = List.filter g l.
Proof. intros Hfg. apply filter_ext. intros d. apply bool_eq_iff, Hfg. Qed.

Lemma owner_query_swap (c1 c2 : cond) :
  (<["professionalId" := c2]> {["_id" := c1]} : query)
  = {["_id" := c1; "professionalId" := c2]}.
Proof. rewrite <- !insert_empty. by apply insert_insert_ne. Qed.

Lemma ref_is_spec (k : string) (a : N) (d : doc) :
  ref_is k a d = true <-> d !! k = Some (VId a).
Proof.
  unfold ref_is. destruct (d !! k) as [[]|]; split; try done.
  - intros E. apply N.eqb_eq in E. by subst.
  - intros [= ->]. apply N.eqb_refl.
Qed.

(** [{ _id: raw, k: a }] on a model that declares [k] as an ObjectId: an
    id that is not an ObjectId makes the query throw; otherwise exactly the
    documents with that id that name [a] under [k] are selected. *)
Lemma scoped_query (m : model) (p : pathSpec) (k raw : string) (a : N) :
  k <> "_id" -> find_path m k = Some p -> p_type p = TObjectId ->
  let q : query := {["_id" := CEq (VStr raw); k := CEq (VId a)]} in
  match parseObjectId raw with
  | Some rid =>
      exists q', prepared cfg m q = Ok q'
        /\ forall d, matches q' d = true <-> d !! "_id" = Some (VId rid) /\ d !! k = Some (VId a)
  | None => exists err, prepared cfg m q = Throw err
  end.
Proof.
  intros Hne Hp Ht q.
  assert ("_id" <> k) as Hne' by congruence.
  assert (strict_filter cfg m q = q) as Hs.
  { apply strict_filter_declared. apply map_Forall_two; [done|].
    split; [simpl; eauto | rewrite Hp; eauto]. }
  assert (cast_cond m k (CEq (VId a)) = Some (CEq (VId a))) as Hca.
  { unfold cast_cond. rewrite Hp, Ht. simpl. by destruct p. }
  assert (cast_cond m "_id" (CEq (VStr raw)) = (fun o => CEq (VId o)) <$> parseObjectId raw) as Hci.
  { unfold cast_cond. simpl. by destruct (parseObjectId raw). }
  destruct (parseObjectId raw) as [rid|] eqn:Hr.
  - destruct (prepared_ok cfg m q) as [q' Hq].
    { rewrite Hs. unfold q. apply map_Forall_two; [done|]. rewrite Hci, Hca. simpl. eauto. }
    exists q'. split; [done|]. intros d.
    rewrite (matches_prepared cfg _ _ _ d Hq), Hs. unfold q. rewrite map_Forall_two by done.
    rewrite Hci, Hca. simpl. rewrite <- !cond_holds_id. split.
    + intros [(c1 & [= <-] & H1) (c2 & [= <-] & H2)]. done.
    + intros [H1 H2]. split; eexists; split; [reflexivity | done | reflexivity | done].
  - unfold prepared. rewrite Hs. unfold q. eapply cast_query_throw.
    + apply lookup_insert_eq.
    + by rewrite Hci.
Qed.

(** [findOne({ _id: raw, k: a })] in closed form. *)
Lemma findOne_scoped (m : model) (p : pathSpec) (k raw : string) (a : N) (s : store) :
  k <> "_id" -> find_path m k = Some p -> p_type p = TObjectId ->
  exists err,
    findOne cfg m {["_id" := CEq (VStr raw); k := CEq (VId a)]} s
    = (match parseObjectId raw with
       | Some rid =>
           Ok (hydrate <$> head (List.filter (select_ref k a rid) (get_coll (m_coll m) s)))
       | None => Throw err
       end, s).
Proof.
  intros Hk Hp Ht. pose proof (scoped_query m p k raw a Hk Hp Ht) as Hq. rewrite findOne_eq.
  destruct (parseObjectId raw) as [rid|].
  - destruct Hq as (q' & -> & Hm). exists TypeError. do 4 f_equal.
    apply filter_ext_iff. intros d. unfold select_ref.
    by rewrite Hm, andb_true_iff, has_id_spec, ref_is_spec.
  - destruct Hq as [err ->]. by exists err.
Qed.

Lemma findOneAndDelete_scoped (m : model) (p : pathSpec) (k raw : string) (a : N) (s : store) :
  k <> "_id" -> find_path m k = Some p -> p_type p = TObjectId ->
  exists err,
    findOneAndDelete cfg m {["_id" := CEq (VStr raw); k := CEq (VId a)]} s
    = match parseObjectId raw with
      | Some rid =>
          let sel := select_ref k a rid in
          match head (List.filter sel (get_coll (m_coll m) s)) with
          | Some d => (Ok (Some (hydrate d)),
                       set_coll (m_coll m) (remove_first sel (get_coll (m_coll m) s)) s)
          | None => (Ok None, s)
          end
      | None => (Throw err, s)
      end.
Proof.
  intros Hk Hp Ht. pose proof (scoped_query m p k raw a Hk Hp Ht) as Hq.
  rewrite findOneAndDelete_eq.
  destruct (parseObjectId raw) as [rid|].
  - destruct Hq as (q' & -> & Hm). exists TypeError. cbv zeta.
    assert (forall d, matches q' d = select_ref k a rid d) as Hsel.
    { intros d. apply bool_eq_iff. unfold select_ref.
      by rewrite Hm, andb_true_iff, has_id_spec, ref_is_spec. }
    rewrite (filter_ext _ _ Hsel), (remove_first_ext _ _ _ Hsel). done.
  - destruct Hq as [err ->]. by exists err.
Qed.

Lemma is_athlete_doc_spec (d : doc) :
  is_athlete_doc d = true <-> d !! "role" = Some (VStr "athlete").
Proof.
  unfold is_athlete_doc. destruct (d !! "role") as [[]|]; split; try done.
  - intros E. apply String.eqb_eq in E. by subst.
  - intros [= ->]. done.
Qed.

(** [findOne({ _id: raw, role: 'athlete', professionalId: a })] on the
    users, in closed form. *)
Lemma findOne_patient (raw : string) (a : N) (s : store) :
  exists err,
    findOne cfg User {["_id" := CEq (VStr raw); "role" := CEq (VStr "athlete");
                       "professionalId" := CEq (VId a)]} s
    = (match parseObjectId raw with
       | Some rid =>
           Ok (hydrate <$> head (List.filter (select_patient a rid) (users s)))
       | None => Throw err
       end, s).
Proof.
  pose proof (patient_query cfg raw a) as Hq. rewrite findOne_eq.
  destruct (parseObjectId raw) as [rid|].
  - destruct Hq as (q' & -> & Hm). exists TypeError. do 4 f_equal.
    apply filter_ext_iff. intros d. unfold select_patient.
    rewrite Hm, !andb_true_iff, has_id_spec, owned_by_spec, is_athlete_doc_spec. tauto.
  - destruct Hq as [err ->]. by exists err.
Qed.

(** *** Answers by id, in general *)


Lemma select_owned_owned (a rid : N) (d : doc) : select_owned a rid d = true -> owned_by a d = true.
Proof. unfold select_owned. by intros [_ ?]%andb_true_iff. Qed.

Lemma select_patient_owned (a rid : N) (d : doc) :
  select_patient a rid d = true -> owned_by a d = true.
Proof. unfold select_patient. by intros [_ ?]%andb_true_iff. Qed.

Section Answers.
Variables (a : N) (sel : N -> doc -> bool) (found : doc -> response)
  (missing failed : response).
Hypothesis sel_owned : forall rid d, sel rid d = true -> owned_by a d = true.


(** When nothing is selected the answer is [missing]. *)
Lemma answer_missing (docs : list doc) (raw : string) (rid : N) :
  parseObjectId raw = Some rid -> (forall d, In d docs -> sel rid d = false) ->
  answer_by_id docs sel found missing failed raw = missing.
Proof.
  intros Hr Hnone. unfold answer_by_id. rewrite Hr.
  by rewrite (proj2 (head_filter_None (sel rid) docs) Hnone).
Qed.


End Answers.

(** *** What a lookup by id gives *)



Lemma answers_hides (a : N) (c : coll) (sel : N -> N -> doc -> bool) (vals : list chain)
    (msg : string) (r : request) (found : store -> doc -> response) (failed : response)
    (m : M response) :
  (forall rid d, sel a rid d = true -> has_id rid d = true /\ owned_by a d = true) ->
  answers_by_id a c sel vals msg r found failed m -> hides a c vals msg r m.
Proof.
  intros Hsel (_ & _ & Hm) s rid Hr Hnone.
  assert (forall d, In d (get_coll c s) -> sel a rid d = false) as Hno.
  { intros d Hd. destruct (sel a rid d) eqn:E; [|done].
    destruct (Hsel _ _ E) as [Hi Ho]. rewrite (Hnone d Hd Hi) in Ho. discriminate Ho. }
  destruct (Hm s) as [Heq Hst].
  rewrite (answer_missing (sel a) _ _ _ _ _ _ Hr Hno) in Heq.
  specialize (Hst rid Hr (proj2 (head_filter_None _ _) Hno)).
  destruct (m s) as [o s']. simpl in Heq, Hst. by subst.
Qed.

Lemma run_steps_store_free (s1 s2 : store) (k : string) (steps : list step) (cur : option value) :
  forallb (fun st => match st with Custom _ => false | _ => true end) steps = true ->
  run_steps s1 k steps cur = run_steps s2 k steps cur.
Proof.
  revert cur. induction steps as [|st steps IH]; intros cur Hf; [done|].
  simpl in Hf. apply andb_true_iff in Hf as [Hst Hf].
  destruct st; simpl; [apply IH, Hf | by rewrite (IH _ Hf) | discriminate Hst].
Qed.

Lemma run_chain_store_free (s1 s2 : store) (c : chain) (b : doc) :
  store_free c = true -> run_chain s1 c b = run_chain s2 c b.
Proof.
  intros Hf. unfold run_chain.
  by rewrite (run_steps_store_free s1 s2 _ _ _ Hf).
Qed.

Lemma validationResult_store_free (s1 s2 : store) (cs : list chain) (b : doc) :
  forallb store_free cs = true -> validationResult s1 cs b = validationResult s2 cs b.
Proof.
  unfold validationResult. generalize (([], b) : list (string * string) * doc).
  induction cs as [|c cs IH]; intros acc Hf; [done|].
  simpl in Hf. apply andb_true_iff in Hf as [Hc Hf]. simpl.
  rewrite (run_chain_store_free s1 s2 _ _ Hc). apply IH, Hf.
Qed.


(** *** Lists *)

Lemma scoped_matches (m : model) (p : pathSpec) (k : string) (q q' : query) (a : N) (d : doc) :
  find_path m k = Some p -> p_type p = TObjectId ->
  q !! k = Some (CEq (VId a)) ->
  prepared cfg m q = Ok q' -> matches q' d = true -> ref_is k a d = true.
Proof.
  intros Hp Ht Hq Hprep Hm.
  pose proof (prepared_lookup cfg _ _ _ _ _ _ Hprep Hq Hp) as Hk.
  assert (cast_cond m k (CEq (VId a)) = Some (CEq (VId a))) as Hca.
  { unfold cast_cond. rewrite Hp, Ht. simpl. by destruct p. }
  rewrite Hca in Hk. apply ref_is_spec, cond_holds_id.
  exact (matches_lookup _ _ _ _ Hm Hk).
Qed.

Lemma In_insert_desc (x d : doc) (l : list doc) : In x (insert_desc d l) -> x = d \/ In x l.
Proof.
  induction l as [|y l IH]; simpl.
  - intros [<-|[]]. by left.
  - destruct (date_geb d y); simpl.
    + intros [<-|Hx]; [by left | by right].
    + intros [<-|Hx]; [right; by left|]. destruct (IH Hx); [by left | right; by right].
Qed.

Lemma In_sort_date_desc (x : doc) (l : list doc) : In x (sort_date_desc l) -> In x l.
Proof.
  induction l as [|y l IH]; simpl; [done|].
  intros Hx. apply In_insert_desc in Hx as [->|Hx]; [by left | right; by apply IH].
Qed.

Lemma In_take (n : nat) (x : doc) (l : list doc) : In x (take n l) -> In x l.
Proof. intros Hx. rewrite <- (firstn_skipn n l). apply in_or_app. by left. Qed.

Lemma In_drop (n : nat) (x : doc) (l : list doc) : In x (drop n l) -> In x l.
Proof. intros Hx. rewrite <- (firstn_skipn n l). apply in_or_app. by right. Qed.

Lemma In_skip_limit (n k : Z) (l recs : list doc) (x : doc) :
  skip_limit n k l = Ok recs -> In x recs -> In x l.
Proof.
  unfold skip_limit. destruct (n <? 0); [discriminate|]. intros [= <-].
  destruct (k =? 0); intros Hx.
  - by apply In_drop in Hx.
  - by apply In_take, In_drop in Hx.
Qed.

Lemma paged_eq (m : model) (q : query) (r : request) (s : store) :
  paged cfg m q r s =
  (match prepared cfg m q with
   | Ok q' =>
       let l := List.filter (matches q') (get_coll (m_coll m) s) in
       match skip_limit ((page_of r - 1) * limit_of r) (limit_of r) (sort_date_desc l) with
       | Ok records =>
           Ok {| status := 200;
                 res_body := RPage "data" records (Z.of_nat (length l)) (page_of r) (limit_of r)
                               (pages_of (Z.of_nat (length l)) (limit_of r)) |}
       | Throw err => Throw err
       end
   | Throw err => Throw err
   end, s).
Proof.
  unfold paged, bind, lift_outcome, ret. rewrite find_eq.
  destruct (prepared cfg m q) as [q'|err] eqn:Hq; [|done].
  cbv zeta. destruct (skip_limit _ _ _) as [records|err]; [|done].
  rewrite countDocuments_eq, Hq. done.
Qed.



Lemma with_dates_lookup (r : request) (q : query) (k : string) :
  k <> "date" -> with_dates r q !! k = q !! k.
Proof.
  intros Hk. unfold with_dates.
  destruct (q_param r "startDate"), (q_param r "endDate"); try done;
    by rewrite lookup_insert_ne.
Qed.

Lemma without_lookup (keys : list string) (f : doc) (k : string) :
  mem k keys = false -> without keys f !! k = f !! k.
Proof.
  intros Hk. unfold without. apply option_eq. intros v.
  rewrite map_lookup_filter_Some. simpl. tauto.
Qed.

Section Caller.
Variables (user : doc) (a : N) (r : request) (e : env).
Hypothesis caller_id : user !! "_id" = Some (VId a).
Hypothesis caller_role : is_professional user = true.





(** *** Reading and deleting one document *)

Lemma validationResult_none (s : store) (b : doc) : (validationResult s [] b).1 = [].
Proof. reflexivity. Qed.

Lemma select_owned_spec (rid : N) (d : doc) :
  select_owned a rid d = true -> has_id rid d = true /\ owned_by a d = true.
Proof. unfold select_owned. by intros ?%andb_true_iff. Qed.

Lemma select_patient_spec (rid : N) (d : doc) :
  select_patient a rid d = true -> has_id rid d = true /\ owned_by a d = true.
Proof.
  unfold select_patient. intros [[? _]%andb_true_iff ?]%andb_true_iff. done.
Qed.

Lemma lookup_answers (m : model) (p : pathSpec) (k msg : string) (failed : response) :
  k <> "_id" -> find_path m k = Some p -> p_type p = TObjectId ->
  response_docs failed = [] ->
  answers_by_id a (m_coll m) (select_ref k) [] msg r
    (fun _ d => {| status := 200; res_body := RDoc d |}) failed
    (try_catch
       (o <- findOne cfg m {["_id" := CEq (VStr (params_id r)); k := CEq (VId a)]} ;;
        match o with
        | None => ret (not_found msg)
        | Some d => ret (json 200 d)
        end)
       (fun _ => failed)).
Proof.
  intros Hk Hp Ht Hfailed. split; [|split; [exact Hfailed|]].
  - intros s d y [<-|[]]. done.
  - intros s. unfold try_catch, bind.
    destruct (findOne_scoped m p k (params_id r) a s Hk Hp Ht) as [err ->].
    unfold answer_by_id. destruct (parseObjectId (params_id r)) as [rid|]; simpl.
    + destruct (head _) as [d|] eqn:E; simpl; (split; [reflexivity|]).
      * intros ? _ _. reflexivity.
      * intros ? _ _. reflexivity.
    + split; [reflexivity|]. intros ? [=].
Qed.

Lemma delete_answers (m : model) (p : pathSpec) (k msg : string) (failed : response) :
  k <> "_id" -> find_path m k = Some p -> p_type p = TObjectId ->
  response_docs failed = [] ->
  answers_by_id a (m_coll m) (select_ref k) [] msg r
    (fun _ d => {| status := 200; res_body := RDoc d |}) failed
    (try_catch
       (o <- findOneAndDelete cfg m {["_id" := CEq (VStr (params_id r)); k := CEq (VId a)]} ;;
        match o with
        | None => ret (not_found msg)
        | Some d => ret (json 200 d)
        end)
       (fun _ => failed)).
Proof.
  intros Hk Hp Ht Hfailed. split; [|split; [exact Hfailed|]].
  - intros s d y [<-|[]]. done.
  - intros s. unfold try_catch, bind.
    destruct (findOneAndDelete_scoped m p k (params_id r) a s Hk Hp Ht) as [err ->].
    unfold answer_by_id. destruct (parseObjectId (params_id r)) as [rid|]; simpl.
    + destruct (head _) as [d|] eqn:E; simpl; (split; [reflexivity|]).
      * intros ? [= <-] E'. rewrite E in E'. discriminate E'.
      * intros ? _ _. reflexivity.
    + split; [reflexivity|]. intros ? [=].
Qed.

Lemma performance_get_answers :
  answers_by_id a Performance select_owned [] "Performance record not found" r
    (fun _ d => {| status := 200; res_body := RDoc d |})
    (error_response 500 "INTERNAL_SERVER_ERROR" "Error fetching performance record")
    (performance_get cfg user r e).
Proof.
  unfold performance_get. rewrite caller_role, (uid_of_user _ _ caller_id). cbv zeta.
  rewrite owner_query_swap.
  eapply (lookup_answers PerformanceMetrics _ "professionalId"); done.
Qed.

Lemma anthropometric_get_answers :
  answers_by_id a Anthropometric select_owned [] "Measurement not found" r
    (fun _ d => {| status := 200; res_body := RDoc d |})
    (error_response 500 "INTERNAL_SERVER_ERROR" "Error fetching measurement")
    (anthropometric_get cfg user r e).
Proof.
  unfold anthropometric_get. rewrite caller_role, (uid_of_user _ _ caller_id). cbv zeta.
  rewrite owner_query_swap.
  eapply (lookup_answers AnthropometricMeasurement _ "professionalId"); done.
Qed.

Lemma report_get_answers :
  answers_by_id a Reports select_owned [] "Report not found" r
    (fun _ d => {| status := 200; res_body := RDoc d |})
    (error_response 500 "INTERNAL_SERVER_ERROR" "Error fetching report")
    (report_get cfg user r e).
Proof.
  unfold report_get. rewrite caller_role, (uid_of_user _ _ caller_id). cbv zeta.
  rewrite owner_query_swap.
  eapply (lookup_answers Report _ "professionalId"); done.
Qed.

Lemma performance_delete_answers :
  answers_by_id a Performance select_owned [] "Performance record not found" r
    (fun _ d => {| status := 200; res_body := RDoc d |})
    (error_response 500 "INTERNAL_SERVER_ERROR" "Error deleting performance record")
    (performance_delete cfg user r e).
Proof.
  unfold performance_delete. rewrite (uid_of_user _ _ caller_id).
  eapply (delete_answers PerformanceMetrics _ "professionalId"); done.
Qed.

Lemma anthropometric_delete_answers :
  answers_by_id a Anthropometric select_owned [] "Measurement not found" r
    (fun _ d => {| status := 200; res_body := RDoc d |})
    (error_response 500 "INTERNAL_SERVER_ERROR" "Error deleting measurement")
    (anthropometric_delete cfg user r e).
Proof.
  unfold anthropometric_delete. rewrite (uid_of_user _ _ caller_id).
  eapply (delete_answers AnthropometricMeasurement _ "professionalId"); done.
Qed.

Lemma report_delete_answers :
  answers_by_id a Reports select_owned [] "Report not found" r
    (fun _ d => {| status := 200; res_body := RDoc d |})
    (error_response 500 "INTERNAL_SERVER_ERROR" "Error deleting report")
    (report_delete cfg user r e).
Proof.
  unfold report_delete. rewrite (uid_of_user _ _ caller_id).
  eapply (delete_answers Report _ "professionalId"); done.
Qed.

Lemma patient_get_answers :
  answers_by_id a Users select_patient [] "Patient not found" r
    (fun _ d => {| status := 200; res_body := RDoc (without ["password"; "__v"] d) |})
    (internal_error "Error fetching patient details")
    (patient_get cfg user r e).
Proof.
  unfold patient_get. rewrite (uid_of_user _ _ caller_id).
  split; [|split; [reflexivity|]].
  - intros s d y [<-|[]]. by apply without_lookup.
  - intros s. unfold try_catch, bind.
    destruct (findOne_patient (params_id r) a s) as [err ->].
    change (get_coll Users s) with (users s).
    unfold answer_by_id. destruct (parseObjectId (params_id r)) as [rid|]; simpl.
    + destruct (head _) as [d|] eqn:E; simpl; (split; [reflexivity|]).
      * intros ? _ _. reflexivity.
      * intros ? _ _. reflexivity.
    + split; [reflexivity|]. intros ? [=].
Qed.

Lemma patient_delete_answers :
  answers_by_id a Users select_patient [] "Patient not found or not assigned to you" r
    (fun _ _ => {| status := 200; res_body := RMessage "Patient deleted successfully" |})
    (internal_error "Error deleting patient")
    (patient_delete cfg user r e).
Proof.
  unfold patient_delete. rewrite (uid_of_user _ _ caller_id).
  split; [|split; [reflexivity|]].
  - intros s d y [].
  - intros s. unfold try_catch, bind.
    destruct (findOne_patient (params_id r) a s) as [err ->].
    change (get_coll Users s) with (users s).
    unfold answer_by_id. destruct (parseObjectId (params_id r)) as [rid|]; simpl.
    + destruct (head _) as [d|] eqn:E; simpl.
      * pose proof E as E0. apply head_filter_In in E0 as [_ Hsel].
        apply select_patient_spec in Hsel as [Hid _]. apply has_id_spec in Hid.
        unfold delete_measurements, delete_health, delete_performance, delete_patient.
        unfold user_id. rewrite Hid. simpl.
        rewrite (deleteMany_of_user cfg AnthropometricMeasurement _ rid s eq_refl eq_refl).
        rewrite (deleteMany_of_user cfg HealthMetrics _ rid _ eq_refl eq_refl).
        rewrite (deleteMany_of_user cfg PerformanceMetrics _ rid _ eq_refl eq_refl).
        unfold deleteOne, bind, read_coll, write_coll. simpl.
        split; [reflexivity|]. intros ? [= <-] E'. rewrite E in E'. discriminate E'.
      * split; [reflexivity|]. intros ? _ _. reflexivity.
    + split; [reflexivity|]. intros ? [=].
Qed.


(** *** Updating one document *)

Lemma update_answers (m : model) (p : pathSpec) (k : string) (vals : list chain) (msg : string)
    (failed : response) :
  k <> "_id" -> find_path m k = Some p -> p_type p = TObjectId ->
  Forall id_safe (m_pre_save m) -> response_docs failed = [] ->
  answers_by_id a (m_coll m) (select_ref k) vals msg r
    (fun s d =>
       match (save m e (assign m (validationResult s vals (req_body r)).2 (hydrate d)) s).1 with
       | Ok saved => json 200 saved
       | Throw _ => failed
       end)
    failed
    (try_catch
       (s <- get_store ;;
        let '(errors, b) := validationResult s vals (req_body r) in
        match errors with
        | _ :: _ => ret (bad_request errors)
        | [] =>
            o <- findOne cfg m {["_id" := CEq (VStr (params_id r)); k := CEq (VId a)]} ;;
            match o with
            | None => ret (not_found msg)
            | Some d =>
                saved <- save m e (assign m b d) ;;
                ret (json 200 saved)
            end
        end)
       (fun _ => failed)).
Proof.
  intros Hk Hp Ht Hs Hfailed. split; [|split; [exact Hfailed|]].
  - intros s d y.
    destruct (save m e _ s).1 as [saved|ex] eqn:E; [|by rewrite Hfailed].
    intros [<-|[]]. apply (save_keeps_id _ _ (d !! "_id") _ _ _ Hs) in E; [exact E | |].
    + by rewrite assign_isNew.
    + apply assign_keeps, hydrate_keeps.
  - intros s. unfold try_catch, bind, get_store.
    set (vr := validationResult s vals (req_body r)). destruct vr as [errs b].
    cbn [fst snd]. destruct errs as [|err errs].
    + destruct (findOne_scoped m p k (params_id r) a s Hk Hp Ht) as [ex ->].
      unfold answer_by_id, after_validation.
      destruct (parseObjectId (params_id r)) as [rid|].
      * destruct (head _) as [d|] eqn:E; cbn [fmap option_fmap option_map].
        -- destruct (save m e (assign m b (hydrate d)) s) as [[saved|ex2] s'];
             (split; [reflexivity|]);
             intros ? [= <-] E'; rewrite E in E'; discriminate E'.
        -- split; [reflexivity|]. intros ? _ _. reflexivity.
      * split; [reflexivity|]. intros ? [=].
    + split; [reflexivity|]. intros ? _ _. reflexivity.
Qed.

Lemma performance_update_answers :
  answers_by_id a Performance select_owned performance_update_validators
    "Performance record not found" r
    (fun s d =>
       match (save PerformanceMetrics e
                (assign PerformanceMetrics
                   (validationResult s performance_update_validators (req_body r)).2
                   (hydrate d)) s).1 with
       | Ok saved => json 200 saved
       | Throw _ => error_response 500 "INTERNAL_SERVER_ERROR" "Error updating performance record"
       end)
    (error_response 500 "INTERNAL_SERVER_ERROR" "Error updating performance record")
    (performance_update cfg user r e).
Proof.
  unfold performance_update. rewrite (uid_of_user _ _ caller_id).
  eapply (update_answers PerformanceMetrics _ "professionalId"); done.
Qed.

Lemma anthropometric_update_answers :
  answers_by_id a Anthropometric select_owned anthropometric_update_validators
    "Measurement not found" r
    (fun s d =>
       match (save AnthropometricMeasurement e
                (assign AnthropometricMeasurement
                   (validationResult s anthropometric_update_validators (req_body r)).2
                   (hydrate d)) s).1 with
       | Ok saved => json 200 saved
       | Throw _ => error_response 500 "INTERNAL_SERVER_ERROR" "Error updating measurement"
       end)
    (error_response 500 "INTERNAL_SERVER_ERROR" "Error updating measurement")
    (anthropometric_update cfg user r e).
Proof.
  unfold anthropometric_update. rewrite (uid_of_user _ _ caller_id).
  eapply (update_answers AnthropometricMeasurement _ "professionalId"); try done.
  apply List.Forall_cons; [apply compute_leanMass_safe | apply List.Forall_nil].
Qed.

Lemma report_share_answers :
  answers_by_id a Reports select_owned [] "Report not found" r
    (fun s d =>
       match (save Report e (set_path Report "shared" (VBool true) (hydrate d)) s).1 with
       | Ok saved => json 200 saved
       | Throw _ => error_response 500 "INTERNAL_SERVER_ERROR" "Error sharing report"
       end)
    (error_response 500 "INTERNAL_SERVER_ERROR" "Error sharing report")
    (report_share cfg user r e).
Proof.
  unfold report_share. rewrite (uid_of_user _ _ caller_id).
  split; [|split; [reflexivity|]].
  - intros s d y.
    destruct (save Report e _ s).1 as [saved|ex] eqn:E; [|intros []].
    intros [<-|[]]. apply (save_keeps_id _ _ (d !! "_id")) in E; [exact E | | |].
    + apply List.Forall_cons; [apply generate_accessCode_safe | apply List.Forall_nil].
    + by rewrite set_path_isNew.
    + apply set_path_keeps, hydrate_keeps.
  - intros s. unfold try_catch, bind.
    destruct (findOne_scoped Report _ "professionalId" (params_id r) a s
                ltac:(done) eq_refl eq_refl) as [ex ->].
    change (select_ref "professionalId" a) with (select_owned a).
    change (get_coll (m_coll Report) s) with (get_coll Reports s).
    unfold answer_by_id, after_validation. cbn [validationResult fold_left fst].
    destruct (parseObjectId (params_id r)) as [rid|].
    + destruct (head _) as [d|] eqn:E; cbn [fmap option_fmap option_map].
      * destruct (save Report e _ s) as [[saved|ex2] s'];
          (split; [reflexivity|]);
             intros ? [= <-] E'; rewrite E in E'; discriminate E'.
      * split; [reflexivity|]. intros ? _ _. reflexivity.
    + split; [reflexivity|]. intros ? [=].
Qed.

Lemma patient_update_answers :
  answers_by_id a Users select_patient patient_update_validators
    "Patient not found or not assigned to you" r
    (fun s d =>
       let b := (validationResult s patient_update_validators (req_body r)).2 in
       if negb (isValidOperation
                  ["name"; "email"; "gender"; "age"; "country"; "sport"; "position"] b)
       then invalid_update
       else match (save (user_model d) e (assign (user_model d) b (hydrate d)) s).1 with
            | Ok saved =>
                {| status := 200; res_body := RDoc (getPublicProfile (md_fields saved)) |}
            | Throw _ => internal_error "Error updating patient"
            end)
    (internal_error "Error updating patient")
    (patient_update cfg user r e).
Proof.
  unfold patient_update. rewrite (uid_of_user _ _ caller_id).
  split; [|split; [reflexivity|]].
  - intros s d y. cbv zeta. destruct (negb _); [intros []|].
    destruct (save (user_model d) e _ s).1 as [saved|ex] eqn:E; [|intros []].
    intros [<-|[]]. unfold getPublicProfile. rewrite without_lookup by reflexivity.
    apply (save_keeps_id _ _ (d !! "_id")) in E; [exact E | apply user_model_safe | |].
    + by rewrite assign_isNew.
    + apply assign_keeps, hydrate_keeps.
  - intros s. unfold try_catch, bind, get_store.
    set (vr := validationResult s patient_update_validators (req_body r)).
    destruct vr as [errs b]. cbn [fst snd]. destruct errs as [|err errs].
    + destruct (findOne_patient (params_id r) a s) as [ex ->].
      change (get_coll Users s) with (users s).
      unfold answer_by_id, after_validation.
      destruct (parseObjectId (params_id r)) as [rid|].
      * destruct (head _) as [d|] eqn:E; cbn [fmap option_fmap option_map].
        -- cbn [md_fields hydrate]. destruct (negb _).
           ++ split; [reflexivity|]. intros ? _ _. reflexivity.
           ++ destruct (save (user_model d) e _ s) as [[saved|ex2] s'];
                (split; [reflexivity|]);
             intros ? [= <-] E'; rewrite E in E'; discriminate E'.
        -- split; [reflexivity|]. intros ? _ _. reflexivity.
      * split; [reflexivity|]. intros ? [=].
    + split; [reflexivity|]. intros ? _ _. reflexivity.
Qed.

Lemma by_id_answers (ep : endpoint) (c : coll) :
  scoped_collection ep = Some c -> by_id ep = true ->
  exists sel found failed,
    (forall rid d, sel a rid d = true -> has_id rid d = true /\ owned_by a d = true)
    /\ (index_free ep = true -> forall s1 s2 d, found s1 d = found s2 d)
    /\ answers_by_id a c sel (update_validators ep) (not_found_message ep) r found failed
         (handler cfg ep user r e).
Proof.
  intros Hc Hid.
  destruct ep; try discriminate Hid; injection Hc as <-; unfold handler;
    cbn [update_validators not_found_message index_free].
  - eexists _, _, _. split; [apply select_patient_spec|]. split; [|apply patient_get_answers].
    reflexivity.
  - eexists _, _, _. split; [apply select_patient_spec|]. split; [|apply patient_update_answers].
    intros [=].
  - eexists _, _, _. split; [apply select_patient_spec|]. split; [|apply patient_delete_answers].
    reflexivity.
  - eexists _, _, _. split; [apply select_owned_spec|]. split; [|apply performance_get_answers].
    reflexivity.
  - eexists _, _, _. split; [apply select_owned_spec|].
    split; [|apply performance_update_answers].
    intros _ s1 s2 d. cbv beta.
    rewrite (validationResult_store_free s1 s2 performance_update_validators) by reflexivity.
    by rewrite (save_store_free PerformanceMetrics e _ s1 s2) by reflexivity.
  - eexists _, _, _. split; [apply select_owned_spec|].
    split; [|apply performance_delete_answers]. reflexivity.
  - eexists _, _, _. split; [apply select_owned_spec|]. split; [|apply anthropometric_get_answers].
    reflexivity.
  - eexists _, _, _. split; [apply select_owned_spec|].
    split; [|apply anthropometric_update_answers].
    intros _ s1 s2 d. cbv beta.
    rewrite (validationResult_store_free s1 s2 anthropometric_update_validators) by reflexivity.
    by rewrite (save_store_free AnthropometricMeasurement e _ s1 s2) by reflexivity.
  - eexists _, _, _. split; [apply select_owned_spec|].
    split; [|apply anthropometric_delete_answers]. reflexivity.
  - eexists _, _, _. split; [apply select_owned_spec|]. split; [|apply report_get_answers].
    reflexivity.
  - eexists _, _, _. split; [apply select_owned_spec|]. split; [|apply report_share_answers].
    intros [=].
  - eexists _, _, _. split; [apply select_owned_spec|]. split; [|apply report_delete_answers].
    reflexivity.
Qed.


End Caller.


(** A route that addresses one document by the id in its path answers a
    professional who owns no stored document with that id as if there were
    none: 404 with the route's not-found message (after 400 when the body
    of an update fails validation), and the store is left as it was. *)
Theorem foreign_id_is_not_found (ep : endpoint) (c : coll) (user : doc) (a : N)
    (r : request) (e : env) :
  scoped_collection ep = Some c -> by_id ep = true ->
  user !! "_id" = Some (VId a) -> is_professional user = true ->
  hides a c (update_validators ep) (not_found_message ep) r (handler cfg ep user r e).
Proof.
  intros Hc Hid Hu Hrole.
  destruct (by_id_answers user a r e Hu Hrole ep c Hc Hid) as (sel & found & failed & Hsel & _ & Ha).
  exact (answers_hides _ _ _ _ _ _ _ _ _ Hsel Ha).
Qed.


End Isolation.


Lemma foreign_id_is_not_found_witness :
  @handler sample_externals sample_config AnthropometricGet dr_perez
    (put "00000000000000000000001e" ∅) sample_env two_clinics
  = (Ok (not_found "Measurement not found"), two_clinics).
Proof.
  apply (@foreign_id_is_not_found sample_externals sample_config AnthropometricGet
           Anthropometric dr_perez 1 (put "00000000000000000000001e" ∅) sample_env
           eq_refl eq_refl eq_refl eq_refl two_clinics 30%N eq_refl).
  intros d [<-|[<-|[]]] Hd; [discriminate Hd | reflexivity].
Defined.


(** ** Routes that only read *)

Section ReadOnly.
Context `{Externals}.
Variable cfg : config.

Ltac reads_step :=
  first
    [ apply preserves_try_catch | apply preserves_ret | apply preserves_throw
    | apply preserves_lift_outcome | apply preserves_get_store
    | apply (preserves_find cfg) | apply (preserves_findOne cfg)
    | apply (preserves_countDocuments cfg)
    | apply preserves_bind; [|intros ?]
    | match goal with
      | |- preserves _ (match ?x with _ => _ end) => destruct x
      end
    | progress cbv zeta ].

(** Logging in, refreshing a session and every GET leave the store exactly
    as it was, whatever the request and whatever they answer. *)
Theorem read_routes_never_write (ep : endpoint) (user : doc) (r : request) (e : env)
    (s : store) :
  reads_only ep = true -> (handler cfg ep user r e s).2 = s.
Proof.
  intros Hep.
  assert (preserves (fun s' => s' = s) (handler cfg ep user r e)) as Hp; [|by apply Hp].
  destruct ep; try discriminate Hep; unfold handler; autounfold with handlers;
    unfold paged; repeat reads_step.
Qed.

End ReadOnly.

Lemma read_routes_never_write_witness :
  (@handler sample_externals sample_config AnthropometricList dr_perez blank_request
     sample_env two_clinics).2 = two_clinics.
Proof.
  apply (@read_routes_never_write sample_externals sample_config AnthropometricList).
  reflexivity.
Defined.

(** ** Provider connections *)

Section Integrations.
Context `{Externals}.
Variable cfg : config.





End Integrations.


(** ** Passwords stay on the server *)

Section Passwords.
Context `{Externals}.
Variable cfg : config.

Lemma answers_ret (P : response -> Prop) (res : response) : P res -> answers P (ret res).
Proof. intros HP s res' [= <-]. exact HP. Qed.

Lemma answers_bind {A} (P : response -> Prop) (m : M A) (k : A -> M response) :
  (forall x, answers P (k x)) -> answers P (bind m k).
Proof.
  intros Hk s res. unfold bind. destruct (m s) as [[x|err] s']; [apply Hk | intros [=]].
Qed.

Lemma answers_try_catch (P : response -> Prop) (m : M response) (h : exn -> response) :
  answers P m -> (forall err, P (h err)) -> answers P (try_catch m h).
Proof.
  intros Hm Hh s res. unfold try_catch. specialize (Hm s).
  destruct (m s) as [[x|err] s']; simpl in *; intros [= <-]; auto.
Qed.

Lemma no_password_plain (st : Z) (b : rbody) :
  match b with RDoc _ | RPage _ _ _ _ _ _ | RSession (Some _) _ _ => False | _ => True end ->
  no_password {| status := st; res_body := b |}.
Proof. intros Hb x. unfold response_docs. simpl. destruct b as [| | | | |[]]; done. Qed.

Lemma without_hides (keys : list string) (f : doc) (k : string) :
  mem k keys = true -> without keys f !! k = None.
Proof.
  intros Hk. unfold without. apply map_lookup_filter_None. right.
  intros v _. simpl. by rewrite Hk.
Qed.

Lemma no_password_profile (st : Z) (f : doc) :
  no_password {| status := st; res_body := RDoc (getPublicProfile f) |}.
Proof. intros x [<-|[]]. by apply without_hides. Qed.

Lemma no_password_without (st : Z) (keys : list string) (f : doc) :
  mem "password" keys = true ->
  no_password {| status := st; res_body := RDoc (without keys f) |}.
Proof. intros Hk x [<-|[]]. by apply without_hides. Qed.

Lemma no_password_page (st : Z) (key : string) (keys : list string) (l : list doc)
    (total page limit : Z) (pages : option Z) :
  mem "password" keys = true ->
  no_password {| status := st;
                 res_body := RPage key (map (without keys) l) total page limit pages |}.
Proof.
  intros Hk x Hx. unfold response_docs in Hx. simpl in Hx.
  apply in_map_iff in Hx as (d & <- & _). by apply without_hides.
Qed.

Lemma session_user_no_password (f : doc) : session_user f !! "password" = None.
Proof.
  unfold session_user. rewrite !lookup_union_None.
  repeat split;
    match goal with
    | |- (match ?x with _ => _ end) !! _ = None => by destruct x
    end.
Qed.

Lemma no_password_session (st : Z) (u : option doc) (t1 t2 : token) :
  (forall f, u = Some f -> f !! "password" = None) ->
  no_password {| status := st; res_body := RSession u t1 t2 |}.
Proof.
  intros Hu x. unfold response_docs. simpl. destruct u as [f|]; [|done].
  intros [<-|[]]. by apply Hu.
Qed.

Ltac answers_step :=
  first
    [ apply answers_try_catch; [|intros ?]
    | apply answers_bind; intros ?
    | apply answers_ret
    | apply no_password_profile
    | apply no_password_without; reflexivity
    | apply no_password_page; reflexivity
    | apply no_password_session; intros ? [= <-];
      first [apply session_user_no_password | by apply without_hides]
    | apply no_password_session; intros ? [=]
    | apply no_password_plain; exact I
    | solve [intros ? [<-|[]]; apply lookup_empty]
    | match goal with
      | |- answers _ (match ?x with _ => _ end) => destruct x
      | |- no_password (match ?x with _ => _ end) => destruct x
      | |- answers _ (_ ;;; _) => apply answers_bind; intros ?
      end
    | progress cbv zeta ].

(** No answer of the session, profile, patient and provider routes carries
    a [password] property, whatever is stored and whatever is sent: the
    documents they return went through [getPublicProfile], through the
    projection of the patient routes, or are built from id, name, email and
    role alone. *)
Theorem user_routes_never_return_a_password (ep : endpoint) (user : doc) (r : request)
    (e : env) (s : store) (res : response) (x : doc) :
  user_route ep = true ->
  (handler cfg ep user r e s).1 = Ok res -> In x (response_docs res) ->
  x !! "password" = None.
Proof.
  intros Hep Hres Hx.
  assert (answers no_password (handler cfg ep user r e)) as Ha; [|exact (Ha s res Hres x Hx)].
  clear Hres Hx.
  destruct ep; try discriminate Hep; unfold handler; autounfold with handlers;
    unfold internal_error, not_found, invalid_update, bad_request, validation_failed,
      invalid_credentials, invalid_token, error_response;
    repeat answers_step.
Qed.

End Passwords.

Lemma user_routes_never_return_a_password_witness :
  response_docs
    (match (@handler sample_externals sample_config PatientGet dr_perez
              (put "000000000000000000000002" ∅) sample_env clinic).1 with
     | Ok res => res
     | Throw _ => not_found ""
     end)
  = [delete "password" ana]
  /\ delete "password" ana !! "password" = None.
Proof.
  split; [vm_compute; reflexivity|].
  apply (@user_routes_never_return_a_password sample_externals sample_config PatientGet
           dr_perez (put "000000000000000000000002" ∅) sample_env clinic
           {| status := 200; res_body := RDoc (delete "password" ana) |}).
  - reflexivity.
  - vm_compute. reflexivity.
  - by left.
Defined.

(** ** Health records *)

Section Health.
Context `{Externals}.
Variable cfg : config.

Lemma answers_nothing_selected (a : N) (c : coll) (sel : N -> N -> doc -> bool)
    (vals : list chain) (msg : string) (r : request) (found : store -> doc -> response)
    (failed : response) (m : M response) (s : store) (rid : N) :
  answers_by_id a c sel vals msg r found failed m ->
  parseObjectId (params_id r) = Some rid ->
  (forall d, In d (get_coll c s) -> sel a rid d = false) ->
  m s = (Ok (after_validation (validationResult s vals (req_body r)).1 (not_found msg)), s).
Proof.
  intros (_ & _ & Hm) Hr Hno. destruct (Hm s) as [Heq Hst].
  rewrite (answer_missing (sel a) _ _ _ _ _ _ Hr Hno) in Heq.
  specialize (Hst rid Hr (proj2 (head_filter_None _ _) Hno)).
  destruct (m s) as [o s']. simpl in Heq, Hst. by subst.
Qed.

Section Caller.
Variables (user : doc) (a : N) (r : request) (e : env).
Hypothesis caller_id : user !! "_id" = Some (VId a).

Lemma health_get_answers :
  answers_by_id a Health (select_ref "userId") [] "Health record not found" r
    (fun _ d => {| status := 200; res_body := RDoc d |})
    (internal_error "Error fetching health record")
    (health_get cfg user r e).
Proof.
  unfold health_get. rewrite (uid_of_user _ _ caller_id).
  eapply (lookup_answers cfg a r HealthMetrics _ "userId"); done.
Qed.

Lemma health_delete_answers :
  answers_by_id a Health (select_ref "userId") [] "Health record not found" r
    (fun _ d => {| status := 200; res_body := RDoc d |})
    (internal_error "Error deleting health record")
    (health_delete cfg user r e).
Proof.
  unfold health_delete. rewrite (uid_of_user _ _ caller_id).
  eapply (delete_answers cfg a r HealthMetrics _ "userId"); done.
Qed.

Lemma health_update_answers :
  answers_by_id a Health (select_ref "userId") health_update_validators
    "Health record not found" r
    (fun s d =>
       match (save HealthMetrics e
                (assign HealthMetrics
                   (validationResult s health_update_validators (req_body r)).2
                   (hydrate d)) s).1 with
       | Ok saved => json 200 saved
       | Throw _ => internal_error "Error updating health record"
       end)
    (internal_error "Error updating health record")
    (health_update cfg user r e).
Proof.
  unfold health_update. rewrite (uid_of_user _ _ caller_id).
  eapply (update_answers cfg a r e HealthMetrics _ "userId"); done.
Qed.

End Caller.

(** Reading, updating or deleting a health record by id answers a caller
    who has no record with that id as if there were none, also when another
    user has one: 404 (after 400 when the body of an update fails
    validation), and nothing is written. *)
Theorem health_record_of_another_user_is_not_found (ep : endpoint) (user : doc) (a rid : N)
    (r : request) (e : env) (s : store) :
  In ep [HealthGet; HealthUpdate; HealthDelete] ->
  user !! "_id" = Some (VId a) ->
  parseObjectId (params_id r) = Some rid ->
  (forall d, In d (health s) -> has_id rid d = true -> of_user a d = false) ->
  handler cfg ep user r e s
  = (Ok (after_validation (validationResult s (update_validators ep) (req_body r)).1
           (not_found "Health record not found")), s).
Proof.
  intros Hep Hu Hr Hnone.
  assert (forall d, In d (get_coll Health s) -> select_ref "userId" a rid d = false) as Hno.
  { intros d Hd. unfold select_ref. destruct (has_id rid d) eqn:Hi; [|done].
    exact (Hnone d Hd Hi). }
  destruct Hep as [<-|[<-|[<-|[]]]]; unfold handler; cbn [update_validators].
  - exact (answers_nothing_selected _ _ _ _ _ _ _ _ _ _ _
             (health_get_answers user a r e Hu) Hr Hno).
  - exact (answers_nothing_selected _ _ _ _ _ _ _ _ _ _ _
             (health_update_answers user a r e Hu) Hr Hno).
  - exact (answers_nothing_selected _ _ _ _ _ _ _ _ _ _ _
             (health_delete_answers user a r e Hu) Hr Hno).
Qed.

(** The list of health records holds stored records of the caller only,
    whatever filters and page the query string asks for. *)
Theorem health_list_holds_own_records (user : doc) (a : N) (r : request) (e : env)
    (s : store) (res : response) (x : doc) :
  user !! "_id" = Some (VId a) ->
  (health_list cfg user r e s).1 = Ok res -> In x (response_docs res) ->
  In x (health s) /\ of_user a x = true.
Proof.
  intros Hu. unfold health_list. rewrite (uid_of_user _ _ Hu). cbv zeta.
  match goal with
  | |- context [paged cfg HealthMetrics ?q0 r] => set (q := q0)
  end.
  assert (q !! "userId" = Some (CEq (VId a))) as Hq.
  { unfold q. destruct (q_param r "source"); rewrite ?lookup_insert_ne by done;
      (rewrite with_dates_lookup by done); apply lookup_singleton_eq. }
  clearbody q. unfold try_catch. rewrite paged_eq.
  destruct (prepared cfg HealthMetrics q) as [q'|err] eqn:Hprep; [|intros [= <-] []].
  cbv zeta. destruct (skip_limit _ _ _) as [records|err] eqn:Hrec; [|intros [= <-] []].
  intros [= <-]. simpl. intros Hx.
  apply (In_skip_limit _ _ _ _ _ Hrec), In_sort_date_desc, filter_In in Hx as [Hin Hm].
  split; [exact Hin|].
  exact (scoped_matches cfg HealthMetrics _ "userId" q q' a x eq_refl eq_refl Hq Hprep Hm).
Qed.

End Health.

Lemma health_record_of_another_user_is_not_found_witness :
  @handler sample_externals sample_config HealthDelete ana
    (put "000000000000000000000029" ∅) sample_env clinic_with_health
  = (Ok (not_found "Health record not found"), clinic_with_health).
Proof.
  apply (@health_record_of_another_user_is_not_found sample_externals sample_config
           HealthDelete ana 2 41 (put "000000000000000000000029" ∅) sample_env
           clinic_with_health).
  - right. right. by left.
  - reflexivity.
  - reflexivity.
  - intros d [<-|[<-|[]]] Hd; [discriminate Hd | reflexivity].
Defined.

Lemma health_list_holds_own_records_witness :
  In ana_sleep (health clinic_with_health) /\ of_user 2 ana_sleep = true.
Proof.
  apply (@health_list_holds_own_records sample_externals sample_config ana 2 blank_request
           sample_env clinic_with_health
           {| status := 200; res_body := RPage "data" [ana_sleep] 1 1 10 (Some 1) |});
    [reflexivity | vm_compute; reflexivity | by left].
Defined.

(** ** Deleting one document *)

Section Deleting.
Context `{Externals}.
Variable cfg : config.

Lemma filter_all {A} (f : A -> bool) (l : list A) :
  (forall x, In x l -> f x = true) -> List.filter f l = l.
Proof.
  induction l as [|x l IH]; intros Hall; simpl; [done|].
  rewrite (Hall x) by (by left). f_equal. apply IH. intros y Hy. apply Hall. by right.
Qed.

Lemma unique_ids_cons (x : doc) (l : list doc) (rid : N) :
  unique_ids (x :: l) -> has_id rid x = true -> forall y, In y l -> has_id rid y = false.
Proof.
  unfold unique_ids. simpl. intros Hnd Hx y Hy.
  apply NoDup_cons in Hnd as [Hnot _].
  destruct (has_id rid y) eqn:Hi; [|done]. exfalso. apply Hnot.
  apply has_id_spec in Hx, Hi. rewrite Hx, <- Hi.
  apply list_elem_of_In. apply in_map_iff. by exists y.
Qed.

(** With unique ids, removing the first selected document removes every
    document of its id. *)
Lemma remove_first_unique (sel : doc -> bool) (rid : N) (d : doc) (l : list doc) :
  unique_ids l -> In d l -> sel d = true ->
  (forall x, sel x = true -> has_id rid x = true) ->
  head (List.filter sel l) = Some d
  /\ remove_first sel l = List.filter (fun x => negb (has_id rid x)) l.
Proof.
  intros Hnd Hin Hd Hsel. induction l as [|y l IH]; [destruct Hin|].
  simpl. destruct (sel y) eqn:Hy.
  - pose proof (Hsel y Hy) as Hiy. rewrite Hiy. simpl.
    pose proof (unique_ids_cons y l rid Hnd Hiy) as Hrest.
    split.
    + destruct Hin as [->|Hin]; [done|].
      pose proof (Hrest d Hin) as Hc. rewrite (Hsel d Hd) in Hc. discriminate Hc.
    + symmetry. apply filter_all. intros x Hx. by rewrite (Hrest x Hx).
  - destruct Hin as [->|Hin]; [congruence|].
    assert (has_id rid y = false) as Hiy.
    { destruct (has_id rid y) eqn:Hi; [|done].
      pose proof (unique_ids_cons y l rid Hnd Hi d Hin) as Hc.
      by rewrite (Hsel d Hd) in Hc. }
    rewrite Hiy. simpl.
    assert (unique_ids l) as Hnd'.
    { unfold unique_ids in *. simpl in Hnd. by apply NoDup_cons in Hnd as [_ ?]. }
    destruct (IH Hnd' Hin) as [IH1 IH2]. split; [exact IH1 | by rewrite IH2].
Qed.

Lemma delete_one (m : model) (p : pathSpec) (k : string) (a rid : N) (r : request)
    (msg : string) (h : exn -> response) (d : doc) (s : store) :
  k <> "_id" -> find_path m k = Some p -> p_type p = TObjectId ->
  parseObjectId (params_id r) = Some rid ->
  unique_ids (get_coll (m_coll m) s) -> In d (get_coll (m_coll m) s) ->
  has_id rid d = true -> ref_is k a d = true ->
  try_catch
    (o <- findOneAndDelete cfg m {["_id" := CEq (VStr (params_id r)); k := CEq (VId a)]} ;;
     match o with
     | None => ret (not_found msg)
     | Some d => ret (json 200 d)
     end) h s
  = (Ok {| status := 200; res_body := RDoc d |},
     set_coll (m_coll m)
       (List.filter (fun x => negb (has_id rid x)) (get_coll (m_coll m) s)) s).
Proof.
  intros Hk Hp Ht Hr Hnd Hin Hid Href. unfold try_catch, bind.
  destruct (findOneAndDelete_scoped cfg m p k (params_id r) a s Hk Hp Ht) as [err ->].
  rewrite Hr. cbv zeta.
  destruct (remove_first_unique (select_ref k a rid) rid d _ Hnd Hin) as [-> ->].
  - unfold select_ref. by rewrite Hid, Href.
  - unfold select_ref. by intros x [? _]%andb_true_iff.
  - reflexivity.
Qed.

Lemma filter_has_no_id (rid : N) (l : list doc) (x : doc) :
  In x (List.filter (fun x => negb (has_id rid x)) l) -> has_id rid x = false.
Proof. intros [_ Hx]%filter_In. by apply negb_true_iff. Qed.

Lemma get_coll_set_coll (c : coll) (l : list doc) (s : store) :
  get_coll c (set_coll c l s) = l.
Proof. by destruct c. Qed.

(** Deleting a performance record, a measurement, a report or a health
    record that the caller owns answers with the stored document and
    removes the documents of that id from its collection, leaving the rest
    of the store alone; when ids are unique that is the one document, and
    reading the same id afterwards is answered 404. *)
Theorem deleted_document_is_gone (del get : endpoint) (c : coll) (k : string) (user : doc)
    (a rid : N) (r : request) (e e2 : env) (d : doc) (s : store) :
  In (del, get, c, k) delete_routes ->
  user !! "_id" = Some (VId a) ->
  (k = "professionalId" -> is_professional user = true) ->
  parseObjectId (params_id r) = Some rid ->
  unique_ids (get_coll c s) -> In d (get_coll c s) ->
  has_id rid d = true -> ref_is k a d = true ->
  let s' := set_coll c (List.filter (fun x => negb (has_id rid x)) (get_coll c s)) s in
  handler cfg del user r e s = (Ok {| status := 200; res_body := RDoc d |}, s')
  /\ handler cfg get user r e2 s' = (Ok (not_found (not_found_message get)), s').
Proof.
  intros Hep Hu Hrole Hr Hnd Hin Hid Href s'.
  assert (forall sel : N -> N -> doc -> bool,
            (forall x, sel a rid x = true -> has_id rid x = true) ->
            forall x, In x (get_coll c s') -> sel a rid x = false) as Hgone.
  { intros sel Hsel x Hx. unfold s' in Hx. rewrite get_coll_set_coll in Hx.
    apply filter_has_no_id in Hx. destruct (sel a rid x) eqn:E; [|done].
    by rewrite (Hsel x E) in Hx. }
  destruct Hep as [[=]|[[=]|[[=]|[[=]|[]]]]]; subst del get c k;
    unfold handler; cbn [not_found_message].
  - split.
    + unfold performance_delete. rewrite (uid_of_user _ _ Hu).
      by apply (delete_one PerformanceMetrics (path "professionalId" TObjectId [Required])).
    + apply (answers_nothing_selected _ _ _ _ _ _ _ _ _ _ rid
               (performance_get_answers cfg user a r e2 Hu (Hrole eq_refl)) Hr).
      apply Hgone. intros x. apply select_owned_spec.
  - split.
    + unfold anthropometric_delete. rewrite (uid_of_user _ _ Hu).
      by apply (delete_one AnthropometricMeasurement
                  (path "professionalId" TObjectId [Required])).
    + apply (answers_nothing_selected _ _ _ _ _ _ _ _ _ _ rid
               (anthropometric_get_answers cfg user a r e2 Hu (Hrole eq_refl)) Hr).
      apply Hgone. intros x. apply select_owned_spec.
  - split.
    + unfold report_delete. rewrite (uid_of_user _ _ Hu).
      by apply (delete_one Report (path "professionalId" TObjectId [Required])).
    + apply (answers_nothing_selected _ _ _ _ _ _ _ _ _ _ rid
               (report_get_answers cfg user a r e2 Hu (Hrole eq_refl)) Hr).
      apply Hgone. intros x. apply select_owned_spec.
  - split.
    + unfold health_delete. rewrite (uid_of_user _ _ Hu).
      by apply (delete_one HealthMetrics (path "userId" TObjectId [Required])).
    + apply (answers_nothing_selected _ _ _ _ _ _ _ _ _ _ rid
               (health_get_answers cfg user a r e2 Hu) Hr).
      apply Hgone. intros x. unfold select_ref. by intros [? _]%andb_true_iff.
Qed.

End Deleting.

Lemma deleted_document_is_gone_witness :
  let s' := {| users := [dr_perez; ana]; anthropometric := []; performance := [];
               health := [other_sleep]; reports := []; next_oid := 42%N |} in
  @handler sample_externals sample_config HealthDelete ana
    (put "000000000000000000000028" ∅) sample_env clinic_with_health
  = (Ok {| status := 200; res_body := RDoc ana_sleep |}, s')
  /\ @handler sample_externals sample_config HealthGet ana
       (put "000000000000000000000028" ∅) later_env s'
     = (Ok (not_found "Health record not found"), s').
Proof.
  apply (@deleted_document_is_gone sample_externals sample_config HealthDelete HealthGet
           Health "userId" ana 2 40 (put "000000000000000000000028" ∅) sample_env later_env
           ana_sleep clinic_with_health).
  - right. right. right. by left.
  - reflexivity.
  - intros [=].
  - reflexivity.
  - unfold unique_ids. simpl. apply NoDup_cons. split.
    + intros Hin. apply list_elem_of_In in Hin. destruct Hin as [Hin|[]].
      vm_compute in Hin. discriminate Hin.
    + apply NoDup_singleton.
  - by left.
  - reflexivity.
  - reflexivity.
Defined.

(** ** Records are created for one's own patients only *)

Section ForeignPatient.
Context `{Externals}.
Variable cfg : config.

Lemma forallb_Forall {A} (f : A -> bool) (l : list A) :
  forallb f l = true -> Forall (fun x => f x = true) l.
Proof. intros Hf. apply List.Forall_forall. by apply forallb_forall. Qed.

Lemma unsanitized_body (s : store) (cs : list chain) (b : doc) :
  forallb (fun c => negb (sanitizes c)) cs = true -> (validationResult s cs b).2 = b.
Proof.
  intros Hf. apply validationResult_unsanitized.
  apply forallb_Forall in Hf. eapply List.Forall_impl; [|exact Hf].
  intros c Hc. by apply negb_true_iff.
Qed.

(** The lookup of the patient a record is about. *)
Lemma patient_lookup_empty (user b : doc) (a pid : N) (raw : string) (s : store) :
  user !! "_id" = Some (VId a) -> b !! "userId" = Some (VStr raw) ->
  parseObjectId raw = Some pid ->
  (forall u, In u (users s) -> has_id pid u = true -> is_athlete_doc u && owned_by a u = false) ->
  findOne cfg User {["_id" := as_filter (b !! "userId"); "role" := CEq (VStr "athlete");
                     "professionalId" := uid user]} s
  = (Ok None, s).
Proof.
  intros Hu Hb Hr Hnone. rewrite (uid_of_user _ _ Hu), Hb. unfold as_filter. simpl.
  destruct (findOne_patient cfg raw a s) as [err ->]. rewrite Hr.
  rewrite (proj2 (head_filter_None (select_patient a pid) (users s))); [done|].
  intros u Hin. unfold select_patient. destruct (has_id pid u) eqn:Hi; [|done].
  simpl. exact (Hnone u Hin Hi).
Qed.

(** A performance record or a measurement about somebody who is not an
    athlete assigned to the calling professional is not created: once the
    body has passed validation the answer is 404, and in every case the
    store is left as it was. *)
Theorem record_for_foreign_patient_is_refused (ep : endpoint) (user : doc) (a pid : N)
    (raw : string) (r : request) (e : env) (s : store) :
  In ep [PerformanceCreate; AnthropometricCreate] ->
  user !! "_id" = Some (VId a) ->
  req_body r !! "userId" = Some (VStr raw) -> parseObjectId raw = Some pid ->
  (forall u, In u (users s) -> has_id pid u = true -> is_athlete_doc u && owned_by a u = false) ->
  (handler cfg ep user r e s).2 = s
  /\ (exists res, (handler cfg ep user r e s).1 = Ok res
                  /\ (status res = 400 \/ status res = 404))
  /\ ((validationResult s (create_validators ep) (req_body r)).1 = [] ->
      (handler cfg ep user r e s).1 = Ok (not_found "User not found or not assigned to you")).
Proof.
  intros Hep Hu Hb Hr Hnone.
  destruct Hep as [<-|[<-|[]]]; unfold handler; cbn [create_validators].
  - unfold performance_create, try_catch, bind, get_store.
    pose proof (unsanitized_body s performance_create_validators (req_body r) eq_refl) as Hsan.
    destruct (validationResult s performance_create_validators (req_body r)) as [errs b].
    simpl in Hsan. subst b. cbn [fst snd].
    destruct errs as [|err errs].
    + rewrite (patient_lookup_empty user (req_body r) a pid raw s Hu Hb Hr Hnone).
      split; [reflexivity|]. split; [|reflexivity]. eexists. split; [reflexivity|]. by right.
    + split; [reflexivity|]. split; [|intros [=]]. eexists. split; [reflexivity|]. by left.
  - unfold anthropometric_create, try_catch, bind, get_store.
    pose proof (unsanitized_body s anthropometric_create_validators (req_body r) eq_refl) as Hsan.
    destruct (validationResult s anthropometric_create_validators (req_body r)) as [errs b].
    simpl in Hsan. subst b. cbn [fst snd].
    destruct errs as [|err errs].
    + rewrite (patient_lookup_empty user (req_body r) a pid raw s Hu Hb Hr Hnone).
      split; [reflexivity|]. split; [|reflexivity]. eexists. split; [reflexivity|]. by right.
    + split; [reflexivity|]. split; [|intros [=]]. eexists. split; [reflexivity|]. by left.
Qed.

End ForeignPatient.

Lemma record_for_foreign_patient_is_refused_witness :
  @handler sample_externals sample_config PerformanceCreate dr_perez
    (post bruno_performance_request) sample_env shared_server
  = (Ok (not_found "User not found or not assigned to you"), shared_server).
Proof.
  destruct (@record_for_foreign_patient_is_refused sample_externals sample_config
              PerformanceCreate dr_perez 1 8 "000000000000000000000008"
              (post bruno_performance_request) sample_env shared_server)
    as (Hs & _ & Hres).
  - by left.
  - reflexivity.
  - reflexivity.
  - reflexivity.
  - intros u [<-|[<-|[<-|[]]]] Hi; try discriminate Hi. reflexivity.
  - rewrite (surjective_pairing (handler _ _ _ _ _ _)), Hs, Hres; [reflexivity|].
    vm_compute. reflexivity.
Defined.

(** ** Properties an update may not touch *)

Section UpdateGuards.
Context `{Externals}.
Variable cfg : config.

Lemma isValidOperation_false (allowed : list string) (b : doc) (k : string) (v : value) :
  b !! k = Some v -> mem k allowed = false -> isValidOperation allowed b = false.
Proof.
  intros Hb Hk. unfold isValidOperation.
  destruct (forallb _ _) eqn:E; [|done].
  rewrite forallb_forall in E. specialize (E (k, v)). simpl in E.
  rewrite Hk in E. symmetry. apply E. apply list_elem_of_In. by apply elem_of_map_to_list.
Qed.

Lemma mem_cons_false (k x : string) (l : list string) :
  mem k (x :: l) = false -> x <> k /\ mem k l = false.
Proof.
  unfold mem. simpl. intros [Hx Hl]%orb_false_iff. split; [|done].
  intros ->. by rewrite String.eqb_refl in Hx.
Qed.

(** A property the route does not list is still in the body after the
    sanitizers ran. *)
Lemma profile_body_keeps (s : store) (b : doc) (k : string) :
  mem k ["name"; "gender"; "age"; "country"; "settings"] = false ->
  (validationResult s profile_update_validators b).2 !! k = b !! k.
Proof.
  intros Hk.
  apply mem_cons_false in Hk as [H1 Hk]. apply mem_cons_false in Hk as [H2 Hk].
  apply mem_cons_false in Hk as [H3 Hk]. apply mem_cons_false in Hk as [H4 Hk].
  apply validationResult_other.
  repeat (apply List.Forall_cons; [first [right; reflexivity | left; assumption]|]).
  apply List.Forall_nil.
Qed.

Lemma patient_body_keeps (s : store) (b : doc) (k : string) :
  mem k ["name"; "email"; "gender"; "age"; "country"; "sport"; "position"] = false ->
  (validationResult s patient_update_validators b).2 !! k = b !! k.
Proof.
  intros Hk.
  apply mem_cons_false in Hk as [H1 Hk]. apply mem_cons_false in Hk as [H2 Hk].
  apply mem_cons_false in Hk as [H3 Hk]. apply mem_cons_false in Hk as [H4 Hk].
  apply mem_cons_false in Hk as [H5 Hk]. apply mem_cons_false in Hk as [H6 Hk].
  apply mem_cons_false in Hk as [H7 Hk].
  apply validationResult_other.
  repeat (apply List.Forall_cons; [first [right; reflexivity | left; assumption]|]).
  apply List.Forall_nil.
Qed.

(** PUT /users/profile with a body that has any property besides name,
    gender, age, country and settings (email, password, role,
    professionalId, ...) is answered 400, by the validators or as an
    invalid update, and nothing is written. *)
Theorem profile_update_refuses_other_properties (user : doc) (r : request) (e : env)
    (s : store) (k : string) (v : value) :
  req_body r !! k = Some v ->
  mem k ["name"; "gender"; "age"; "country"; "settings"] = false ->
  profile_update user r e s
  = (Ok (after_validation (validationResult s profile_update_validators (req_body r)).1
           invalid_update), s).
Proof.
  intros Hb Hk. unfold profile_update, try_catch, bind, get_store.
  pose proof (profile_body_keeps s (req_body r) k Hk) as Hkeep. rewrite Hb in Hkeep.
  destruct (validationResult s profile_update_validators (req_body r)) as [errs b].
  cbn [fst snd] in *. destruct errs as [|err errs]; [|reflexivity].
  by rewrite (isValidOperation_false _ b k v Hkeep Hk).
Qed.

(** PUT /users/patients/:id with a body that has any property besides
    name, email, gender, age, country, sport and position (password, role,
    professionalId, ...) never answers 200 and writes nothing. *)
Theorem patient_update_refuses_other_properties (user : doc) (r : request) (e : env)
    (s : store) (k : string) (v : value) (res : response) :
  req_body r !! k = Some v ->
  mem k ["name"; "email"; "gender"; "age"; "country"; "sport"; "position"] = false ->
  (patient_update cfg user r e s).2 = s
  /\ ((patient_update cfg user r e s).1 = Ok res -> In (status res) [400; 404; 500]).
Proof.
  intros Hb Hk. unfold patient_update, try_catch, bind, get_store.
  pose proof (patient_body_keeps s (req_body r) k Hk) as Hkeep. rewrite Hb in Hkeep.
  destruct (validationResult s patient_update_validators (req_body r)) as [errs b].
  cbn [fst snd] in *. destruct errs as [|err errs].
  - rewrite findOne_eq. destruct (prepared cfg User _) as [q'|ex].
    + destruct (head _) as [d|]; cbn [fmap option_fmap option_map].
      * rewrite (isValidOperation_false _ b k v Hkeep Hk). simpl.
        split; [reflexivity|]. intros [= <-]. by left.
      * simpl. split; [reflexivity|]. intros [= <-]. right. by left.
    + simpl. split; [reflexivity|]. intros [= <-]. right. right. by left.
  - simpl. split; [reflexivity|]. intros [= <-]. by left.
Qed.

End UpdateGuards.

Lemma profile_update_refuses_other_properties_witness :
  @profile_update sample_externals ana
    (post {["name" := VStr "Ana"; "role" := VStr "professional"]}) sample_env clinic
  = (Ok invalid_update, clinic).
Proof.
  rewrite (@profile_update_refuses_other_properties sample_externals ana
             (post {["name" := VStr "Ana"; "role" := VStr "professional"]}) sample_env clinic
             "role" (VStr "professional"));
    [vm_compute; reflexivity | vm_compute; reflexivity | reflexivity].
Defined.

Lemma patient_update_refuses_other_properties_witness :
  (@patient_update sample_externals sample_config dr_perez
     (put "000000000000000000000002" {["password" := VStr "chosen-by-perez"]}) sample_env
     clinic).2 = clinic
  /\ In 400 [400; 404; 500].
Proof.
  destruct (@patient_update_refuses_other_properties sample_externals sample_config dr_perez
              (put "000000000000000000000002" {["password" := VStr "chosen-by-perez"]})
              sample_env clinic "password" (VStr "chosen-by-perez")
              {| status := 400;
                 res_body := RError (Some "INVALID_UPDATE") "Invalid updates" [] |})
    as [Hs Hres]; [vm_compute; reflexivity | reflexivity |].
  split; [exact Hs|]. apply Hres. vm_compute. reflexivity.
Defined.

(** ** What a new document holds *)

Section Assigning.
Context `{Externals}.

Lemma contains_char_app (c : ascii) (x y : string) :
  contains_char c (x +:+ y) = contains_char c x || contains_char c y.
Proof. induction x as [|c' x IH]; simpl; [done|]. by rewrite IH, orb_assoc. Qed.

Lemma prefix_dot_contains (k' k : string) :
  is_prefix (k' +:+ ".") k = true -> contains_char "." k = true.
Proof.
  unfold is_prefix. revert k. induction k' as [|c k' IH]; intros [|b k].
  - intros [=].
  - change ("" +:+ ".") with ".". cbn [String.prefix contains_char].
    destruct (ascii_dec "." b) as [<-|]; [done | intros [=]].
  - change (String c k' +:+ ".") with (String c (k' +:+ ".")). intros [=].
  - change (String c k' +:+ ".") with (String c (k' +:+ ".")).
    cbn [String.prefix contains_char].
    destruct (ascii_dec c b) as [<-|]; [|intros [=]].
    intros Hp. rewrite (IH k Hp). apply orb_true_r.
Qed.

(** Every leaf of an object assigned to a nested path has a dotted name. *)
Lemma flatten_dotted (v : value) (pre : string) (kx : string * value) :
  contains_char "." pre = true -> In kx (flatten pre v) -> contains_char "." kx.1 = true.
Proof.
  revert v pre kx. fix IH 1. intros v pre kx Hpre.
  destruct v as [| | | | | | | |l]; try (simpl; intros [<-|[]]; exact Hpre).
  simpl. induction l as [|[k1 x] l IHl]; [intros []|].
  intros Hin. apply in_app_or in Hin as [Hin|Hin]; [|by apply IHl].
  apply (IH x (pre +:+ "." +:+ k1) kx); [|exact Hin].
  rewrite contains_char_app, Hpre. reflexivity.
Qed.

Lemma fold_left_inv_In {A B} (P : A -> Prop) (f : A -> B -> A) (l : list B) (x : A) :
  (forall x y, In y l -> P x -> P (f x y)) -> P x -> P (fold_left f l x).
Proof.
  revert x. induction l as [|y l IH]; intros x Hf Hx; simpl; [done|].
  apply IH; [intros x' y' Hy'; apply Hf; by right | apply Hf; [by left | done]].
Qed.

Section Key.
Variables (m : model) (k : string).
Hypothesis dotless : contains_char "." k = false.

Lemma set_leaf_other (k' : string) (v : value) (d : mdoc) :
  k' <> k -> md_fields (set_leaf m k' v d) !! k = md_fields d !! k.
Proof.
  intros Hk. unfold set_leaf. destruct (find_path m k') as [p|]; [|done].
  destruct (cast (p_type p) v) as [v0|]; [|done]. cbv zeta.
  destruct (same_value _ _); [done|]. simpl. by rewrite lookup_insert_ne.
Qed.

Lemma clear_nested_other (k' : string) (d : mdoc) :
  md_fields (clear_nested k' d) !! k = md_fields d !! k.
Proof.
  simpl. apply option_eq. intros x. rewrite map_lookup_filter_Some. simpl.
  assert (is_prefix (k' +:+ ".") k = false) as Hp.
  { destruct (is_prefix (k' +:+ ".") k) eqn:E; [|done].
    apply prefix_dot_contains in E. congruence. }
  tauto.
Qed.

Lemma set_path_other (k' : string) (v : value) (d : mdoc) :
  k' <> k -> md_fields (set_path m k' v d) !! k = md_fields d !! k.
Proof.
  intros Hk. unfold set_path. destruct (is_nested m k'); [|by apply set_leaf_other].
  destruct v as [| | | | | | | |l]; try done.
  rewrite <- (clear_nested_other k' d).
  apply (fold_left_inv_In (fun d' => md_fields d' !! k = md_fields (clear_nested k' d) !! k));
    [|done].
  intros d' kx Hin Hd'. rewrite set_leaf_other; [exact Hd'|].
  intros Heq. simpl in Hin.
  assert (contains_char "." kx.1 = true) as Hc; [|rewrite Heq in Hc; congruence].
  clear -Hin. induction l as [|[k1 x] l IHl]; [destruct Hin|].
  apply in_app_or in Hin as [Hin|Hin]; [|by apply IHl].
  apply (flatten_dotted x (k' +:+ "." +:+ k1) kx); [|exact Hin].
  rewrite !contains_char_app. simpl. apply orb_true_r.
Qed.

Lemma set_path_sets (p : pathSpec) (v v0 : value) (d : mdoc) :
  is_nested m k = false -> find_path m k = Some p -> cast (p_type p) v = Some v0 ->
  md_fields d !! k = None ->
  md_fields (set_path m k v d) !! k = Some (apply_setters p v0)
  /\ In k (md_modified (set_path m k v d)).
Proof.
  intros Hn Hp Hc Hd. unfold set_path, set_leaf. rewrite Hn, Hp, Hc. cbv zeta.
  rewrite Hd. simpl. split; [apply lookup_insert_eq | by left].
Qed.

Lemma set_leaf_modified (k' : string) (v : value) (d : mdoc) :
  In k (md_modified d) -> In k (md_modified (set_leaf m k' v d)).
Proof.
  intros Hd. unfold set_leaf. destruct (find_path m k') as [p|]; [|done].
  destruct (cast (p_type p) v) as [v0|]; [|done]. cbv zeta.
  destruct (same_value _ _); [done|]. by right.
Qed.

Lemma set_path_modified (k' : string) (v : value) (d : mdoc) :
  In k (md_modified d) -> In k (md_modified (set_path m k' v d)).
Proof.
  intros Hd. unfold set_path. destruct (is_nested m k'); [|by apply set_leaf_modified].
  destruct v; try done.
  apply (fold_left_inv (fun d' => In k (md_modified d'))).
  - intros. by apply set_leaf_modified.
  - by right.
Qed.

Lemma assign_list_other (l : list (string * value)) (d : mdoc) :
  (forall kv, In kv l -> kv.1 <> k) ->
  md_fields (fold_left (fun d kv => set_path m kv.1 kv.2 d) l d) !! k = md_fields d !! k.
Proof.
  intros Hl.
  apply (fold_left_inv_In (fun d' => md_fields d' !! k = md_fields d !! k)); [|done].
  intros d' kv Hin Hd'. rewrite set_path_other; [exact Hd' | by apply Hl].
Qed.

Lemma assign_list_sets (p : pathSpec) (v v0 : value) (l : list (string * value)) (d : mdoc) :
  is_nested m k = false -> find_path m k = Some p -> cast (p_type p) v = Some v0 ->
  NoDup l.*1 -> In (k, v) l -> md_fields d !! k = None ->
  md_fields (fold_left (fun d kv => set_path m kv.1 kv.2 d) l d) !! k
  = Some (apply_setters p v0)
  /\ In k (md_modified (fold_left (fun d kv => set_path m kv.1 kv.2 d) l d)).
Proof.
  intros Hn Hp Hc. revert d. induction l as [|[k' v'] l IH]; intros d Hnd Hin Hd; [destruct Hin|].
  simpl in Hnd. apply NoDup_cons in Hnd as [Hnot Hnd]. simpl.
  destruct Hin as [[= -> ->]|Hin].
  - destruct (set_path_sets p v v0 d Hn Hp Hc Hd) as [Hset Hmod]. split.
    + rewrite assign_list_other; [exact Hset|].
      intros kv Hkv Heq. apply Hnot. apply list_elem_of_In, in_map_iff. by exists kv.
    + apply (fold_left_inv (fun d' => In k (md_modified d'))); [|exact Hmod].
      intros. by apply set_path_modified.
  - apply IH; [done | done |]. rewrite set_path_other; [done|].
    intros ->. apply Hnot. apply list_elem_of_In, in_map_iff. by exists (k, v).
Qed.

(** After [Object.assign]-style assignment of a body, a top-level leaf
    path that was unset holds the cast of what the body gives it, and is
    marked as modified. *)
Lemma assign_sets (p : pathSpec) (b : doc) (v v0 : value) (d : mdoc) :
  is_nested m k = false -> find_path m k = Some p -> cast (p_type p) v = Some v0 ->
  b !! k = Some v -> md_fields d !! k = None ->
  md_fields (assign m b d) !! k = Some (apply_setters p v0)
  /\ In k (md_modified (assign m b d)).
Proof.
  intros Hn Hp Hc Hb Hd. unfold assign. apply (assign_list_sets p v v0); try done.
  - apply NoDup_fst_map_to_list.
  - apply list_elem_of_In. by apply elem_of_map_to_list.
Qed.

Lemma assign_other (b : doc) (d : mdoc) :
  b !! k = None -> md_fields (assign m b d) !! k = md_fields d !! k.
Proof.
  intros Hb. unfold assign. apply assign_list_other.
  intros [k' v'] Hin. simpl. intros ->.
  apply list_elem_of_In, elem_of_map_to_list in Hin. congruence.
Qed.

Lemma apply_defaults_keeps (e : env) (f : doc) (v : value) :
  f !! k = Some v -> apply_defaults m e f !! k = Some v.
Proof.
  unfold apply_defaults.
  apply (fold_left_inv (fun f' : doc => f' !! k = Some v)).
  intros f' p Hf'. destruct (f' !! p_name p) eqn:E; [done|].
  destruct (default_of e p); [|done].
  rewrite lookup_insert_ne; [done|]. intros Heq. rewrite Heq in E. congruence.
Qed.

(** [new Model(body)]: a top-level leaf path holds the cast of what the
    body, with the discriminator key written in, gives it. *)
Lemma new_doc_sets (e : env) (oid : N) (p : pathSpec) (b : doc) (v v0 : value) :
  k <> "_id" ->
  is_nested m k = false -> find_path m k = Some p -> cast (p_type p) v = Some v0 ->
  match m_discriminator m with
  | Some r => <["role" := VStr r]> b
  | None => b
  end !! k = Some v ->
  md_fields (new_doc m e oid b) !! k = Some (apply_setters p v0)
  /\ In k (md_modified (new_doc m e oid b)).
Proof.
  intros Hid Hn Hp Hc Hb. unfold new_doc. cbv zeta. cbn [md_fields md_modified].
  match goal with
  | |- context [assign m ?b0 ?d0] =>
      destruct (assign_sets p b0 v v0 d0 Hn Hp Hc) as [Hset Hmod]
  end.
  - by rewrite lookup_delete_ne.
  - simpl. by apply lookup_singleton_ne.
  - split; [by apply apply_defaults_keeps | exact Hmod].
Qed.

End Key.

Lemma new_doc_id (m : model) (e : env) (oid : N) (b : doc) :
  md_fields (new_doc m e oid b) !! "_id" = Some (VId oid).
Proof.
  unfold new_doc. cbv zeta. cbn [md_fields].
  apply (apply_defaults_keeps m "_id").
  rewrite (assign_other m "_id" eq_refl); [apply lookup_singleton_eq | apply lookup_delete_eq].
Qed.

Lemma new_doc_isNew (m : model) (e : env) (oid : N) (b : doc) :
  md_isNew (new_doc m e oid b) = true.
Proof. reflexivity. Qed.

End Assigning.

(** ** Creating records *)

Section Creating.
Context `{Externals}.
Variable cfg : config.

Lemma stamp_other (m : model) (e : env) (d : mdoc) (k : string) :
  k <> "createdAt" -> k <> "updatedAt" ->
  md_fields (stamp m e d) !! k = md_fields d !! k.
Proof.
  intros H1 H2. unfold stamp. destruct (m_timestamps m); [|done]. cbn [md_fields].
  destruct (md_isNew d || _); destruct (md_isNew d); by rewrite ?lookup_insert_ne.
Qed.


Lemma isModified_In (d : mdoc) (k : string) : In k (md_modified d) -> isModified d k = true.
Proof.
  intros Hin. unfold isModified. apply existsb_exists. exists k.
  split; [exact Hin|]. by rewrite String.eqb_refl.
Qed.

(** The store with one more id handed out. *)
Lemma fresh_oid_eq (s : store) :
  fresh_oid s = (Ok (next_oid s), set_coll Users (users s)
                   {| users := users s; anthropometric := anthropometric s;
                      performance := performance s; health := health s;
                      reports := reports s; next_oid := N.succ (next_oid s) |}).
Proof. reflexivity. Qed.

(** Saving a new document that passes validation and the unique indexes
    appends it, hooks and timestamps applied, to its collection. *)
Lemma save_new (m : model) (e : env) (d saved : mdoc) (s : store) :
  Forall id_safe (m_pre_save m) -> md_isNew d = true ->
  (save m e d s).1 = Ok saved ->
  saved = hydrate (md_fields (stamp m e (fold_left (fun d h => h e d) (m_pre_save m) d)))
  /\ (save m e d s).2
     = set_coll (m_coll m)
         (get_coll (m_coll m) s
          ++ [md_fields (stamp m e (fold_left (fun d h => h e d) (m_pre_save m) d))]) s.
Proof.
  intros Hs Hnew. unfold save. destruct (validate m d); [|intros [=]].
  cbv zeta. unfold bind, read_coll.
  destruct (hooks_keep (m_pre_save m) e None d Hs) as [_ Hn].
  rewrite stamp_isNew, Hn, Hnew. cbn [negb andb].
  destruct (unique_conflict m _ _); [intros [=]|].
  unfold write_coll. simpl. intros [= <-]. done.
Qed.

(** [new Model(body).save()] followed by an answer built from the saved
    document. *)
Lemma insert_new (m : model) (e : env) (b : doc) (view : mdoc -> response) (s : store)
    (res : response) :
  Forall id_safe (m_pre_save m) ->
  (bind fresh_oid (fun oid => bind (save m e (new_doc m e oid b))
                                (fun saved => ret (view saved))) s).1 = Ok res ->
  let d := md_fields (stamp m e (fold_left (fun d h => h e d) (m_pre_save m)
                                   (new_doc m e (next_oid s) b))) in
  res = view (hydrate d)
  /\ (bind fresh_oid (fun oid => bind (save m e (new_doc m e oid b))
                                   (fun saved => ret (view saved))) s).2
     = set_coll (m_coll m) (get_coll (m_coll m) s ++ [d])
         {| users := users s; anthropometric := anthropometric s;
            performance := performance s; health := health s;
            reports := reports s; next_oid := N.succ (next_oid s) |}.
Proof.
  intros Hs. unfold bind at 1 3. unfold fresh_oid at 1 2. cbv beta iota. unfold bind.
  set (s1 := {| users := users s; anthropometric := anthropometric s;
                performance := performance s; health := health s;
                reports := reports s; next_oid := N.succ (next_oid s) |}).
  pose proof (save_new m e (new_doc m e (next_oid s) b)) as Hsave.
  destruct (save m e (new_doc m e (next_oid s) b) s1) as [[saved|ex] s2] eqn:E;
    [|intros [=]].
  destruct (Hsave saved s1 Hs eq_refl) as [-> Hs2]; [by rewrite E|].
  rewrite E in Hs2. simpl in Hs2. subst s2.
  simpl. intros [= <-]. split; [reflexivity|]. by destruct (m_coll m).
Qed.

Lemma try_catch_get_store {A} (k : store -> M A) (h : exn -> A) (s : store) :
  try_catch (bind get_store k) h s = try_catch (k s) h s.
Proof. reflexivity. Qed.

Lemma try_catch_bind {A B} (m : M A) (k : A -> M B) (h : exn -> B) (s : store)
    (o : outcome A) :
  m s = (o, s) ->
  try_catch (bind m k) h s
  = match o with
    | Ok x => try_catch (k x) h s
    | Throw ex => (Ok (h ex), s)
    end.
Proof. intros Hm. unfold try_catch, bind. rewrite Hm. by destruct o. Qed.

(** A handler that inserts and answers 201. *)
Lemma try_insert_new (m : model) (e : env) (b : doc) (view : mdoc -> response)
    (h : exn -> response) (s : store) (res : response) :
  Forall id_safe (m_pre_save m) -> (forall ex, status (h ex) <> 201) ->
  let run := try_catch (bind fresh_oid (fun oid => bind (save m e (new_doc m e oid b))
                                                    (fun saved => ret (view saved)))) h s in
  let d := md_fields (stamp m e (fold_left (fun d h => h e d) (m_pre_save m)
                                   (new_doc m e (next_oid s) b))) in
  run.1 = Ok res -> status res = 201 ->
  res = view (hydrate d)
  /\ run.2 = set_coll (m_coll m) (get_coll (m_coll m) s ++ [d])
               {| users := users s; anthropometric := anthropometric s;
                  performance := performance s; health := health s;
                  reports := reports s; next_oid := N.succ (next_oid s) |}.
Proof.
  intros Hs Hh run d. unfold run, try_catch.
  pose proof (insert_new m e b view s) as Hnew.
  destruct (bind fresh_oid _ s) as [[res'|ex] s'].
  - simpl. intros [= <-] _. destruct (Hnew res' Hs eq_refl) as [-> Hs']. done.
  - simpl. intros [= <-] Hst. by destruct (Hh ex).
Qed.





Lemma pick_lookup (keys : list string) (b : doc) (k : string) :
  mem k keys = true -> pick keys b !! k = b !! k.
Proof.
  intros Hk. unfold pick. apply option_eq. intros x.
  rewrite map_lookup_filter_Some. simpl. tauto.
Qed.

Lemma pick_lookup_None (keys : list string) (b : doc) (k : string) :
  mem k keys = false -> pick keys b !! k = None.
Proof.
  intros Hk. unfold pick. apply map_lookup_filter_None. right.
  intros x _. simpl. by rewrite Hk.
Qed.

Lemma hash_password_other (e : env) (d : mdoc) (k : string) :
  k <> "password" -> md_fields (hash_password e d) !! k = md_fields d !! k.
Proof.
  intros Hk. unfold hash_password. destruct (negb _); [done|].
  destruct (md_fields d !! "password") as [[]|]; try done.
  simpl. by rewrite lookup_insert_ne.
Qed.

Lemma hash_password_hashes (e : env) (d : mdoc) (pw : string) :
  In "password" (md_modified d) -> md_fields d !! "password" = Some (VStr pw) ->
  md_fields (hash_password e d) !! "password" = Some (VStr (bcrypt_hash pw)).
Proof.
  intros Hm Hp. unfold hash_password. rewrite (isModified_In d "password" Hm), Hp.
  simpl. apply lookup_insert_eq.
Qed.

(** POST /users/patients answers 201 only after storing, at the end of the
    users and under a fresh [_id], a user whose role is athlete and whose
    [professionalId] is the caller, whatever the body says about either;
    the password it stores is the hash of the one submitted, and the answer
    is that user's public profile. *)
Theorem patient_is_created_for_the_caller (user : doc) (a : N) (r : request) (e : env)
    (s : store) (res : response) :
  user !! "_id" = Some (VId a) ->
  (patient_create cfg user r e s).1 = Ok res -> status res = 201 ->
  exists d,
    res_body res = RDoc (getPublicProfile d)
    /\ d !! "role" = Some (VStr "athlete") /\ d !! "professionalId" = Some (VId a)
    /\ d !! "_id" = Some (VId (next_oid s))
    /\ (forall pw, req_body r !! "password" = Some (VStr pw) ->
                   d !! "password" = Some (VStr (bcrypt_hash pw)))
    /\ (patient_create cfg user r e s).2
       = {| users := users s ++ [d]; anthropometric := anthropometric s;
            performance := performance s; health := health s;
            reports := reports s; next_oid := N.succ (next_oid s) |}.
Proof.
  intros Hu. unfold patient_create. rewrite try_catch_get_store.
  assert ((validationResult s patient_create_validators (req_body r)).2 !! "password"
          = req_body r !! "password") as Hpw.
  { apply validationResult_other.
    repeat (apply List.Forall_cons; [first [right; reflexivity | left; intros [=]]|]).
    apply List.Forall_nil. }
  destruct (validationResult s patient_create_validators (req_body r)) as [errs b].
  cbn [snd] in Hpw.
  destruct errs as [|err errs]; [|unfold try_catch; simpl; intros [= <-] [=]].
  rewrite (try_catch_bind _ _ _ _ _ (findOne_eq cfg User _ s)).
  destruct (prepared cfg User _) as [q'|ex]; [|simpl; intros [= <-] [=]].
  destruct (head _) as [existing|]; cbn [fmap option_fmap option_map];
    [unfold try_catch; simpl; intros [= <-] [=]|].
  unfold user_id. rewrite Hu. change (default VNull (Some (VId a))) with (VId a).
  cbv zeta.
  set (F := pick ["name"; "email"; "password"; "gender"; "age"; "country"; "sport"; "position"] b
            ∪ {["role" := VStr "athlete"; "professionalId" := VId a;
                "isActive" := VBool true]}).
  assert (F !! "role" = Some (VStr "athlete")) as Hrole.
  { unfold F. rewrite lookup_union_r by (by apply pick_lookup_None). apply lookup_insert_eq. }
  assert (F !! "professionalId" = Some (VId a)) as Hprof.
  { unfold F. rewrite lookup_union_r by (by apply pick_lookup_None).
    rewrite lookup_insert_ne by (intros [=]). apply lookup_insert_eq. }
  assert (F !! "password" = b !! "password") as HFpw.
  { unfold F. rewrite <- (pick_lookup ["name"; "email"; "password"; "gender"; "age"; "country";
                                        "sport"; "position"] b "password" eq_refl).
    destruct (pick _ b !! "password") as [x|] eqn:E.
    - by apply lookup_union_Some_l.
    - rewrite lookup_union_r by done. rewrite !lookup_insert_ne by (intros [=]).
      apply lookup_singleton_ne. intros [=]. }
  assert (user_model F = Athlete) as ->.
  { unfold user_model. by rewrite Hrole. }
  clearbody F. intros Hres Hst.
  assert (Forall id_safe (m_pre_save Athlete)) as Hsafe
    by (apply List.Forall_cons; [apply hash_password_safe | apply List.Forall_nil]).
  destruct (try_insert_new Athlete e F
              (fun patient => {| status := 201;
                                 res_body := RDoc (getPublicProfile (md_fields patient)) |})
              (fun _ => internal_error "Error creating patient") s res
              Hsafe ltac:(intros ? [=]) Hres Hst) as [-> Hs'].
  eexists. split; [reflexivity|]. cbn [md_fields hydrate].
  split; [|split; [|split; [|split; [|exact Hs']]]].
  - rewrite stamp_other by (intros [=]). cbn [m_pre_save Athlete fold_left].
    rewrite hash_password_other by (intros [=]).
    apply (new_doc_sets Athlete "role" eq_refl e (next_oid s)
             (path "role" TString [Enum roles; Required]) _ (VStr "athlete") (VStr "athlete"));
      [intros [=] | vm_compute; reflexivity | reflexivity | reflexivity
      | apply lookup_insert_eq].
  - rewrite stamp_other by (intros [=]). cbn [m_pre_save Athlete fold_left].
    rewrite hash_password_other by (intros [=]).
    apply (new_doc_sets Athlete "professionalId" eq_refl e (next_oid s)
             (path "professionalId" TObjectId [Required]) _ (VId a) (VId a));
      [intros [=] | vm_compute; reflexivity | reflexivity | reflexivity |].
    cbn [m_discriminator Athlete]. by rewrite lookup_insert_ne by (intros [=]).
  - rewrite stamp_other by (intros [=]). cbn [m_pre_save Athlete fold_left].
    rewrite hash_password_other by (intros [=]). apply new_doc_id.
  - intros pw Hbody. rewrite stamp_other by (intros [=]). cbn [m_pre_save Athlete fold_left].
    destruct (new_doc_sets Athlete "password" eq_refl e (next_oid s)
                (path "password" TString [Required; MinLength 8]) F (VStr pw) (VStr pw))
      as [Hset Hmod]; [intros [=] | vm_compute; reflexivity | reflexivity | reflexivity | |].
    + cbn [m_discriminator Athlete]. rewrite lookup_insert_ne by (intros [=]).
      by rewrite HFpw, Hpw.
    + by apply hash_password_hashes.
Qed.

End Creating.



Lemma patient_is_created_for_the_caller_witness :
  exists d, d !! "role" = Some (VStr "athlete") /\ d !! "professionalId" = Some (VId 1)
    /\ d !! "password" = Some (VStr "$2a$10$12345678")
    /\ users (@patient_create sample_externals sample_config dr_perez
                (post new_patient_request) sample_env clinic).2 = [dr_perez; ana; d].
Proof.
  destruct (@patient_is_created_for_the_caller sample_externals sample_config dr_perez 1
              (post new_patient_request) sample_env clinic
              (match (@patient_create sample_externals sample_config dr_perez
                        (post new_patient_request) sample_env clinic).1 with
               | Ok res => res
               | Throw _ => not_found ""
               end))
    as (d & _ & Hrole & Hp & _ & Hpw & Hs);
    [reflexivity | vm_compute; reflexivity | vm_compute; reflexivity |].
  exists d. split; [exact Hrole|]. split; [exact Hp|].
  split; [exact (Hpw "12345678" eq_refl)|]. by rewrite Hs.
Defined.

(** ** What an athlete reads *)

Section AthleteReads.
Context `{Externals}.
Variable cfg : config.

Lemma scope_swap (k : string) (c1 c2 : cond) :
  k <> "_id" ->
  (<[k := c2]> {["_id" := c1]} : query) = {["_id" := c1; k := c2]}.
Proof. intros Hk. rewrite <- !insert_empty. by apply insert_insert_ne. Qed.

Lemma answers_selected (a : N) (c : coll) (sel : N -> N -> doc -> bool) (msg : string)
    (r : request) (failed : response) (m : M response) (s : store) (res : response) (x : doc) :
  answers_by_id a c sel [] msg r (fun _ d => {| status := 200; res_body := RDoc d |}) failed m ->
  (m s).1 = Ok res -> In x (response_docs res) ->
  exists rid, In x (get_coll c s) /\ sel a rid x = true.
Proof.
  intros (_ & Hfailed & Hm) Hres. destruct (Hm s) as [Heq _]. rewrite Heq in Hres.
  injection Hres as <-. simpl. unfold answer_by_id.
  destruct (parseObjectId (params_id r)) as [rid|]; [|by rewrite Hfailed].
  destruct (head _) as [d|] eqn:E; [|intros []].
  intros [<-|[]]. exists rid. by apply head_filter_In in E.
Qed.

Lemma paged_holds (m : model) (p : pathSpec) (k : string) (q : query) (r : request) (a : N)
    (h : exn -> response) (s : store) (res : response) (x : doc) :
  find_path m k = Some p -> p_type p = TObjectId -> q !! k = Some (CEq (VId a)) ->
  (forall ex, response_docs (h ex) = []) ->
  (try_catch (paged cfg m q r) h s).1 = Ok res -> In x (response_docs res) ->
  In x (get_coll (m_coll m) s) /\ ref_is k a x = true.
Proof.
  intros Hp Ht Hq Hh. unfold try_catch. rewrite paged_eq.
  destruct (prepared cfg m q) as [q'|err] eqn:Hprep; [|simpl; intros [= <-]; by rewrite Hh].
  cbv zeta. destruct (skip_limit _ _ _) as [records|err] eqn:Hrec;
    [|simpl; intros [= <-]; by rewrite Hh].
  intros [= <-]. simpl. intros Hx.
  apply (In_skip_limit _ _ _ _ _ Hrec), In_sort_date_desc, filter_In in Hx as [Hin Hm].
  split; [exact Hin|]. exact (scoped_matches cfg m p k q q' a x Hp Ht Hq Hprep Hm).
Qed.

(** A caller who is not a professional gets, from the list and read
    routes of performance records and reports, only stored documents whose
    [userId] is the caller. *)
Theorem athlete_reads_own_records (ep : endpoint) (c : coll) (user : doc) (a : N)
    (r : request) (e : env) (s : store) (res : response) (x : doc) :
  In (ep, c) [(PerformanceList, Performance); (PerformanceGet, Performance);
              (ReportList, Reports); (ReportGet, Reports)] ->
  user !! "_id" = Some (VId a) -> is_professional user = false ->
  (handler cfg ep user r e s).1 = Ok res -> In x (response_docs res) ->
  In x (get_coll c s) /\ of_user a x = true.
Proof.
  intros Hep Hu Hrole.
  destruct Hep as [[= <- <-]|[[= <- <-]|[[= <- <-]|[[= <- <-]|[]]]]]; unfold handler.
  - unfold performance_list. rewrite Hrole, (uid_of_user _ _ Hu). cbv zeta.
    apply (paged_holds PerformanceMetrics (path "userId" TObjectId [Required]) "userId");
      [reflexivity | reflexivity | | reflexivity].
    destruct (q_param r "sport"); rewrite ?lookup_insert_ne by done;
      (rewrite with_dates_lookup by done); apply lookup_singleton_eq.
  - unfold performance_get. rewrite Hrole, (uid_of_user _ _ Hu). cbv zeta.
    rewrite scope_swap by done. intros Hres Hx.
    pose proof (lookup_answers cfg a r PerformanceMetrics (path "userId" TObjectId [Required])
                  "userId" "Performance record not found"
                  (error_response 500 "INTERNAL_SERVER_ERROR"
                     "Error fetching performance record")
                  ltac:(done) eq_refl eq_refl eq_refl) as Ha.
    destruct (answers_selected _ _ _ _ _ _ _ s res x Ha Hres Hx) as (rid & Hin & Hsel).
    split; [exact Hin|]. unfold select_ref in Hsel. by apply andb_true_iff in Hsel as [_ ?].
  - unfold report_list. rewrite Hrole, (uid_of_user _ _ Hu). cbv zeta.
    apply (paged_holds Report (path "userId" TObjectId [Required]) "userId");
      [reflexivity | reflexivity | | reflexivity].
    rewrite with_dates_lookup by done.
    destruct (q_param r "format"); rewrite ?lookup_insert_ne by done;
      destruct (q_param r "type"); rewrite ?lookup_insert_ne by done;
      apply lookup_singleton_eq.
  - unfold report_get. rewrite Hrole, (uid_of_user _ _ Hu). cbv zeta.
    rewrite scope_swap by done. intros Hres Hx.
    pose proof (lookup_answers cfg a r Report (path "userId" TObjectId [Required])
                  "userId" "Report not found"
                  (error_response 500 "INTERNAL_SERVER_ERROR" "Error fetching report")
                  ltac:(done) eq_refl eq_refl eq_refl) as Ha.
    destruct (answers_selected _ _ _ _ _ _ _ s res x Ha Hres Hx) as (rid & Hin & Hsel).
    split; [exact Hin|]. unfold select_ref in Hsel. by apply andb_true_iff in Hsel as [_ ?].
Qed.

End AthleteReads.

Lemma athlete_reads_own_records_witness :
  In ana_measurement (get_coll Performance
                        {| users := [dr_perez; ana; bruno]; anthropometric := [];
                           performance := [foreign_measurement; ana_measurement];
                           health := []; reports := []; next_oid := 50%N |})
  /\ of_user 2 ana_measurement = true.
Proof.
  apply (@athlete_reads_own_records sample_externals sample_config PerformanceList Performance
           ana 2 blank_request sample_env
           {| users := [dr_perez; ana; bruno]; anthropometric := [];
              performance := [foreign_measurement; ana_measurement];
              health := []; reports := []; next_oid := 50%N |}
           {| status := 200; res_body := RPage "data" [ana_measurement] 1 1 10 (Some 1) |});
    [by left | reflexivity | reflexivity | vm_compute; reflexivity | by left].
Defined.

(** ** Registration *)

Section Registering.
Context `{Externals}.
Variable cfg : config.

Lemma register_body_password (s : store) (b : doc) :
  (validationResult s (register_validators cfg) b).2 !! "password" = b !! "password".
Proof.
  apply validationResult_other.
  repeat (apply List.Forall_cons;
            [first [solve [right; reflexivity] | solve [left; intros [=]]]|]).
  apply List.Forall_nil.
Qed.

(** POST /auth/register answers 201 only after appending one user under
    a fresh [_id]; the password it stores is the hash of the one submitted,
    never the submitted one; the session it answers with describes that
    user, and both tokens are issued to the fresh id at the time of the
    request. *)
Theorem registration_stores_the_hash (r : request) (e : env) (s : store) (res : response) :
  (register cfg r e s).1 = Ok res -> status res = 201 ->
  exists d,
    (register cfg r e s).2
    = {| users := users s ++ [d]; anthropometric := anthropometric s;
         performance := performance s; health := health s;
         reports := reports s; next_oid := N.succ (next_oid s) |}
    /\ d !! "_id" = Some (VId (next_oid s))
    /\ (forall pw, req_body r !! "password" = Some (VStr pw) ->
                   d !! "password" = Some (VStr (bcrypt_hash pw)))
    /\ res_body res
       = RSession (Some (session_user d))
           (jwt_sign (next_oid s) (role_of d) (JWT_SECRET cfg) one_hour (now e))
           (jwt_sign (next_oid s) None (REFRESH_TOKEN_SECRET cfg) seven_days (now e)).
Proof.
  unfold register. rewrite try_catch_get_store.
  pose proof (register_body_password s (req_body r)) as Hpw.
  destruct (validationResult s (register_validators cfg) (req_body r)) as [errs b].
  cbn [snd] in Hpw.
  destruct errs as [|err errs]; [|unfold try_catch; simpl; intros [= <-] [=]].
  rewrite (try_catch_bind _ _ _ _ _ (findOne_eq cfg User _ s)).
  destruct (prepared cfg User _) as [q'|ex];
    [|simpl; intros [= <-]; destruct ex; intros [=]].
  destruct (head _) as [existing|]; cbn [fmap option_fmap option_map];
    [unfold try_catch; simpl; intros [= <-] [=]|].
  cbv zeta.
  set (view := fun user : mdoc =>
         {| status := 201;
            res_body := RSession (Some (session_user (md_fields user)))
                          (jwt_sign (oid_of (md_fields user)) (role_of (md_fields user))
                             (JWT_SECRET cfg) one_hour (now e))
                          (jwt_sign (oid_of (md_fields user)) None
                             (REFRESH_TOKEN_SECRET cfg) seven_days (now e)) |}).
  set (h := fun err : exn =>
         match err with
         | ValidationError errs => validation_failed errs
         | _ => {| status := 500;
                   res_body := RError None "Server error"
                                 [(None, "An unexpected error occurred")] |}
         end).
  assert (forall ex, status (h ex) <> 201) as Hh by (intros []; intros [=]).
  assert (Forall id_safe [hash_password]) as Hsafe
    by (apply List.Forall_cons; [apply hash_password_safe | apply List.Forall_nil]).
  destruct (value_eqb (VStr "athlete") (default VNull (b !! "role"))); intros Hres Hst.
  - destruct (try_insert_new Athlete e _ view h s res Hsafe Hh Hres Hst) as [-> Hs'].
    eexists. split; [exact Hs'|]. cbn [md_fields hydrate].
    assert (forall F : doc,
              md_fields (stamp Athlete e
                           (fold_left (fun d h => h e d) (m_pre_save Athlete)
                              (new_doc Athlete e (next_oid s) F))) !! "_id"
              = Some (VId (next_oid s))) as Hid.
    { intros F. rewrite stamp_other by (intros [=]). cbn [m_pre_save Athlete fold_left].
      rewrite hash_password_other by (intros [=]). apply new_doc_id. }
    split; [apply Hid|]. split.
    + intros pw Hbody. rewrite stamp_other by (intros [=]).
      cbn [m_pre_save Athlete fold_left].
      match goal with
      | |- context [new_doc Athlete e (next_oid s) ?F] =>
          destruct (new_doc_sets Athlete "password" eq_refl e (next_oid s)
                      (path "password" TString [Required; MinLength 8]) F (VStr pw) (VStr pw))
            as [Hset Hmod];
            [intros [=] | vm_compute; reflexivity | reflexivity | reflexivity | |]
      end.
      * cbn [m_discriminator Athlete]. rewrite lookup_insert_ne by (intros [=]).
        rewrite pick_lookup by reflexivity. by rewrite Hpw.
      * by apply hash_password_hashes.
    + unfold view. cbn [md_fields hydrate res_body]. unfold oid_of. by rewrite Hid.
  - destruct (try_insert_new Professional e _ view h s res Hsafe Hh Hres Hst) as [-> Hs'].
    eexists. split; [exact Hs'|]. cbn [md_fields hydrate].
    assert (forall F : doc,
              md_fields (stamp Professional e
                           (fold_left (fun d h => h e d) (m_pre_save Professional)
                              (new_doc Professional e (next_oid s) F))) !! "_id"
              = Some (VId (next_oid s))) as Hid.
    { intros F. rewrite stamp_other by (intros [=]).
      cbn [m_pre_save Professional fold_left].
      rewrite hash_password_other by (intros [=]). apply new_doc_id. }
    split; [apply Hid|]. split.
    + intros pw Hbody. rewrite stamp_other by (intros [=]).
      cbn [m_pre_save Professional fold_left].
      match goal with
      | |- context [new_doc Professional e (next_oid s) ?F] =>
          destruct (new_doc_sets Professional "password" eq_refl e (next_oid s)
                      (path "password" TString [Required; MinLength 8]) F (VStr pw) (VStr pw))
            as [Hset Hmod];
            [intros [=] | vm_compute; reflexivity | reflexivity | reflexivity | |]
      end.
      * cbn [m_discriminator Professional]. rewrite lookup_insert_ne by (intros [=]).
        rewrite pick_lookup by reflexivity. by rewrite Hpw.
      * by apply hash_password_hashes.
    + unfold view. cbn [md_fields hydrate res_body]. unfold oid_of. by rewrite Hid.
Qed.

End Registering.

Lemma registration_stores_the_hash_witness :
  exists d, d !! "password" = Some (VStr "$2a$10$longpassword")
    /\ users (@register sample_externals sample_config (post quiroga_registration)
                sample_env clinic).2 = [dr_perez; ana; d].
Proof.
  destruct (@registration_stores_the_hash sample_externals sample_config
              (post quiroga_registration) sample_env clinic
              (match (@register sample_externals sample_config (post quiroga_registration)
                        sample_env clinic).1 with
               | Ok res => res
               | Throw _ => not_found ""
               end))
    as (d & Hs & _ & Hpw & _); [vm_compute; reflexivity | vm_compute; reflexivity |].
  exists d. split; [exact (Hpw "longpassword" eq_refl)|]. by rewrite Hs.
Defined.

(** ** Updates rewrite in place *)

Section InPlace.
Context `{Externals}.
Variable cfg : config.











End InPlace.


(** ** What an update of a patient keeps *)

Section PatientIdentity.
Context `{Externals}.
Variable cfg : config.

Lemma isValidOperation_true (allowed : list string) (b : doc) (k : string) (v : value) :
  isValidOperation allowed b = true -> b !! k = Some v -> mem k allowed = true.
Proof.
  unfold isValidOperation. rewrite forallb_forall. intros Hall Hb.
  apply (Hall (k, v)). apply list_elem_of_In. by apply elem_of_map_to_list.
Qed.

Lemma mem_In (k : string) (l : list string) : mem k l = true -> In k l.
Proof.
  unfold mem. intros (x & Hx & E)%existsb_exists. apply String.eqb_eq in E. by subst.
Qed.

Lemma set_leaf_modified_keys (m : model) (k : string) (v : value) (d : mdoc) (x : string) :
  In x (md_modified (set_leaf m k v d)) -> x = k \/ In x (md_modified d).
Proof.
  unfold set_leaf. destruct (find_path m k) as [p|]; [|by right].
  destruct (cast (p_type p) v) as [v0|]; [|by right]. cbv zeta.
  destruct (same_value _ _); [by right|]. simpl. intros [<-|Hx]; [by left | by right].
Qed.

(** Assigning a body whose properties are all leaf paths marks nothing
    but properties of the body as modified. *)
Lemma assign_modified_keys (m : model) (b : doc) (d : mdoc) (x : string) :
  (forall k v, b !! k = Some v -> is_nested m k = false) ->
  In x (md_modified (assign m b d)) -> In x (md_modified d) \/ is_Some (b !! x).
Proof.
  intros Hleaf. unfold assign.
  apply (fold_left_inv_In
           (fun d' => In x (md_modified d') -> In x (md_modified d) \/ is_Some (b !! x)));
    [|by left].
  intros d' [k v] Hin Hd' Hx. simpl in Hx.
  apply list_elem_of_In, elem_of_map_to_list in Hin.
  unfold set_path in Hx. rewrite (Hleaf k v Hin) in Hx.
  apply set_leaf_modified_keys in Hx as [->|Hx]; [right; eauto | by apply Hd'].
Qed.

Lemma hash_password_idle (e : env) (d : mdoc) :
  isModified d "password" = false -> hash_password e d = d.
Proof. intros Hm. unfold hash_password. by rewrite Hm. Qed.

Lemma replace_first_ext (f g : doc -> bool) (x : doc) (l : list doc) :
  (forall d, f d = g d) -> replace_first f x l = replace_first g x l.
Proof. intros Hfg. induction l as [|d l IH]; simpl; [done|]. by rewrite Hfg, IH. Qed.

Lemma same_id_ext (o x y : doc) : x !! "_id" = y !! "_id" -> same_id o x = same_id o y.
Proof. intros Hxy. unfold same_id. by rewrite Hxy. Qed.

(** Saving a loaded document that passes validation and the indexes
    replaces the stored one, hooks and timestamps applied. *)
Lemma save_existing (m : model) (e : env) (d saved : mdoc) (s : store) :
  Forall id_safe (m_pre_save m) -> md_isNew d = false ->
  (save m e d s).1 = Ok saved ->
  saved = hydrate (md_fields (stamp m e (fold_left (fun d h => h e d) (m_pre_save m) d)))
  /\ (save m e d s).2
     = set_coll (m_coll m)
         (replace_first (fun o => same_id o (md_fields d))
            (md_fields (stamp m e (fold_left (fun d h => h e d) (m_pre_save m) d)))
            (get_coll (m_coll m) s)) s.
Proof.
  intros Hs Hnew. unfold save. destruct (validate m d); [|intros [=]].
  cbv zeta. unfold bind, read_coll.
  destruct (hooks_keep (m_pre_save m) e None d Hs) as [_ Hn].
  rewrite stamp_isNew, Hn, Hnew. cbn [negb andb].
  destruct (isModified _ "_id"); [intros [=]|].
  destruct (unique_conflict m _ _); [intros [=]|].
  unfold write_coll. simpl. intros [= <-]. done.
Qed.

Lemma allowed_patient_leaf (k : string) :
  mem k ["name"; "email"; "gender"; "age"; "country"; "sport"; "position"] = true ->
  is_nested Athlete k = false
  /\ String.eqb "password" k || is_prefix ("password" +:+ ".") k = false
  /\ k <> "_id" /\ k <> "password" /\ k <> "role" /\ k <> "professionalId".
Proof.
  intros Hk. apply mem_In in Hk.
  repeat (destruct Hk as [<-|Hk]; [vm_compute; repeat split; intros [=]|]).
  destruct Hk.
Qed.

(** A 200 from PUT /users/patients/:id is about a stored athlete of the
    caller with the id in the path; the document it answers with (less the
    password) replaces that athlete in the users, and has the [_id], the
    stored password hash, the role and the [professionalId] the athlete
    had: none of them can be changed through this route. *)
Theorem patient_update_keeps_identity (user : doc) (a : N) (r : request) (e : env)
    (s : store) (res : response) :
  user !! "_id" = Some (VId a) ->
  (patient_update cfg user r e s).1 = Ok res -> status res = 200 ->
  exists rid d0 d,
    parseObjectId (params_id r) = Some rid
    /\ In d0 (users s) /\ select_patient a rid d0 = true
    /\ res_body res = RDoc (getPublicProfile d)
    /\ (forall k, In k ["_id"; "password"; "role"; "professionalId"] -> d !! k = d0 !! k)
    /\ (patient_update cfg user r e s).2
       = set_coll Users (replace_first (fun o => same_id o d0) d (users s)) s.
Proof.
  intros Hu. unfold patient_update. rewrite try_catch_get_store.
  destruct (validationResult s patient_update_validators (req_body r)) as [errs b].
  destruct errs as [|err errs]; [|unfold try_catch; simpl; intros [= <-] [=]].
  rewrite (uid_of_user _ _ Hu).
  destruct (findOne_patient cfg (params_id r) a s) as [ex Hf].
  rewrite (try_catch_bind _ _ _ _ _ Hf).
  destruct (parseObjectId (params_id r)) as [rid|]; [|simpl; intros [= <-] [=]].
  destruct (head _) as [d0|] eqn:Hhead; cbn [fmap option_fmap option_map];
    [|unfold try_catch; simpl; intros [= <-] [=]].
  cbn [md_fields hydrate].
  destruct (isValidOperation _ b) eqn:Hvalid; cbn [negb];
    [|unfold try_catch; simpl; intros [= <-] [=]].
  cbv zeta. apply head_filter_In in Hhead as [Hin Hsel].
  assert (user_model d0 = Athlete) as ->.
  { unfold select_patient in Hsel.
    apply andb_true_iff in Hsel as [[_ Hath]%andb_true_iff _].
    apply is_athlete_doc_spec in Hath. unfold user_model. by rewrite Hath. }
  set (d1 := assign Athlete b (hydrate d0)).
  assert (forall k v, b !! k = Some v ->
            mem k ["name"; "email"; "gender"; "age"; "country"; "sport"; "position"] = true)
    as Hkeys by (intros k v; apply isValidOperation_true, Hvalid).
  assert (forall k, contains_char "." k = false ->
            mem k ["name"; "email"; "gender"; "age"; "country"; "sport"; "position"] = false ->
            md_fields d1 !! k = d0 !! k) as Hkeep.
  { intros k Hdot Hk. unfold d1. rewrite (assign_other Athlete k Hdot); [done|].
    destruct (b !! k) as [v|] eqn:E; [|done]. rewrite (Hkeys k v E) in Hk. discriminate Hk. }
  assert (isModified d1 "password" = false) as Hmod.
  { unfold isModified. destruct (existsb _ _) eqn:E; [|done].
    apply existsb_exists in E as (x & Hx & Htest).
    apply assign_modified_keys in Hx as [[]|[v Hv]].
    - destruct (allowed_patient_leaf x (Hkeys x v Hv)) as (_ & Hno & _). congruence.
    - intros k v Hk. by destruct (allowed_patient_leaf k (Hkeys k v Hk)). }
  intros Hres Hst. unfold try_catch, bind in Hres |- *.
  assert (Forall id_safe (m_pre_save Athlete)) as Hsafe
    by (apply List.Forall_cons; [apply hash_password_safe | apply List.Forall_nil]).
  pose proof (save_existing Athlete e d1) as Hsave.
  destruct (save Athlete e d1 s) as [[saved|ex2] s'] eqn:E;
    [|simpl in Hres; injection Hres as <-; discriminate Hst].
  destruct (Hsave saved s Hsafe) as [-> Hs'];
    [unfold d1; by rewrite assign_isNew | by rewrite E |].
  rewrite E in Hs'. simpl in Hs'. subst s'.
  simpl in Hres. injection Hres as <-.
  assert (forall k, k <> "createdAt" -> k <> "updatedAt" ->
            md_fields (stamp Athlete e (fold_left (fun d h => h e d) (m_pre_save Athlete) d1))
            !! k = md_fields d1 !! k) as Hfinal.
  { intros k H1 H2. rewrite stamp_other by done. cbn [m_pre_save Athlete fold_left].
    by rewrite (hash_password_idle e d1 Hmod). }
  exists rid, d0. eexists. split; [reflexivity|]. split; [exact Hin|]. split; [exact Hsel|].
  split; [reflexivity|]. split.
  - intros k Hk. rewrite Hfinal.
    + apply Hkeep; repeat (destruct Hk as [<-|Hk]; [reflexivity|]); destruct Hk.
    + repeat (destruct Hk as [<-|Hk]; [intros [=]|]); destruct Hk.
    + repeat (destruct Hk as [<-|Hk]; [intros [=]|]); destruct Hk.
  - simpl. f_equal. apply replace_first_ext. intros o. apply same_id_ext.
    apply (Hkeep "_id"); reflexivity.
Qed.

End PatientIdentity.

Lemma patient_update_keeps_identity_witness :
  exists d, d !! "password" = Some (VStr "$2a$10$ana-secret")
    /\ d !! "professionalId" = Some (VId 1)
    /\ users (@patient_update sample_externals sample_config dr_perez
                (put "000000000000000000000002" {["name" := VStr "Ana Maria"]})
                sample_env clinic).2 = [dr_perez; d].
Proof.
  destruct (@patient_update_keeps_identity sample_externals sample_config dr_perez 1
              (put "000000000000000000000002" {["name" := VStr "Ana Maria"]})
              sample_env clinic
              (match (@patient_update sample_externals sample_config dr_perez
                        (put "000000000000000000000002" {["name" := VStr "Ana Maria"]})
                        sample_env clinic).1 with
               | Ok res => res
               | Throw _ => not_found ""
               end))
    as (rid & d0 & d & Hr & Hin & Hsel & Hbody & Hkeep & Hs);
    [reflexivity | vm_compute; reflexivity | vm_compute; reflexivity |].
  injection Hr as <-.
  destruct Hin as [<-|[<-|[]]]; [discriminate Hsel|].
  exists d. split; [by rewrite (Hkeep "password") by (right; by left)|].
  split; [by rewrite (Hkeep "professionalId") by (do 3 right; by left)|].
  by rewrite Hs.
Defined.

(** ** Date ranges of lists *)

Section Dates.
Context `{Externals}.
Variable cfg : config.

Lemma with_dates_date (r : request) (q : query) :
  q !! "date" = None -> with_dates r q !! "date" = with_dates r ∅ !! "date".
Proof.
  intros Hq. unfold with_dates.
  destruct (q_param r "startDate"), (q_param r "endDate");
    rewrite ?lookup_insert_eq; done.
Qed.

Lemma with_dates_range (r : request) :
  q_param r "startDate" <> None \/ q_param r "endDate" <> None ->
  with_dates r ∅ !! "date"
  = Some (CRange (js_parseDate <$> q_param r "startDate")
            (js_parseDate <$> q_param r "endDate")).
Proof.
  intros Hp. unfold with_dates.
  destruct (q_param r "startDate"), (q_param r "endDate");
    rewrite ?lookup_insert_eq; try done. by destruct Hp.
Qed.

(** Every dated list is a paginated query whose filter has the date range
    of the query string, on a model that declares [date]. *)
Lemma dated_list_query (ep : endpoint) (user : doc) (r : request) (e : env) :
  In ep dated_lists ->
  exists (m : model) (q : query) (h : exn -> response) (p : pathSpec),
    handler cfg ep user r e = try_catch (paged cfg m q r) h
    /\ find_path m "date" = Some p
    /\ q !! "date" = with_dates r ∅ !! "date"
    /\ forall ex, response_docs (h ex) = [] /\ status (h ex) = 500.
Proof.
  intros [<-|[<-|[<-|[<-|[]]]]]; unfold handler.
  - unfold performance_list. cbv zeta. eexists PerformanceMetrics, _, _, _.
    split; [reflexivity|]. split; [reflexivity|]. split; [|done].
    destruct (q_param r "sport"); rewrite ?lookup_insert_ne by done;
      apply with_dates_date;
      destruct (is_professional user); [destruct (q_param r "userId")| |
                                        destruct (q_param r "userId")|];
      rewrite ?lookup_insert_ne by done; by apply lookup_singleton_ne.
  - unfold anthropometric_list. cbv zeta. eexists AnthropometricMeasurement, _, _, _.
    split; [reflexivity|]. split; [reflexivity|]. split; [|done].
    apply with_dates_date.
    destruct (is_professional user); [destruct (q_param r "athleteId")|];
      rewrite ?lookup_insert_ne by done; by apply lookup_singleton_ne.
  - unfold report_list. cbv zeta. eexists Report, _, _, _.
    split; [reflexivity|]. split; [reflexivity|]. split; [|done].
    apply with_dates_date.
    destruct (q_param r "format"); rewrite ?lookup_insert_ne by done;
      destruct (q_param r "type"); rewrite ?lookup_insert_ne by done;
      destruct (is_professional user); by apply lookup_singleton_ne.
  - unfold health_list. cbv zeta. eexists HealthMetrics, _, _, _.
    split; [reflexivity|]. split; [reflexivity|]. split; [|done].
    destruct (q_param r "source"); rewrite ?lookup_insert_ne by done;
      apply with_dates_date; by apply lookup_singleton_ne.
Qed.

Lemma strict_filter_keeps (m : model) (q : query) (k : string) (c : cond) (p : pathSpec) :
  q !! k = Some c -> find_path m k = Some p -> strict_filter cfg m q !! k = Some c.
Proof.
  intros Hq Hp. unfold strict_filter. destruct (strictQuery cfg); [|done].
  apply map_lookup_filter_Some. split; [done|]. simpl. rewrite Hp. eauto.
Qed.

(** A start or end date that does not parse makes a dated list fail with
    500, whoever asks and whatever else the query string holds; nothing is
    written. *)
Theorem unparsable_date_fails_the_list (ep : endpoint) (user : doc) (r : request) (e : env)
    (s : store) (raw : string) :
  In ep dated_lists ->
  js_parseDate raw = None ->
  q_param r "startDate" = Some raw \/ q_param r "endDate" = Some raw ->
  exists res, handler cfg ep user r e s = (Ok res, s) /\ status res = 500.
Proof.
  intros Hep Hraw Hq.
  destruct (dated_list_query ep user r e Hep) as (m & q & h & p & -> & Hp & Hdate & Hh).
  rewrite with_dates_range in Hdate
    by (destruct Hq as [-> | ->]; [by left | by right]).
  assert (exists ex, prepared cfg m q = Throw ex) as [ex Hthrow].
  { unfold prepared. eapply cast_query_throw; [exact (strict_filter_keeps _ _ _ _ _ Hdate Hp)|].
    unfold cast_cond. destruct Hq as [-> | ->]; simpl; rewrite Hraw; [done|].
    by destruct (js_parseDate <$> q_param r "startDate") as [[]|]. }
  exists (h ex). split; [|apply Hh].
  unfold try_catch. by rewrite paged_eq, Hthrow.
Qed.

Lemma range_lower (t0 : Z) (l : option (option Z)) (p : option value) :
  cond_holds (CRange (Some (Some t0)) l) p = true ->
  exists t, p = Some (VDate t) /\ t0 <= t.
Proof.
  simpl. destruct p as [[]|]; try done.
  intros [Hlo _]%andb_true_iff. eexists. split; [reflexivity|]. by apply Z.leb_le.
Qed.

Lemma range_upper (t1 : Z) (g : option (option Z)) (p : option value) :
  cond_holds (CRange g (Some (Some t1))) p = true ->
  exists t, p = Some (VDate t) /\ t <= t1.
Proof.
  unfold cond_holds. destruct g as [[|]|]; destruct p as [[]|]; try done;
    intros [_ Hhi]%andb_true_iff; eexists; (split; [reflexivity|]); by apply Z.leb_le.
Qed.

(** Every record of a dated list lies in the date range the query string
    asks for: not before a start date that parses, not after an end date
    that parses. *)
Theorem dated_list_respects_the_range (ep : endpoint) (user : doc) (r : request) (e : env)
    (s : store) (res : response) (x : doc) :
  In ep dated_lists ->
  (handler cfg ep user r e s).1 = Ok res -> In x (response_docs res) ->
  (forall raw t0, q_param r "startDate" = Some raw -> js_parseDate raw = Some t0 ->
                  exists t, x !! "date" = Some (VDate t) /\ t0 <= t)
  /\ (forall raw t1, q_param r "endDate" = Some raw -> js_parseDate raw = Some t1 ->
                     exists t, x !! "date" = Some (VDate t) /\ t <= t1).
Proof.
  intros Hep.
  destruct (dated_list_query ep user r e Hep) as (m & q & h & p & -> & Hp & Hdate & Hh).
  unfold try_catch. rewrite paged_eq.
  destruct (prepared cfg m q) as [q'|ex] eqn:Hprep;
    [|simpl; intros [= <-] Hx; by rewrite (proj1 (Hh ex)) in Hx].
  cbv zeta. destruct (skip_limit _ _ _) as [records|ex] eqn:Hrec;
    [|simpl; intros [= <-] Hx; by rewrite (proj1 (Hh ex)) in Hx].
  intros [= <-]. simpl. intros Hx.
  apply (In_skip_limit _ _ _ _ _ Hrec), In_sort_date_desc, filter_In in Hx as [_ Hm].
  assert (forall g l, q_param r "startDate" <> None \/ q_param r "endDate" <> None ->
            g = js_parseDate <$> q_param r "startDate" ->
            l = js_parseDate <$> q_param r "endDate" ->
            cond_holds (CRange g l) (x !! "date") = true) as Hholds.
  { intros g l Hsome -> ->. rewrite with_dates_range in Hdate by done.
    pose proof (prepared_lookup cfg _ _ _ _ _ _ Hprep Hdate Hp) as Hq'.
    destruct (cast_cond m "date" _) as [c'|] eqn:Hc.
    - assert (c' = CRange (js_parseDate <$> q_param r "startDate")
                     (js_parseDate <$> q_param r "endDate")) as ->.
      { unfold cast_cond in Hc.
        destruct (js_parseDate <$> q_param r "startDate") as [[]|],
                 (js_parseDate <$> q_param r "endDate") as [[]|]; simpl in Hc; congruence. }
      exact (matches_lookup _ _ _ _ Hm Hq').
    - unfold prepared in Hprep.
      destruct (cast_query_throw _ _ _ _ (strict_filter_keeps _ _ _ _ _ Hdate Hp) Hc)
        as [ex Hex]. congruence. }
  split.
  - intros raw t0 Hq Hraw. eapply range_lower. apply Hholds; [left; congruence | |reflexivity].
    by rewrite Hq; simpl; rewrite Hraw.
  - intros raw t1 Hq Hraw. eapply range_upper. apply Hholds; [right; congruence |reflexivity|].
    by rewrite Hq; simpl; rewrite Hraw.
Qed.

End Dates.

Lemma unparsable_date_fails_the_list_witness :
  @handler sample_externals sample_config HealthList ana (since "yesterday") sample_env
    clinic_with_health
  = (Ok {| status := 500;
           res_body := RError (Some "INTERNAL_SERVER_ERROR") "Error fetching health records"
                         [] |},
     clinic_with_health).
Proof.
  destruct (@unparsable_date_fails_the_list sample_externals sample_config HealthList ana
              (since "yesterday") sample_env clinic_with_health "yesterday")
    as (res & Hres & _); [do 3 right; by left | reflexivity | by left |].
  rewrite Hres. vm_compute in Hres. by injection Hres as <-.
Defined.

Lemma dated_list_respects_the_range_witness :
  exists t, ana_sleep !! "date" = Some (VDate t) /\ 1680000000000 <= t.
Proof.
  destruct (@dated_list_respects_the_range sample_externals sample_config HealthList ana
              (since "1680000000000") sample_env clinic_with_health
              {| status := 200; res_body := RPage "data" [ana_sleep] 1 1 10 (Some 1) |}
              ana_sleep) as [Hlo _];
    [do 3 right; by left | vm_compute; reflexivity | by left |].
  apply (Hlo "1680000000000"); reflexivity.
Defined.

(** ** Record updates assign what the body names *)

Section Reassigning.
Context `{Externals}.
Variable cfg : config.










End Reassigning.


(** ** Pages of a list *)

Section Pages.
Context `{Externals}.
Variable cfg : config.











End Pages.


(** ** A session is given for the password *)

Section Credentials.
Context `{Externals}.
Variable cfg : config.

(** The body the login handler reads after its validators ran: the email
    is replaced by its normal form, the rest is as submitted. *)
Lemma login_body (s : store) (b : doc) :
  (validationResult s login_validators b).2
  = <["email" := VStr (v_normalizeEmail (to_string (b !! "email")))]> b.
Proof.
  unfold login_validators. rewrite !validationResult_cons.
  cbn [fst snd validationResult fold_left]. unfold run_chain.
  cbn [check ch_if ch_optional ch_steps ch_field negb andb sanitizes existsb orb run_steps
       fst snd].
  assert (body_get b "email" = b !! "email") as ->.
  { unfold body_get. change (split_dot "email") with ["email"]. cbv iota beta.
    destruct (b !! "email"); reflexivity. }
  reflexivity.
Qed.

(** POST /auth/login answers 200 only for a stored user whose email is the
    submitted one, normalised, trimmed and lower-cased, and whose stored
    password hash bcrypt accepts for the submitted password; the session is
    that user's public profile with tokens issued to that user's id. *)
Theorem session_requires_the_password (r : request) (e : env) (s : store) (res : response) :
  (login cfg r e s).1 = Ok res -> status res = 200 ->
  exists u,
    In u (users s)
    /\ u !! "email"
       = Some (VStr (js_toLowerCase
                       (js_trim (v_normalizeEmail (to_string (req_body r !! "email"))))))
    /\ bcrypt_compare (to_string (req_body r !! "password")) (to_string (u !! "password"))
       = true
    /\ res_body res
       = RSession (Some (getPublicProfile u))
           (jwt_sign (oid_of u) None (JWT_SECRET cfg) one_hour (now e))
           (jwt_sign (oid_of u) None (REFRESH_TOKEN_SECRET cfg) seven_days (now e)).
Proof.
  unfold login. rewrite try_catch_get_store.
  pose proof (login_body s (req_body r)) as Hbody.
  destruct (validationResult s login_validators (req_body r)) as [errors b].
  simpl in Hbody. subst b.
  destruct errors as [|err errors]; [|unfold try_catch; simpl; intros [= <-] [=]].
  rewrite lookup_insert_eq, lookup_insert_ne by done. unfold as_filter. cbn [default].
  set (em := v_normalizeEmail (to_string (req_body r !! "email"))).
  rewrite (try_catch_bind _ _ _ _ _ (findOne_eq cfg User _ s)).
  destruct (prepared cfg User _) as [q'|ex] eqn:Hprep; [|intros [= <-] [=]].
  change (get_coll (m_coll User) s) with (users s).
  destruct (head (List.filter (matches q') (users s))) as [u|] eqn:Hhead;
    cbn [fmap option_fmap option_map]; [|unfold try_catch; simpl; intros [= <-] [=]].
  cbn [md_fields hydrate].
  destruct (comparePassword u (req_body r !! "password")) eqn:Hpw; cbn [negb];
    [|unfold try_catch; simpl; intros [= <-] [=]].
  unfold try_catch. simpl. intros [= <-] _.
  apply head_filter_In in Hhead as [Hin Hm].
  exists u. split; [exact Hin|]. split; [|split; [exact Hpw | reflexivity]].
  apply cond_holds_str. apply (matches_lookup _ _ _ _ Hm).
  rewrite (prepared_lookup cfg User _ q' "email" (CEq (VStr em))
             (path "email" TString [Required; Unique; Trim; Lowercase]) Hprep);
    [reflexivity | apply lookup_singleton_eq | reflexivity].
Qed.

End Credentials.

Lemma session_requires_the_password_witness :
  exists u, In u (users clinic)
            /\ @bcrypt_compare sample_externals "secret-pw"
                 (@to_string sample_externals (u !! "password"))
               = true.
Proof.
  destruct (@session_requires_the_password sample_externals sample_config
              (post {["email" := VStr "perez@clinic"; "password" := VStr "secret-pw"]})
              sample_env clinic
              (match (@login sample_externals sample_config
                        (post {["email" := VStr "perez@clinic";
                                "password" := VStr "secret-pw"]}) sample_env clinic).1 with
               | Ok res => res
               | Throw _ => not_found ""
               end))
    as (u & Hin & _ & Hpw & _); [vm_compute; reflexivity | vm_compute; reflexivity |].
  exists u. split; [exact Hin | exact Hpw].
Defined.

(** ** An email that is taken *)

Section TakenEmail.
Context `{Externals}.
Variable cfg : config.

(** [User.findOne({ email })] finds a user when one is stored under the
    email, trimmed and lower-cased. *)
Lemma email_lookup_finds (s : store) (em : string) (u : doc) :
  In u (users s) -> u !! "email" = Some (VStr (js_toLowerCase (js_trim em))) ->
  exists d, findOne cfg User {["email" := CEq (VStr em)]} s = (Ok (Some d), s).
Proof.
  intros Hin Hu. rewrite findOne_eq.
  set (q := {["email" := CEq (VStr em)]} : query).
  assert (strict_filter cfg User q = q) as Hs.
  { apply strict_filter_declared. apply map_Forall_singleton. simpl. eauto. }
  assert (cast_cond User "email" (CEq (VStr em))
          = Some (CEq (VStr (js_toLowerCase (js_trim em))))) as Hc by reflexivity.
  destruct (prepared_ok cfg User q) as [q' Hq].
  { rewrite Hs. apply map_Forall_singleton. rewrite Hc. eauto. }
  rewrite Hq. change (get_coll (m_coll User) s) with (users s).
  assert (matches q' u = true) as Hm.
  { apply (matches_prepared cfg _ _ _ u Hq). rewrite Hs. apply map_Forall_singleton.
    rewrite Hc. eexists. split; [reflexivity|]. by apply cond_holds_str. }
  destruct (head (List.filter (matches q') (users s))) as [d|] eqn:Hhead.
  - by exists (hydrate d).
  - rewrite (proj1 (head_filter_None _ _) Hhead u Hin) in Hm. discriminate Hm.
Qed.

(** POST /auth/register and POST /users/patients create nobody under an
    email that is taken: when a stored user has the submitted email,
    trimmed and lower-cased, the answer is 400 and the store is left as it
    was, whatever else the body holds. *)
Theorem taken_email_is_refused (ep : endpoint) (user : doc) (r : request) (e : env)
    (s : store) (u : doc) (em : string) :
  In ep [AuthRegister; PatientCreate] ->
  req_body r !! "email" = Some (VStr em) ->
  In u (users s) -> u !! "email" = Some (VStr (js_toLowerCase (js_trim em))) ->
  exists res, handler cfg ep user r e s = (Ok res, s) /\ status res = 400.
Proof.
  intros Hep Hb Hin Hu.
  destruct (email_lookup_finds s em u Hin Hu) as [d Hd].
  destruct Hep as [<-|[<-|[]]]; cbn [handler].
  - unfold register. rewrite try_catch_get_store.
    pose proof (validationResult_other s (register_validators cfg) (req_body r) "email") as Hbody.
    destruct (validationResult s (register_validators cfg) (req_body r)) as [errs b].
    destruct errs as [|err errs]; [|eexists; split; reflexivity].
    cbn [snd] in Hbody. rewrite Hbody, Hb.
    + unfold as_filter. cbn [default]. rewrite (try_catch_bind _ _ _ _ _ Hd).
      eexists. split; reflexivity.
    + repeat (apply List.Forall_cons;
                [first [solve [left; intros [=]] | solve [right; reflexivity]]|]).
      apply List.Forall_nil.
  - unfold patient_create. rewrite try_catch_get_store.
    pose proof (validationResult_other s patient_create_validators (req_body r) "email")
      as Hbody.
    destruct (validationResult s patient_create_validators (req_body r)) as [errs b].
    destruct errs as [|err errs]; [|eexists; split; reflexivity].
    cbn [snd] in Hbody. rewrite Hbody, Hb.
    + unfold as_filter. cbn [default]. rewrite (try_catch_bind _ _ _ _ _ Hd).
      eexists. split; reflexivity.
    + repeat (apply List.Forall_cons;
                [first [solve [left; intros [=]] | solve [right; reflexivity]]|]).
      apply List.Forall_nil.
Qed.

End TakenEmail.

Lemma taken_email_is_refused_witness :
  exists res,
    @handler sample_externals sample_config PatientCreate dr_perez
      (post {["name" := VStr "Ana"; "email" := VStr "ana@club"; "password" := VStr "12345678";
              "gender" := VStr "female"; "age" := VStr "20"; "country" := VStr "AR"]})
      sample_env clinic
    = (Ok res, clinic) /\ status res = 400.
Proof.
  apply (@taken_email_is_refused sample_externals sample_config PatientCreate dr_perez
           (post {["name" := VStr "Ana"; "email" := VStr "ana@club";
                   "password" := VStr "12345678"; "gender" := VStr "female";
                   "age" := VStr "20"; "country" := VStr "AR"]})
           sample_env clinic ana "ana@club");
    [right; by left | reflexivity | right; by left | vm_compute; reflexivity].
Defined.
